(** * The wapbox application layer (gw/wap-appl.c)

    A shallow embedding of the URL-map table, the content converter registry,
    the request assembler [start_fetch], the reply dispatcher [return_reply],
    the push header decoding, the event loop and the public interface of
    [gw/wap-appl.c], and of the LibSDB storage of delivery reports of
    [gw/dlr_sdb.c], together with the properties stated about them.

    Octet strings ([Octstr]) and C strings ([char *]) are both values of
    [string]; a C function sees such a value up to its first NUL octet.
    [int] and [long] values are in [Z], with the wrap-around of [int]
    written out where a length is stored in one.  A pointer that may be
    NULL is an [option].  The process-wide URL-map list and the session
    machines are passed explicitly; what the code hands to the WSP layer, to
    the HTTP caller or to the PPG is the result of the function.  A result
    [None] stands for a run that leaves defined behaviour or stops the
    process.

    gwlib, the compilers and the WSP tables are not part of this file's
    source: the list and string primitives are modelled by what their names
    and the specification say, everything else is a parameter of the
    sections below.  The build is the one without [ENABLE_COOKIES].
    Logging calls ([debug], [warning], [error], [alog]) and the [fetches]
    counter are not observed by any property below and are left out.  Of
    the two threads the file has one turn of each loop: [main_thread_turn]
    for an event taken from the queue, [return_replies_turn] for a result
    received from the HTTP caller. *)

From Stdlib Require Import ZArith List String Ascii Bool Lia.
From Stdlib Require Import Numbers.DecimalString.
Import ListNotations.

Open Scope string_scope.
Open Scope Z_scope.

(** ** C strings and the libc functions used by the URL map *)

Module CString.

Definition NUL : ascii := Ascii.zero.

Definition is_nul (c : ascii) : bool := Ascii.eqb c NUL.

Definition code (c : ascii) : Z := Z.of_nat (nat_of_ascii c).

(** [int] and [size_t] on an LP64 machine. *)
Definition int_of (z : Z) : Z := (z + 2 ^ 31) mod 2 ^ 32 - 2 ^ 31.
Definition size_t_of (z : Z) : Z := z mod 2 ^ 64.

(** The octet a [char *] points at: the terminator at the end of the data. *)
Definition head (s : string) : ascii :=
  match s with
  | EmptyString => NUL
  | String c _ => c
  end.

Definition tail (s : string) : string :=
  match s with
  | EmptyString => EmptyString
  | String _ t => t
  end.

Fixpoint strlen (s : string) : nat :=
  match s with
  | EmptyString => O
  | String c t => if is_nul c then O else S (strlen t)
  end.

(** The octets before the first NUL: what [strcpy] and [gw_strdup] copy. *)
Fixpoint c_str (s : string) : string :=
  match s with
  | EmptyString => EmptyString
  | String c t => if is_nul c then EmptyString else String c (c_str t)
  end.

Fixpoint take (n : nat) (s : string) : string :=
  match n, s with
  | S n', String c t => String c (take n' t)
  | _, _ => EmptyString
  end.

Fixpoint drop (n : nat) (s : string) : string :=
  match n, s with
  | S n', String _ t => drop n' t
  | _, _ => s
  end.

(** [s + i] for a [char *s]: defined up to and including the terminator. *)
Definition c_offset (s : string) (i : Z) : option string :=
  if (0 <=? i) && (i <=? Z.of_nat (strlen s))
  then Some (drop (Z.to_nat i) s)
  else None.

(** [s[i]]: the octet at [s + i]. *)
Definition c_index (s : string) (i : Z) : option ascii :=
  option_map head (c_offset s i).

(** [tolower] in the C locale. *)
Definition tolower (c : ascii) : ascii :=
  let n := nat_of_ascii c in
  if (65 <=? n)%nat && (n <=? 90)%nat then ascii_of_nat (n + 32) else c.

Fixpoint lower (s : string) : string :=
  match s with
  | EmptyString => EmptyString
  | String c t => String (tolower c) (lower t)
  end.

(** [strncasecmp(s1, s2, n)]: compares at most [n] octets, folding case,
    and stops after a NUL common to both. *)
Fixpoint strncasecmp (s1 s2 : string) (n : Z) : Z :=
  if n =? 0 then 0
  else
    match s1 with
    | EmptyString => code (tolower NUL) - code (tolower (head s2))
    | String a t1 =>
        let c1 := tolower a in
        let c2 := tolower (head s2) in
        if negb (Ascii.eqb c1 c2) then code c1 - code c2
        else if is_nul c1 then 0
        else strncasecmp t1 (tail s2) (n - 1)
    end.

Definition gw_strdup (s : string) : string := c_str s.

End CString.

Import CString.

(** ** Octet strings (gwlib/octstr.c) *)

Definition Octstr := string.

(** Modelled from the spec: [octstr_get_cstr] of gwlib/octstr.c (not under
    src/) hands out the octets of the string as a [char *]. *)
Definition octstr_get_cstr (o : Octstr) : string := o.

(** Modelled from the spec: [octstr_len] of gwlib/octstr.c is the number of
    octets of the string (the spec's "body length"). *)
Definition octstr_len (o : Octstr) : Z := Z.of_nat (String.length o).

(** Modelled from the spec: [octstr_create_from_data(data, len)] of
    gwlib/octstr.c copies [len] octets starting at [data]; reading outside
    the C string [data] is undefined. *)
Definition octstr_create_from_data (data : string) (len : Z) : option Octstr :=
  if (0 <=? len) && (len <=? Z.of_nat (strlen data))
  then Some (take (Z.to_nat len) data)
  else None.

(** Modelled from the spec: [octstr_append_cstr(o, s)] of gwlib/octstr.c
    appends the C string [s] ("append the tail of url"). *)
Definition octstr_append_cstr (o : Octstr) (s : string) : Octstr := o ++ c_str s.

(** Modelled from the spec: [octstr_compare] and [octstr_str_compare] of
    gwlib/octstr.c order two strings and return 0 exactly when they are
    equal ("url equals the reserved value", "content.type equals a
    converter's source_type"). *)
Definition octstr_compare (a b : Octstr) : Z :=
  match String.compare a b with
  | Eq => 0
  | Lt => -1
  | Gt => 1
  end.

Definition octstr_str_compare (a : Octstr) (s : string) : Z := octstr_compare a s.

(** ** The map-url mechanism *)

Definition WSP_HTTP_MAP_INPREFIX : Z := 1.
Definition WSP_HTTP_MAP_OUTPREFIX : Z := 2.
Definition WSP_HTTP_MAP_INOUTPREFIX : Z := 3.

Record wsp_http_map : Type := mk_wsp_http_map {
  flags : Z;
  in_ : string;
  in_len : Z;
  out : string;
  out_len : Z
}.

Definition star : ascii := "*"%char.

(** [wsp_http_map_url_do_config]: the list [wsp_http_map .. wsp_http_map_last]
    is the [list] argument, the new entry goes to its tail.  [None] stands
    for an access outside a string (undefined in C). *)
Definition wsp_http_map_url_do_config (src dst : option string)
    (maps : list wsp_http_map) : option (list wsp_http_map) :=
  let in_len0 := match src with
                 | Some s => int_of (Z.of_nat (strlen s))
                 | None => 0
                 end in
  let out_len0 := match dst with
                  | Some d => int_of (Z.of_nat (strlen d))
                  | None => 0
                  end in
  if in_len0 =? 0 then Some maps
  else
    match src, dst with
    | Some s, Some d =>
        match c_index s (in_len0 - 1), c_index d (out_len0 - 1) with
        | Some cs, Some cd =>
            let '(flags1, in_len1) :=
              if Ascii.eqb cs star
              then (Z.lor 0 WSP_HTTP_MAP_INPREFIX, int_of (in_len0 - 1))
              else (0, int_of (in_len0 + 1)) in
            let '(flags2, out_len1) :=
              if Ascii.eqb cd star
              then (Z.lor flags1 WSP_HTTP_MAP_OUTPREFIX, int_of (out_len0 - 1))
              else (flags1, out_len0) in
            Some (maps ++ [ {| flags := flags2;
                               in_ := gw_strdup s; in_len := in_len1;
                               out := gw_strdup d; out_len := out_len1 |} ])%list
        | _, _ => None
        end
    | _, _ => None
    end.

(** [wsp_http_map_url_config_device_home].  The copy into the [len + 2]
    octets of [newto] stays inside them only when [len] is the length. *)
Definition wsp_http_map_url_config_device_home (to : option string)
    (maps : list wsp_http_map) : option (list wsp_http_map) :=
  match to with
  | None => Some maps
  | Some t =>
      let len := int_of (Z.of_nat (strlen t)) in
      match c_index t len with
      | None => None
      | Some c =>
          if negb (Ascii.eqb c star)
          then
            if len =? Z.of_nat (strlen t)
            then
              let newto := c_str t ++ String star EmptyString in
              wsp_http_map_url_do_config (Some "DEVICE:home*") (Some newto) maps
            else None
          else wsp_http_map_url_do_config (Some "DEVICE:home*") (Some t) maps
      end
  end.

(** A configuration read, line by line: "map-url" lines, with source and
    destination already split at the blank as [wsp_http_map_url_config]
    does, and "device-home" lines. *)
Inductive config_line : Type :=
| Map_url (src dst : string)
| Device_home (to : string).

Definition config_step (l : config_line) (maps : list wsp_http_map)
    : option (list wsp_http_map) :=
  match l with
  | Map_url src dst => wsp_http_map_url_do_config (Some src) (Some dst) maps
  | Device_home to => wsp_http_map_url_config_device_home (Some to) maps
  end.

Fixpoint wsp_http_map_url_config_all (cfg : list config_line)
    (maps : list wsp_http_map) : option (list wsp_http_map) :=
  match cfg with
  | [] => Some maps
  | l :: rest =>
      match config_step l maps with
      | Some maps' => wsp_http_map_url_config_all rest maps'
      | None => None
      end
  end.

(** [wsp_http_map_find]: the first entry, in list order, that compares equal. *)
Fixpoint wsp_http_map_find (maps : list wsp_http_map) (s : string)
    : option wsp_http_map :=
  match maps with
  | [] => None
  | run :: next =>
      if 0 =? strncasecmp s (in_ run) (size_t_of (in_len run))
      then Some run
      else wsp_http_map_find next s
  end.

(** [wsp_http_map_url]: the new value of [*osp]. *)
Definition wsp_http_map_url (maps : list wsp_http_map) (osp : Octstr)
    : option Octstr :=
  let oldstr := octstr_get_cstr osp in
  match wsp_http_map_find maps oldstr with
  | None => Some osp
  | Some map =>
      match octstr_create_from_data (out map) (out_len map) with
      | None => None
      | Some new =>
          if WSP_HTTP_MAP_INOUTPREFIX =? Z.land (flags map) WSP_HTTP_MAP_INOUTPREFIX
          then
            match c_offset oldstr (in_len map) with
            | Some rest => Some (octstr_append_cstr new rest)
            | None => None
            end
          else Some new
      end
  end.

(** *** The rewrite as the specification words it *)

Definition in_prefix (r : wsp_http_map) : bool :=
  negb (Z.land (flags r) WSP_HTTP_MAP_INPREFIX =? 0).

Definition out_prefix (r : wsp_http_map) : bool :=
  negb (Z.land (flags r) WSP_HTTP_MAP_OUTPREFIX =? 0).

Definition spec_in_pattern (r : wsp_http_map) : string :=
  if in_prefix r then take (Z.to_nat (in_len r)) (in_ r) else in_ r.

Definition spec_out_pattern (r : wsp_http_map) : string :=
  take (Z.to_nat (out_len r)) (out r).

(** A prefix rule matches when the leading [in_len] octets of the URL are
    the pattern up to case; a rule without ['*'] asks for the whole URL. *)
Definition spec_matches (u : string) (r : wsp_http_map) : bool :=
  if in_prefix r
  then (Z.to_nat (in_len r) <=? String.length u)%nat
       && String.eqb (lower (take (Z.to_nat (in_len r)) u)) (lower (spec_in_pattern r))
  else String.eqb (lower u) (lower (spec_in_pattern r)).

Definition spec_rewrite (rules : list wsp_http_map) (u : string) : string :=
  match find (spec_matches u) rules with
  | None => u
  | Some r =>
      if in_prefix r && out_prefix r
      then spec_out_pattern r ++ drop (Z.to_nat (in_len r)) u
      else spec_out_pattern r
  end.

(** Configuration strings whose length an [int] holds, with room for the
    increment of [in_len]. *)
Definition fits_int (s : string) : Prop := Z.of_nat (strlen s) < 2 ^ 31 - 1.

Definition line_fits (l : config_line) : Prop :=
  match l with
  | Map_url src dst => fits_int src /\ fits_int dst
  | Device_home to => Z.of_nat (strlen to) < 2 ^ 31 - 2
  end.

(** What [wsp_http_map_url_do_config] establishes for every entry. *)
Record wf_map (r : wsp_http_map) : Prop := {
  wf_in : c_str (in_ r) = in_ r;
  wf_out : c_str (out r) = out r;
  wf_in_fits : fits_int (in_ r);
  wf_flags : flags r = 0 \/ flags r = 1 \/ flags r = 2 \/ flags r = 3;
  wf_in_len :
    if in_prefix r
    then 0 <= in_len r /\ in_len r = Z.of_nat (String.length (in_ r)) - 1
    else in_len r = Z.of_nat (String.length (in_ r)) + 1;
  wf_out_len : 0 <= out_len r <= Z.of_nat (String.length (out r))
}.

(** ** HTTP header lists (gwlib/http.c) *)

(** A header is its field name and its value; a header list keeps order. *)
Definition header : Type := (string * string)%type.

Definition header_name (h : header) : string := fst h.
Definition header_value (h : header) : string := snd h.

(** Modelled from the spec: field names are compared without regard to case,
    as gwlib/http.c (not under src/) does for every lookup by name. *)
Definition header_is_called (name : string) (h : header) : bool :=
  String.eqb (lower (header_name h)) (lower name).

(** Modelled from the spec: [http_create_empty_headers] of gwlib/http.c
    ("if the headers list is missing, create empty"). *)
Definition http_create_empty_headers : list header := [].

(** Modelled from the spec: [http_header_add] of gwlib/http.c appends one
    header to the list; name and value arrive as C strings. *)
Definition http_header_add (headers : list header) (name value : string)
    : list header :=
  (headers ++ [(c_str name, c_str value)])%list.

(** Modelled from the spec: [http_header_find_all] and
    [http_header_remove_all] of gwlib/http.c ("partition by field name",
    "remove all X-WAP.TOD"); the latter also returns how many it removed. *)
Definition http_header_find_all (headers : list header) (name : string)
    : list header :=
  filter (header_is_called name) headers.

Definition http_header_remove_all (headers : list header) (name : string)
    : list header * Z :=
  (filter (fun h => negb (header_is_called name h)) headers,
   Z.of_nat (List.length (filter (header_is_called name) headers))).

Definition has_header (name : string) (headers : list header) : bool :=
  existsb (header_is_called name) headers.

(** Modelled from the spec: the status constants and [http_status_class] of
    gwlib/http.h ("200 OK", "501 Not Implemented", "502 Bad Gateway", the
    "2xx" class). *)
Definition HTTP_OK : Z := 200.
Definition HTTP_NOT_IMPLEMENTED : Z := 501.
Definition HTTP_BAD_GATEWAY : Z := 502.
Definition HTTP_STATUS_UNKNOWN : Z := 0.
Definition HTTP_STATUS_SUCCESSFUL : Z := 200.

Definition http_status_class (code : Z) : Z :=
  if (code <? 100) || (600 <=? code) then HTTP_STATUS_UNKNOWN
  else code - code mod 100.

(** [%ld] of [sprintf] and [octstr_format]. *)
Definition format_ld (z : Z) : string :=
  match z with
  | Z0 => "0"
  | _ => NilEmpty.string_of_int (Z.to_int z)
  end.

(** ** WSP events (wap/wap_events.h), as far as this layer reads and writes
    them *)

Record WAPAddr : Type := { address : Octstr; port : Z }.
Record WAPAddrTuple : Type := { remote : WAPAddr; local : WAPAddr }.

Module U.

Module S_MethodInvoke_Ind.
Record t : Type := {
  server_transaction_id : Z;
  session_id : Z;
  request_uri : Octstr;
  method : Octstr;
  request_headers : option (list header);
  session_headers : option (list header);
  request_body : option Octstr;
  addr_tuple : WAPAddrTuple;
  client_SDU_size : Z
}.
End S_MethodInvoke_Ind.

Module S_Unit_MethodInvoke_Ind.
Record t : Type := {
  transaction_id : Z;
  request_uri : Octstr;
  method : Octstr;
  request_headers : option (list header);
  request_body : option Octstr;
  addr_tuple : WAPAddrTuple
}.
End S_Unit_MethodInvoke_Ind.

Module S_MethodResult_Req.
Record t : Type := {
  server_transaction_id : Z;
  status : Z;
  response_headers : list header;
  response_body : Octstr;
  session_id : Z
}.
End S_MethodResult_Req.

Module S_Unit_MethodResult_Req.
Record t : Type := {
  addr_tuple : WAPAddrTuple;
  transaction_id : Z;
  status : Z;
  response_headers : list header;
  response_body : Octstr
}.
End S_Unit_MethodResult_Req.

Module S_Connect_Ind.
Record t (Cap : Type) : Type := {
  addr_tuple : WAPAddrTuple;
  client_headers : option (list header);
  requested_capabilities : list Cap;
  session_id : Z
}.
Arguments addr_tuple {Cap} _.
Arguments client_headers {Cap} _.
Arguments requested_capabilities {Cap} _.
Arguments session_id {Cap} _.
End S_Connect_Ind.

Module Pom_Connect_Ind.
Record t (Cap : Type) : Type := {
  addr_tuple : WAPAddrTuple;
  requested_capabilities : list Cap;
  accept_application : list header;
  bearer_indication : option (list header);
  push_headers : option (list header);
  session_id : Z
}.
Arguments addr_tuple {Cap} _.
Arguments requested_capabilities {Cap} _.
Arguments accept_application {Cap} _.
Arguments bearer_indication {Cap} _.
Arguments push_headers {Cap} _.
Arguments session_id {Cap} _.
End Pom_Connect_Ind.

End U.

(** The two events [start_fetch] is called with, and the two it answers
    with. *)
Inductive WAPEvent : Type :=
| S_MethodInvoke_Ind (p : U.S_MethodInvoke_Ind.t)
| S_Unit_MethodInvoke_Ind (p : U.S_Unit_MethodInvoke_Ind.t)
| S_MethodResult_Req (p : U.S_MethodResult_Req.t)
| S_Unit_MethodResult_Req (p : U.S_Unit_MethodResult_Req.t).

(** The part of a WSP session machine this layer touches. *)
Record WSPMachine : Type := { referer_url : option Octstr }.

(** Modelled from the spec: the session machines of the WSP layer (wap/wsp,
    not under src/), looked up by session id with
    [find_session_machine_by_id], which yields NULL for an unknown id. *)
Definition machines : Type := Z -> option WSPMachine.

Definition find_session_machine_by_id (ms : machines) (id : Z)
    : option WSPMachine := ms id.

Definition update_machine (ms : machines) (id : Z) (sm : WSPMachine)
    : machines :=
  fun k => if k =? id then Some sm else ms k.

(** [set_referer_url]: stores a copy of [url] in the machine with id [id]. *)
Definition set_referer_url (url : Octstr) (id : Z) (ms : machines) : machines :=
  update_machine ms id {| referer_url := Some url |}.

Definition get_referer_url (sm : option WSPMachine) : option Octstr :=
  match sm with
  | Some m => referer_url m
  | None => None
  end.

Record content : Type := {
  body : option Octstr;
  type : Octstr;
  charset : Octstr;
  url : Octstr
}.

Definition set_body (c : content) (b : option Octstr) : content :=
  {| body := b; type := type c; charset := charset c; url := url c |}.

Definition set_type (c : content) (t : Octstr) : content :=
  {| body := body c; type := t; charset := charset c; url := url c |}.

(** ** The gateway, over its collaborators *)

Module Converter.
Record t : Type := {
  type : string;
  result_type : string;
  convert : content -> option Octstr
}.
End Converter.

Module Request_data.
Record t : Type := {
  client_SDU_size : Z;
  event : WAPEvent;
  session_id : Z;
  url : Octstr;
  x_wap_tod : Z;
  request_headers : list header
}.
End Request_data.

(** The arguments of one call of [return_reply]. *)
Module Reply_call.
Record t : Type := {
  status : Z;
  content_body : option Octstr;
  headers : option (list header);
  sdu_size : Z;
  orig_event : WAPEvent;
  session_id : Z;
  url : Octstr;
  x_wap_tod : Z;
  request_headers : list header
}.
End Reply_call.

(** What [start_fetch] does with an event: it either calls [return_reply]
    itself or hands the request to the HTTP caller, never both. *)
Inductive fetch_action : Type :=
| Call_return_reply (c : Reply_call.t)
| Call_http_start_request (method : Z) (url : Octstr) (headers : list header)
    (body : option Octstr) (follow : Z) (p : Request_data.t).

(** What [return_reply] leaves behind: the event dispatched to the WSP
    layer, the content bundle at that moment and the session machines. *)
Record reply_outcome : Type := {
  emitted : WAPEvent;
  final_content : content;
  machines_after : machines
}.

Definition dq : string := String (ascii_of_nat 34) EmptyString.

(** [HEALTH_DECK], returned for the URL "kannel:alive". *)
Definition HEALTH_DECK : string :=
  "<?xml version=" ++ dq ++ "1.0" ++ dq ++ "?>"
  ++ "<!DOCTYPE wml PUBLIC " ++ dq ++ "-//WAPFORUM//DTD 1.1//EN" ++ dq ++ " "
  ++ dq ++ "http://www.wapforum.org/DTD/wml_1.1.xml" ++ dq ++ ">"
  ++ "<wml><card id=" ++ dq ++ "health" ++ dq ++ "><p>Ok</p></card></wml>".

(** Modelled from the spec: [WS_OK] of wmlscript/ws.h (not under src/), the
    result code of a successful compilation. *)
Definition WS_OK : Z := 0.

Section Gateway.

(** The WML and WMLScript compilers: result code and output. *)
Variable wml_compile : option Octstr -> Octstr -> Z * Octstr.
Variable ws_compile_data : string -> option Octstr -> Z * Octstr.

(** [wml_charsets()], queried once by [wap_appl_init]. *)
Variable charsets : list Octstr.

(** gwlib/http.c, not under src/: taken as given. *)
Variable http_type_accepted : list header -> string -> bool.
Variable http_charset_accepted : list header -> string -> bool.
Variable http_header_combine : list header -> list header -> list header.
Variable http_remove_hop_headers : list header -> list header.
Variable http_header_pack : list header -> list header.
Variable http_header_get_content_type : list header -> Octstr * Octstr.
Variable http_header_mark_transformation :
  list header -> option Octstr -> Octstr -> list header.
Variable http_name2method : Octstr -> Z.

(** [date_format_http(time(NULL))]: NULL when the date cannot be formatted. *)
Variable gateway_time : option Octstr.

(** [get_official_name()], [GW_NAME] and [VERSION]. *)
Variable official_name : Octstr.
Variable GW_NAME : string.
Variable VERSION : string.

(** The smart error policy ([extern] in the source) and the error decks of
    wap-error.h. *)
Variable wsp_smart_errors : Z.
Variable device_home : option Octstr.
Variable error_requesting_back : Octstr -> Octstr -> Octstr.
Variable error_requesting : Octstr -> Octstr.

(** The configured URL map. *)
Variable wsp_http_map_list : list wsp_http_map.

(** [convert_wml_to_wmlc]. *)
Definition convert_wml_to_wmlc (c : content) : option Octstr :=
  let '(ret, wmlc) := wml_compile (body c) (charset c) in
  if ret =? 0 then Some wmlc else None.

(** [convert_wmlscript_to_wmlscriptc]; [ws_create] is taken to succeed (the
    source ends the process otherwise), the data pointer and length passed
    to [ws_compile_data] are the body. *)
Definition convert_wmlscript_to_wmlscriptc (c : content) : option Octstr :=
  let '(result, result_data) :=
    ws_compile_data (octstr_get_cstr (url c)) (body c) in
  if negb (result =? WS_OK) then None else Some result_data.

Definition converters : list Converter.t :=
  [ {| Converter.type := "text/vnd.wap.wml";
       Converter.result_type := "application/vnd.wap.wmlc";
       Converter.convert := convert_wml_to_wmlc |};
    {| Converter.type := "text/vnd.wap.wmlscript";
       Converter.result_type := "application/vnd.wap.wmlscriptc";
       Converter.convert := convert_wmlscript_to_wmlscriptc |} ].

(** The [for] loop of [convert_content] from converter [i] on, with the
    [failed] flag; the result is the return value and the content. *)
Fixpoint convert_content_from (cs : list Converter.t) (failed : Z)
    (c : content) : Z * content :=
  match cs with
  | [] => (if negb (failed =? 0) then -1 else 0, c)
  | cv :: rest =>
      if octstr_str_compare (type c) (Converter.type cv) =? 0
      then
        match Converter.convert cv c with
        | Some new_body =>
            (1, set_type (set_body c (Some new_body)) (Converter.result_type cv))
        | None => convert_content_from rest 1 c
        end
      else convert_content_from rest failed c
  end.

Definition convert_content (c : content) : Z * content :=
  convert_content_from converters 0 c.

Definition add_kannel_version (headers : list header) : list header :=
  http_header_add headers "X-WAP-Gateway" (GW_NAME ++ "/" ++ VERSION).

Definition add_charset_headers (headers : list header) : list header :=
  fold_left
    (fun hs cs =>
       let charset := octstr_get_cstr cs in
       if negb (http_charset_accepted hs charset)
       then http_header_add hs "Accept-Charset" charset
       else hs)
    charsets headers.

Definition add_accept_headers (headers : list header) : list header :=
  fold_left
    (fun hs cv =>
       if http_type_accepted hs (Converter.result_type cv)
          && negb (http_type_accepted hs (Converter.type cv))
       then http_header_add hs "Accept" (Converter.type cv)
       else hs)
    converters headers.

Definition add_network_info (headers : list header) (addr_tuple : WAPAddrTuple)
    : list header :=
  if octstr_len (address (remote addr_tuple)) >? 0
  then http_header_add headers "X_Network_Info"
         (octstr_get_cstr (address (remote addr_tuple)))
  else headers.

Definition add_session_id (headers : list header) (session_id : Z)
    : list header :=
  if negb (session_id =? -1)
  then http_header_add headers "X-WAP-Session-ID" (format_ld session_id)
  else headers.

Definition add_client_sdu_size (headers : list header) (sdu_size : Z)
    : list header :=
  if sdu_size >? 0
  then http_header_add headers "X-WAP-Client-SDU-Size" (format_ld sdu_size)
  else headers.

Definition add_via (headers : list header) : list header :=
  let os := "WAP/1.1 " ++ official_name ++ " (" ++ GW_NAME ++ "/"
            ++ c_str VERSION ++ ")" in
  http_header_add headers "Via" (octstr_get_cstr os).

Definition add_x_wap_tod (headers : list header) : list header :=
  match gateway_time with
  | None => headers
  | Some t => http_header_add headers "X-WAP.TOD" (octstr_get_cstr t)
  end.

Definition add_referer_url (headers : list header) (url : Octstr)
    : list header :=
  if octstr_len url >? 0
  then http_header_add headers "Referer" (octstr_get_cstr url)
  else headers.

(** *** [return_reply] *)

(** Lines 547-562: the error deck of the smart error policy. *)
Definition smart_error_deck (ms : machines) (session_id : Z) (url : Octstr)
    : Octstr :=
  match get_referer_url (find_session_machine_by_id ms session_id) with
  | Some referer_url => error_requesting_back url referer_url
  | None =>
      match device_home with
      | Some home => error_requesting_back url home
      | None => error_requesting url
      end
  end.

(** Lines 541-562: status and content as the smart error policy sets them,
    before [convert_content] sees them. *)
Definition smart_error_content (ms : machines) (session_id : Z) (url : Octstr)
    : Z * content :=
  (HTTP_OK,
   {| body := Some (smart_error_deck ms session_id url);
      type := "text/vnd.wap.wml";
      charset := EmptyString;
      url := url |}).

(** Lines 535-580, the arm for [status < 0]. *)
Definition return_reply_failure (ms : machines) (headers : option (list header))
    (session_id : Z) (url : Octstr)
    : Z * content * option (list header) :=
  if negb (wsp_smart_errors =? 0)
  then
    let '(status, c) := smart_error_content ms session_id url in
    let headers1 := match headers with
                    | None => http_create_empty_headers
                    | Some h => h
                    end in
    let '(converted, c1) := convert_content c in
    let headers2 := if converted =? 1
                    then http_header_mark_transformation headers1 (body c1) (type c1)
                    else headers1 in
    (status, c1, Some headers2)
  else
    (HTTP_BAD_GATEWAY,
     {| body := Some EmptyString; type := "text/plain";
        charset := EmptyString; url := url |},
     headers).

(** Lines 582-619, the arm for [status >= 0] (built without
    [ENABLE_COOKIES]).  The arm reads the header list: without one
    ([None]) the call does not come back. *)
Definition return_reply_success (ms : machines) (content_body : option Octstr)
    (headers : option (list header)) (session_id : Z) (url : Octstr)
    : option (content * option (list header) * machines) :=
  match headers with
  | None => None
  | Some h =>
      let '(ty, cs) := http_header_get_content_type h in
      let c := {| body := content_body; type := ty; charset := cs; url := url |} in
      let '(converted, c1) := convert_content c in
      if converted =? 1
      then
        let h1 := http_header_mark_transformation h (body c1) (type c1) in
        let ms1 :=
          if negb (session_id =? -1)
          then
            match find_session_machine_by_id ms session_id with
            | Some _ => set_referer_url url session_id ms
            | None => ms
            end
          else ms in
        Some (c1, Some h1, ms1)
      else Some (c1, Some h, ms)
  end.

(** Lines 621-626: the header list of the reply. *)
Definition reply_headers (headers : option (list header)) (x_wap_tod : Z)
    : list header :=
  let h0 := match headers with
            | None => http_create_empty_headers
            | Some h => h
            end in
  let h1 := http_remove_hop_headers h0 in
  let h2 := fst (http_header_remove_all h1 "X-WAP.TOD") in
  if negb (x_wap_tod =? 0) then add_x_wap_tod h2 else h2.

(** Lines 628-629. *)
Definition reply_body (c : content) : content :=
  match body c with
  | None => set_body c (Some EmptyString)
  | Some _ => c
  end.

(** Lines 638-647: the body of an error reply in a type the client does
    not accept is deleted. *)
Definition reply_accept_filter (status : Z) (request_headers : list header)
    (c : content) (headers : list header) : content * list header :=
  if negb (http_status_class status =? HTTP_STATUS_SUCCESSFUL)
     && negb (http_type_accepted request_headers (octstr_get_cstr (type c)))
  then
    let c1 := set_type (set_body c (Some EmptyString)) "text/plain" in
    (c1, http_header_mark_transformation headers (body c1) (type c1))
  else (c, headers).

Definition body_len (c : content) : Z :=
  match body c with
  | Some b => octstr_len b
  | None => 0
  end.

(** Lines 653-667: a body larger than the client SDU size is suppressed. *)
Definition reply_sdu_limit (sdu_size : Z) (status : Z) (c : content)
    (headers : list header) : Z * content * list header :=
  if (body_len c >? sdu_size) && (sdu_size >? 0)
  then
    let status1 := if http_status_class status =? HTTP_STATUS_SUCCESSFUL
                   then HTTP_BAD_GATEWAY else status in
    let c1 := set_body c (Some EmptyString) in
    (status1, c1, http_header_mark_transformation headers (body c1) (type c1))
  else (status, c, headers).

Definition body_octets (c : content) : Octstr :=
  match body c with
  | Some b => b
  | None => EmptyString
  end.

(** [return_session_reply]. *)
Definition return_session_reply (server_transaction_id status : Z)
    (headers : list header) (b : Octstr) (session_id : Z) : WAPEvent :=
  S_MethodResult_Req
    {| U.S_MethodResult_Req.server_transaction_id := server_transaction_id;
       U.S_MethodResult_Req.status := status;
       U.S_MethodResult_Req.response_headers := headers;
       U.S_MethodResult_Req.response_body := b;
       U.S_MethodResult_Req.session_id := session_id |}.

(** [return_unit_reply]. *)
Definition return_unit_reply (tuple : WAPAddrTuple) (transaction_id status : Z)
    (headers : list header) (b : Octstr) : WAPEvent :=
  S_Unit_MethodResult_Req
    {| U.S_Unit_MethodResult_Req.addr_tuple := tuple;
       U.S_Unit_MethodResult_Req.transaction_id := transaction_id;
       U.S_Unit_MethodResult_Req.status := status;
       U.S_Unit_MethodResult_Req.response_headers := headers;
       U.S_Unit_MethodResult_Req.response_body := b |}.

(** Lines 669-676: the event handed to the WSP layer.  Only the two invoke
    events reach [return_reply]. *)
Definition reply_event (orig_event : WAPEvent) (status : Z)
    (headers : list header) (c : content) (session_id : Z) : option WAPEvent :=
  match orig_event with
  | S_MethodInvoke_Ind p =>
      Some (return_session_reply (U.S_MethodInvoke_Ind.server_transaction_id p)
              status headers (body_octets c) session_id)
  | S_Unit_MethodInvoke_Ind p =>
      Some (return_unit_reply (U.S_Unit_MethodInvoke_Ind.addr_tuple p)
              (U.S_Unit_MethodInvoke_Ind.transaction_id p)
              status headers (body_octets c))
  | _ => None
  end.

(** [return_reply] up to, and without, the SDU check of lines 653-667. *)
Definition return_reply_until_sdu (ms : machines) (status : Z)
    (content_body : option Octstr) (headers : option (list header))
    (session_id : Z) (url : Octstr) (x_wap_tod : Z)
    (request_headers : list header)
    : option (Z * content * list header * machines) :=
  let arm :=
    if status <? 0
    then
      let '(status1, c, h) := return_reply_failure ms headers session_id url in
      Some (status1, c, h, ms)
    else
      match return_reply_success ms content_body headers session_id url with
      | Some (c, h, ms1) => Some (status, c, h, ms1)
      | None => None
      end in
  match arm with
  | None => None
  | Some (status1, c, h, ms1) =>
      let h1 := reply_headers h x_wap_tod in
      let c1 := reply_body c in
      let '(c2, h2) := reply_accept_filter status1 request_headers c1 h1 in
      Some (status1, c2, h2, ms1)
  end.

Definition return_reply (ms : machines) (status : Z)
    (content_body : option Octstr) (headers : option (list header))
    (sdu_size : Z) (orig_event : WAPEvent) (session_id : Z) (url : Octstr)
    (x_wap_tod : Z) (request_headers : list header) : option reply_outcome :=
  match return_reply_until_sdu ms status content_body headers session_id url
          x_wap_tod request_headers with
  | None => None
  | Some (status1, c, h, ms1) =>
      let '(status2, c1, h1) := reply_sdu_limit sdu_size status1 c h in
      match reply_event orig_event status2 h1 c1 session_id with
      | Some e =>
          Some {| emitted := e; final_content := c1; machines_after := ms1 |}
      | None => None
      end
  end.

Definition perform_return_reply (ms : machines) (c : Reply_call.t)
    : option reply_outcome :=
  return_reply ms (Reply_call.status c) (Reply_call.content_body c)
    (Reply_call.headers c) (Reply_call.sdu_size c) (Reply_call.orig_event c)
    (Reply_call.session_id c) (Reply_call.url c) (Reply_call.x_wap_tod c)
    (Reply_call.request_headers c).

(** *** [start_fetch] (built without [ENABLE_COOKIES]) *)

Definition magic_url : Octstr := "kannel:alive".

Definition is_method (method : Octstr) (name : string) : bool :=
  octstr_str_compare method name =? 0.

(** Lines 773-778: session and request headers in one new list. *)
Definition combined_headers (session_headers request_headers : option (list header))
    : list header :=
  let h0 : list header := [] in
  let h1 := match session_headers with
            | Some sh => http_header_combine h0 sh
            | None => h0
            end in
  match request_headers with
  | Some rh => http_header_combine h1 rh
  | None => h1
  end.

(** Lines 773-804: the headers of the outbound request and the
    [x_wap_tod] flag. *)
Definition fetch_headers (ms : machines)
    (session_headers request_headers : option (list header))
    (addr_tuple : WAPAddrTuple) (session_id client_SDU_size : Z)
    : list header * Z :=
  let h2 := combined_headers session_headers request_headers in
  let h3 := http_remove_hop_headers h2 in
  let '(h4, removed) := http_header_remove_all h3 "X-WAP.TOD" in
  let x_wap_tod := int_of removed in
  let h5 := add_accept_headers h4 in
  let h6 := add_charset_headers h5 in
  let h7 := add_network_info h6 addr_tuple in
  let h8 := add_client_sdu_size h7 client_SDU_size in
  let h9 := add_via h8 in
  let h10 :=
    if negb (session_id =? -1)
    then
      match get_referer_url (find_session_machine_by_id ms session_id) with
      | Some referer_url => add_referer_url h9 referer_url
      | None => h9
      end
    else h9 in
  let h11 := add_kannel_version h10 in
  let h12 := add_session_id h11 session_id in
  (http_header_pack h12, x_wap_tod).

(** [start_fetch]: the one call it ends with.  [None] is an access outside
    a string while the URL is mapped, or an event that is not an invoke
    event (none reaches [start_fetch]). *)
Definition start_fetch (ms : machines) (event : WAPEvent) : option fetch_action :=
  let fields :=
    match event with
    | S_MethodInvoke_Ind p =>
        Some (U.S_MethodInvoke_Ind.session_headers p,
              U.S_MethodInvoke_Ind.request_headers p,
              U.S_MethodInvoke_Ind.request_uri p,
              U.S_MethodInvoke_Ind.addr_tuple p,
              U.S_MethodInvoke_Ind.session_id p,
              U.S_MethodInvoke_Ind.client_SDU_size p,
              U.S_MethodInvoke_Ind.request_body p,
              U.S_MethodInvoke_Ind.method p)
    | S_Unit_MethodInvoke_Ind p =>
        Some (None,
              U.S_Unit_MethodInvoke_Ind.request_headers p,
              U.S_Unit_MethodInvoke_Ind.request_uri p,
              U.S_Unit_MethodInvoke_Ind.addr_tuple p,
              -1,
              0,
              U.S_Unit_MethodInvoke_Ind.request_body p,
              U.S_Unit_MethodInvoke_Ind.method p)
    | _ => None
    end in
  match fields with
  | None => None
  | Some (session_headers, request_headers, url0, addr_tuple, session_id,
          client_SDU_size, request_body, method) =>
      match wsp_http_map_url wsp_http_map_list url0 with
      | None => None
      | Some url =>
          let '(actual_headers, x_wap_tod) :=
            fetch_headers ms session_headers request_headers addr_tuple
              session_id client_SDU_size in
          if is_method method "GET" && (octstr_compare url magic_url =? 0)
          then
            let resp_headers :=
              http_header_add [] "Content-Type" "text/vnd.wap.wml" in
            Some (Call_return_reply
                    {| Reply_call.status := HTTP_OK;
                       Reply_call.content_body := Some HEALTH_DECK;
                       Reply_call.headers := Some resp_headers;
                       Reply_call.sdu_size := client_SDU_size;
                       Reply_call.orig_event := event;
                       Reply_call.session_id := session_id;
                       Reply_call.url := url;
                       Reply_call.x_wap_tod := x_wap_tod;
                       Reply_call.request_headers := actual_headers |})
          else if is_method method "GET" || is_method method "POST"
                  || is_method method "HEAD"
          then
            let request_body1 :=
              match request_body with
              | Some _ =>
                  if is_method method "GET" || is_method method "HEAD"
                  then None else request_body
              | None => request_body
              end in
            let p := {| Request_data.client_SDU_size := client_SDU_size;
                        Request_data.event := event;
                        Request_data.session_id := session_id;
                        Request_data.url := url;
                        Request_data.x_wap_tod := x_wap_tod;
                        Request_data.request_headers := actual_headers |} in
            Some (Call_http_start_request (http_name2method method) url
                    actual_headers request_body1 0 p)
          else
            Some (Call_return_reply
                    {| Reply_call.status := HTTP_NOT_IMPLEMENTED;
                       Reply_call.content_body := Some EmptyString;
                       Reply_call.headers := Some http_create_empty_headers;
                       Reply_call.sdu_size := client_SDU_size;
                       Reply_call.orig_event := event;
                       Reply_call.session_id := session_id;
                       Reply_call.url := url;
                       Reply_call.x_wap_tod := x_wap_tod;
                       Reply_call.request_headers := actual_headers |})
      end
  end.

(** The event the WSP layer receives while [start_fetch] runs, if any: the
    synthetic replies go through [return_reply] at once, a submitted
    request is answered later by the reply thread. *)
Definition start_fetch_reply (ms : machines) (event : WAPEvent)
    : option (option reply_outcome) :=
  match start_fetch ms event with
  | None => None
  | Some (Call_return_reply c) =>
      match perform_return_reply ms c with
      | Some o => Some (Some o)
      | None => None
      end
  | Some (Call_http_start_request _ _ _ _ _ _) => Some None
  end.

End Gateway.

(** ** Push OTA: Accept-Application and Bearer-Indication *)

(** How a call that contains the translation loop ends: it returns, or the
    process stops inside it (a failed gwlib assertion, a list used after
    its destruction), or the loop is still turning when the fuel is used
    up.  The last two carry the application headers built so far. *)
Inductive run (A : Type) : Type :=
| Returned (a : A)
| Stopped (built : list header)
| Running (built : list header).

Arguments Returned {A} a.
Arguments Stopped {A} built.
Arguments Running {A} built.

(** Modelled from the spec: [octstr_get_char] of gwlib/octstr.c, the octet
    at a position ("the single byte value"), -1 outside the string. *)
Definition octstr_get_char (o : Octstr) (pos : Z) : Z :=
  if (0 <=? pos) && (pos <? octstr_len o)
  then code (head (drop (Z.to_nat pos) o))
  else -1.

Definition unsigned_char_of (z : Z) : Z := z mod 256.

Section PushOTA.

(** wap/wsp_strings.h, not under src/: the WINA application-id and the
    bearer-indication registries. *)
Variable wsp_application_id_to_cstr : Z -> option string.
Variable wsp_bearer_indication_to_cstr : Z -> option string.

(** The address [octstr_get_cstr] returns for the value fetched in the
    iteration with index [i]; 0 is NULL. *)
Variable coded_value_address : Z -> Z.

(** What [http_header_get] finds at a position outside the list: nothing
    (the assertion of [list_get] stops the process) or some header. *)
Variable header_outside : list header -> Z -> option header.

Variable Cap : Type.

(** Modelled from the spec: [http_header_get] of gwlib/http.c reads name and
    value of the header at a position and leaves the list as it is; what it
    does outside the list is [header_outside]. *)
Definition http_header_get (headers : list header) (i : Z) : option header :=
  if (0 <=? i) && (i <? Z.of_nat (List.length headers))
  then nth_error headers (Z.to_nat i)
  else header_outside headers i.

(** [split_header_list]: the new [*headers] and [*new_headers]; the latter
    is not assigned when there is no header list. *)
Definition split_header_list (headers : option (list header)) (name : string)
    : option (list header) * option (list header) :=
  match headers with
  | None => (None, None)
  | Some h =>
      let new_headers := http_header_find_all h name in
      (Some (fst (http_header_remove_all h name)), Some new_headers)
  end.

(** Lines 1168-1185: the [while] loop of [check_application_headers], from
    the state ([i], [appid_value], [*application_headers]). *)
Fixpoint application_loop (fuel : nat) (inh : list header) (i : Z)
    (appid_value : option string) (application_headers : list header)
    : run (list header) :=
  match fuel with
  | O => Running application_headers
  | S fuel' =>
      if Z.of_nat (List.length inh) >? 0
      then
        match http_header_get inh i with
        | None => Stopped application_headers
        | Some (appid_name, coded_octstr) =>
            let coded_value := coded_value_address i in
            let appid_value1 :=
              if negb (coded_value =? 0)
              then wsp_application_id_to_cstr coded_value
              else appid_value in
            let application_headers1 :=
              match appid_value1 with
              | Some v =>
                  if negb (coded_value =? 0)
                  then http_header_add application_headers "Accept-Application" v
                  else application_headers
              | None => application_headers
              end in
            application_loop fuel' inh (int_of (i + 1)) appid_value1
              application_headers1
        end
      else Returned application_headers
  end.

(** [check_application_headers]: the new [*headers] and
    [*application_headers]. *)
Definition check_application_headers (fuel : nat)
    (headers : option (list header)) (application_headers : list header)
    : run (option (list header) * list header) :=
  let '(headers1, inh) := split_header_list headers "Accept-Application" in
  match headers1, inh with
  | Some _, Some l =>
      if Z.of_nat (List.length l) =? 0
      then Returned (headers1,
                     http_header_add application_headers "Accept-Application" "wml ua")
      else
        match application_loop fuel l 0 None application_headers with
        | Returned a => Returned (headers1, a)
        | Stopped b => Stopped b
        | Running b => Running b
        end
  | _, _ =>
      Returned (headers1,
                http_header_add application_headers "Accept-Application" "wml ua")
  end.

(** [decode_bearer_indication]: the new [*headers] and [*bearer_headers];
    [None] for the latter is the list after [http_destroy_headers]. *)
Definition decode_bearer_indication (headers : option (list header))
    (bearer_headers : list header)
    : option (list header) * option (list header) :=
  match headers with
  | None => (None, Some bearer_headers)
  | Some _ =>
      let '(headers1, inb) := split_header_list headers "Bearer-Indication" in
      match inb with
      | None | Some [] => (headers1, Some bearer_headers)
      | Some [(name, coded_octstr)] =>
          let coded_value := unsigned_char_of (octstr_get_char coded_octstr 0) in
          match wsp_bearer_indication_to_cstr coded_value with
          | Some value =>
              if negb (coded_value =? 0)
              then (headers1,
                    Some (http_header_add bearer_headers "Bearer-Indication" value))
              else (headers1, None)
          | None => (headers1, None)
          end
      | Some (_ :: _ :: _) => (headers1, Some bearer_headers)
      end
  end.

(** [indicate_push_connection]: the [Pom_Connect_Ind] dispatched to the PPG. *)
Definition indicate_push_connection (fuel : nat) (e : U.S_Connect_Ind.t Cap)
    : run (U.Pom_Connect_Ind.t Cap) :=
  let push_headers := U.S_Connect_Ind.client_headers e in
  let application_headers := http_create_empty_headers in
  let bearer_headers := http_create_empty_headers in
  match check_application_headers fuel push_headers application_headers with
  | Stopped b => Stopped b
  | Running b => Running b
  | Returned (push_headers1, application_headers1) =>
      let '(push_headers2, bearer_headers1) :=
        decode_bearer_indication push_headers1 bearer_headers in
      match bearer_headers1 with
      | None => Stopped application_headers1
      | Some bh =>
          Returned
            {| U.Pom_Connect_Ind.addr_tuple := U.S_Connect_Ind.addr_tuple e;
               U.Pom_Connect_Ind.requested_capabilities :=
                 U.S_Connect_Ind.requested_capabilities e;
               U.Pom_Connect_Ind.accept_application := application_headers1;
               U.Pom_Connect_Ind.bearer_indication :=
                 if Z.of_nat (List.length bh) =? 0 then None else Some bh;
               U.Pom_Connect_Ind.push_headers := push_headers2;
               U.Pom_Connect_Ind.session_id := U.S_Connect_Ind.session_id e |}
      end
  end.

End PushOTA.

(** ** Reading events *)

Definition emitted_status (e : WAPEvent) : Z :=
  match e with
  | S_MethodResult_Req p => U.S_MethodResult_Req.status p
  | S_Unit_MethodResult_Req p => U.S_Unit_MethodResult_Req.status p
  | _ => 0
  end.

Definition emitted_headers (e : WAPEvent) : list header :=
  match e with
  | S_MethodResult_Req p => U.S_MethodResult_Req.response_headers p
  | S_Unit_MethodResult_Req p => U.S_Unit_MethodResult_Req.response_headers p
  | _ => []
  end.

Definition emitted_body (e : WAPEvent) : Octstr :=
  match e with
  | S_MethodResult_Req p => U.S_MethodResult_Req.response_body p
  | S_Unit_MethodResult_Req p => U.S_Unit_MethodResult_Req.response_body p
  | _ => EmptyString
  end.

Definition invoke_method (e : WAPEvent) : option Octstr :=
  match e with
  | S_MethodInvoke_Ind p => Some (U.S_MethodInvoke_Ind.method p)
  | S_Unit_MethodInvoke_Ind p => Some (U.S_Unit_MethodInvoke_Ind.method p)
  | _ => None
  end.

Definition invoke_uri (e : WAPEvent) : option Octstr :=
  match e with
  | S_MethodInvoke_Ind p => Some (U.S_MethodInvoke_Ind.request_uri p)
  | S_Unit_MethodInvoke_Ind p => Some (U.S_Unit_MethodInvoke_Ind.request_uri p)
  | _ => None
  end.

Definition is_invoke (e : WAPEvent) : bool :=
  match e with
  | S_MethodInvoke_Ind _ | S_Unit_MethodInvoke_Ind _ => true
  | _ => false
  end.

(** The 2xx class, in numbers. *)
Definition is_2xx (status : Z) : bool := (200 <=? status) && (status <? 300).

Definition X_WAP_TOD : string := "X-WAP.TOD".

(** No header of the list is hop-by-hop, for a given reading of
    "hop-by-hop". *)
Definition no_hop_headers (is_hop_header : header -> bool) (hs : list header)
    : bool :=
  forallb (fun h => negb (is_hop_header h)) hs.

Definition available (t : option Octstr) : bool :=
  match t with
  | Some _ => true
  | None => false
  end.

(** The two facts about the header list of a reply: no hop-by-hop header,
    and X-WAP.TOD exactly when the flag is set and the gateway time could
    be formatted. *)
Definition reply_headers_ok (is_hop_header : header -> bool)
    (gateway_time : option Octstr) (x_wap_tod : Z) (hs : list header) : Prop :=
  no_hop_headers is_hop_header hs = true
  /\ has_header X_WAP_TOD hs = negb (x_wap_tod =? 0) && available gateway_time.

(** ** Stand-ins for the collaborators

    Simple functions in the place of gwlib and of the compilers, to run the
    embedding on concrete inputs.  They meet the contracts that the
    properties below ask of the collaborators; they are not a model of
    gwlib. *)

Module Sample.

Definition hop_names : list string :=
  [ "Connection"; "Keep-Alive"; "Proxy-Authenticate"; "Proxy-Authorization";
    "TE"; "Trailers"; "Transfer-Encoding"; "Upgrade" ].

Definition is_hop_header (h : header) : bool :=
  existsb (fun n => header_is_called n h) hop_names.

Definition remove_hop_headers (hs : list header) : list header :=
  filter (fun h => negb (is_hop_header h)) hs.

Definition mark_transformation (hs : list header) (b : option Octstr)
    (t : Octstr) : list header :=
  let hs1 := fst (http_header_remove_all hs "Content-Length") in
  let hs2 := fst (http_header_remove_all hs1 "Content-Type") in
  let len := match b with
             | Some o => octstr_len o
             | None => 0
             end in
  http_header_add (http_header_add hs2 "Content-Length" (format_ld len))
    "Content-Type" t.

Definition accepted (field : string) (hs : list header) (v : string) : bool :=
  existsb (fun h => header_is_called field h && String.eqb (header_value h) v) hs.

Definition combine (old new : list header) : list header := (old ++ new)%list.

Definition pack (hs : list header) : list header := hs.

Definition get_content_type (hs : list header) : Octstr * Octstr :=
  match find (header_is_called "Content-Type") hs with
  | Some h => (header_value h, EmptyString)
  | None => ("application/octet-stream", EmptyString)
  end.

Definition name2method (m : Octstr) : Z :=
  if String.eqb m "GET" then 1 else if String.eqb m "POST" then 2 else 3.

Definition wml_compile (b : option Octstr) (cs : Octstr) : Z * Octstr :=
  match b with
  | Some o => (0, "wmlc:" ++ o)
  | None => (-1, EmptyString)
  end.

Definition ws_compile_data (name : string) (b : option Octstr) : Z * Octstr :=
  match b with
  | Some o => (WS_OK, "wmlsc:" ++ o)
  | None => (1, EmptyString)
  end.

Definition error_requesting_back (u back : Octstr) : Octstr :=
  "<wml>error " ++ u ++ " back " ++ back ++ "</wml>".

Definition error_requesting (u : Octstr) : Octstr :=
  "<wml>error " ++ u ++ "</wml>".

Definition no_machines : machines := fun _ => None.

(** One session, with id 7 and no referer yet. *)
Definition one_machine : machines :=
  fun id => if id =? 7 then Some {| referer_url := None |} else None.

Definition tuple : WAPAddrTuple :=
  {| remote := {| address := "10.0.0.7"; port := 9201 |};
     local := {| address := "10.0.0.1"; port := 9201 |} |}.

Definition unit_invoke (m u : Octstr) (hs : list header) : WAPEvent :=
  S_Unit_MethodInvoke_Ind
    {| U.S_Unit_MethodInvoke_Ind.transaction_id := 5;
       U.S_Unit_MethodInvoke_Ind.request_uri := u;
       U.S_Unit_MethodInvoke_Ind.method := m;
       U.S_Unit_MethodInvoke_Ind.request_headers := Some hs;
       U.S_Unit_MethodInvoke_Ind.request_body := None;
       U.S_Unit_MethodInvoke_Ind.addr_tuple := tuple |}.

Definition session_invoke (m u : Octstr) (sdu : Z) : WAPEvent :=
  S_MethodInvoke_Ind
    {| U.S_MethodInvoke_Ind.server_transaction_id := 42;
       U.S_MethodInvoke_Ind.session_id := 7;
       U.S_MethodInvoke_Ind.request_uri := u;
       U.S_MethodInvoke_Ind.method := m;
       U.S_MethodInvoke_Ind.request_headers := Some [];
       U.S_MethodInvoke_Ind.session_headers := None;
       U.S_MethodInvoke_Ind.request_body := None;
       U.S_MethodInvoke_Ind.addr_tuple := tuple;
       U.S_MethodInvoke_Ind.client_SDU_size := sdu |}.

Definition run_return_reply (gateway_time : option Octstr) (smart_errors : Z)
    (home : option Octstr) :=
  return_reply wml_compile ws_compile_data (accepted "Accept")
    remove_hop_headers get_content_type mark_transformation gateway_time
    smart_errors home error_requesting_back error_requesting.

Definition run_start_fetch (maps : list wsp_http_map) :=
  start_fetch wml_compile ws_compile_data ["utf-8"] (accepted "Accept")
    (accepted "Accept-Charset") combine remove_hop_headers pack name2method
    "wap.example.org" "Kannel" "1.3.1" maps.

Definition run_start_fetch_reply (gateway_time : option Octstr)
    (maps : list wsp_http_map) :=
  start_fetch_reply wml_compile ws_compile_data ["utf-8"] (accepted "Accept")
    (accepted "Accept-Charset") combine remove_hop_headers pack
    get_content_type mark_transformation name2method gateway_time
    "wap.example.org" "Kannel" "1.3.1" 0 None error_requesting_back
    error_requesting maps.

(** A two-entry application-id registry, a heap address for the value
    fetched in each iteration, and a [list_get] that stops the process
    outside the list. *)
Definition application_id (id : Z) : option string :=
  if id =? 2 then Some "wml ua"
  else if id =? 4 then Some "mms ua"
  else None.

Definition heap_address (i : Z) : Z := 6365200 + 64 * i.

Definition stop_outside (hs : list header) (i : Z) : option header := None.

(** One Accept-Application header whose value is the octet 4. *)
Definition accept_mms : list header :=
  [("Accept-Application", String (ascii_of_nat 4) EmptyString)].

End Sample.

(** ** Further functions of gw/wap-appl.c

    *** The "map-url" line *)

(** [strtok] of libc, with the saved pointer made explicit: the token at
    the start of [s], or NULL when only delimiters are left, and the place
    where the next call resumes. *)
Definition in_delim (delim : string) (c : ascii) : bool :=
  existsb (Ascii.eqb c) (list_ascii_of_string delim).

Fixpoint strtok_skip (delim : string) (s : string) : string :=
  match s with
  | EmptyString => EmptyString
  | String c t =>
      if is_nul c then EmptyString
      else if in_delim delim c then strtok_skip delim t
      else s
  end.

Fixpoint strtok_token (delim : string) (s : string) : string * string :=
  match s with
  | EmptyString => (EmptyString, EmptyString)
  | String c t =>
      if is_nul c then (EmptyString, EmptyString)
      else if in_delim delim c then (EmptyString, t)
      else let '(tok, saved) := strtok_token delim t in (String c tok, saved)
  end.

Definition strtok (delim : string) (s : string) : option string * string :=
  match strtok_skip delim s with
  | EmptyString => (None, EmptyString)
  | String c t =>
      let '(tok, saved) := strtok_token delim (String c t) in (Some tok, saved)
  end.

(** The delimiters of [wsp_http_map_url_config]: blank and tab. *)
Definition blank_tab : string :=
  String " "%char (String (ascii_of_nat 9) EmptyString).

(** [wsp_http_map_url_config]: one "map-url" statement. *)
Definition wsp_http_map_url_config (s : string) (maps : list wsp_http_map)
    : option (list wsp_http_map) :=
  let s1 := gw_strdup s in
  let '(in_tok, saved) := strtok blank_tab s1 in
  match in_tok with
  | None => Some maps
  | Some i =>
      let '(out_tok, _) := strtok blank_tab saved in
      match out_tok with
      | None => Some maps
      | Some o => wsp_http_map_url_do_config (Some i) (Some o) maps
      end
  end.

(** The public configuration calls, in the order they are made. *)
Inductive config_call : Type :=
| Call_map_url (s : string)
| Call_device_home (to : string).

Definition config_call_step (c : config_call) (maps : list wsp_http_map)
    : option (list wsp_http_map) :=
  match c with
  | Call_map_url s => wsp_http_map_url_config s maps
  | Call_device_home to => wsp_http_map_url_config_device_home (Some to) maps
  end.

Fixpoint config_calls (cs : list config_call) (maps : list wsp_http_map)
    : option (list wsp_http_map) :=
  match cs with
  | [] => Some maps
  | c :: rest =>
      match config_call_step c maps with
      | Some maps' => config_calls rest maps'
      | None => None
      end
  end.

Definition call_fits (c : config_call) : Prop :=
  match c with
  | Call_map_url s => fits_int s
  | Call_device_home to => Z.of_nat (strlen to) < 2 ^ 31 - 2
  end.

(** Strings of blanks and tabs, and words: no blank, no tab, no NUL. *)
Fixpoint all_blank (s : string) : bool :=
  match s with
  | EmptyString => true
  | String c t => in_delim blank_tab c && all_blank t
  end.

Fixpoint is_word (s : string) : bool :=
  match s with
  | EmptyString => true
  | String c t => negb (is_nul c) && negb (in_delim blank_tab c) && is_word t
  end.

(** Where a word ends: at the end of the string or at a blank. *)
Definition at_word_end (s : string) : bool :=
  match s with
  | EmptyString => true
  | String c _ => in_delim blank_tab c
  end.

Definition at_word_start (s : string) : bool :=
  match s with
  | EmptyString => false
  | String c _ => negb (is_nul c) && negb (in_delim blank_tab c)
  end.

(** The rest of a line after the destination: nothing, or something that
    starts with a blank, a tab or a NUL. *)
Definition ends_word (rest : string) : bool :=
  match rest with
  | EmptyString => true
  | String c _ => is_nul c || in_delim blank_tab c
  end.

(** *** The reply thread *)

Section Reply_thread.

Variable wml_compile : option Octstr -> Octstr -> Z * Octstr.
Variable ws_compile_data : string -> option Octstr -> Z * Octstr.
Variable http_type_accepted : list header -> string -> bool.
Variable http_remove_hop_headers : list header -> list header.
Variable http_header_get_content_type : list header -> Octstr * Octstr.
Variable http_header_mark_transformation :
  list header -> option Octstr -> Octstr -> list header.
Variable gateway_time : option Octstr.
Variable wsp_smart_errors : Z.
Variable device_home : option Octstr.
Variable error_requesting_back : Octstr -> Octstr -> Octstr.
Variable error_requesting : Octstr -> Octstr.

(** One turn of the loop of [return_replies_thread]: [http_receive_result]
    has handed over the request data [p] that [start_fetch] gave to the
    HTTP caller, with the status, headers and body of the completion; they
    go to [return_reply].  (The final URL is only destroyed.) *)
Definition return_replies_turn (ms : machines) (p : Request_data.t)
    (status : Z) (headers : option (list header)) (body : option Octstr)
    : option reply_outcome :=
  return_reply wml_compile ws_compile_data http_type_accepted
    http_remove_hop_headers http_header_get_content_type
    http_header_mark_transformation gateway_time wsp_smart_errors device_home
    error_requesting_back error_requesting ms status body headers
    (Request_data.client_SDU_size p) (Request_data.event p)
    (Request_data.session_id p) (Request_data.url p)
    (Request_data.x_wap_tod p) (Request_data.request_headers p).

End Reply_thread.

(** *** Reading invoke events and replies *)

Definition invoke_request_body (e : WAPEvent) : option Octstr :=
  match e with
  | S_MethodInvoke_Ind p => U.S_MethodInvoke_Ind.request_body p
  | S_Unit_MethodInvoke_Ind p => U.S_Unit_MethodInvoke_Ind.request_body p
  | _ => None
  end.

(** The session id and the SDU size [start_fetch] works with: the unit
    event has no session (-1) and no limit (0). *)
Definition invoke_session_id (e : WAPEvent) : Z :=
  match e with
  | S_MethodInvoke_Ind p => U.S_MethodInvoke_Ind.session_id p
  | _ => -1
  end.

Definition invoke_sdu_size (e : WAPEvent) : Z :=
  match e with
  | S_MethodInvoke_Ind p => U.S_MethodInvoke_Ind.client_SDU_size p
  | _ => 0
  end.

(** A reply answers an invoke event when it is of the matching kind and
    carries the identifiers of the event. *)
Definition answers (event reply : WAPEvent) : Prop :=
  match event, reply with
  | S_MethodInvoke_Ind q, S_MethodResult_Req r =>
      U.S_MethodResult_Req.server_transaction_id r
      = U.S_MethodInvoke_Ind.server_transaction_id q
      /\ U.S_MethodResult_Req.session_id r = U.S_MethodInvoke_Ind.session_id q
  | S_Unit_MethodInvoke_Ind q, S_Unit_MethodResult_Req r =>
      U.S_Unit_MethodResult_Req.addr_tuple r = U.S_Unit_MethodInvoke_Ind.addr_tuple q
      /\ U.S_Unit_MethodResult_Req.transaction_id r
         = U.S_Unit_MethodInvoke_Ind.transaction_id q
  | _, _ => False
  end.

(** The names of the headers the gateway puts on a request. *)
Definition gateway_header_names : list string :=
  [ "Accept"; "Accept-Charset"; "X_Network_Info"; "X-WAP-Client-SDU-Size";
    "Via"; "Referer"; "X-WAP-Gateway"; "X-WAP-Session-ID" ].

Definition session_header_names : list string :=
  [ "X-WAP-Client-SDU-Size"; "Referer"; "X-WAP-Session-ID" ].

Definition named_in (names : list string) (h : header) : bool :=
  existsb (String.eqb (header_name h)) names.

(** One header list continues another by headers that all pass a test. *)
Definition grows_by (Q : header -> bool) (h1 h2 : list header) : Prop :=
  exists added, h2 = (h1 ++ added)%list /\ forallb Q added = true.

(** The test a header added to a request passes: its name is one of the
    gateway's, and, when there is no session and no SDU size, none of those
    that describe them. *)
Definition added_ok (session_id sdu_size : Z) (h : header) : bool :=
  named_in gateway_header_names h
  && (negb ((session_id =? -1) && (sdu_size <=? 0))
      || negb (named_in session_header_names h)).

(** More runs with the stand-ins. *)
Module Sample_more.

Definition run_return_replies_turn (gateway_time : option Octstr) :=
  return_replies_turn Sample.wml_compile Sample.ws_compile_data
    (Sample.accepted "Accept") Sample.remove_hop_headers
    Sample.get_content_type Sample.mark_transformation gateway_time 0 None
    Sample.error_requesting_back Sample.error_requesting.

Definition run_perform_return_reply (gateway_time : option Octstr) :=
  perform_return_reply Sample.wml_compile Sample.ws_compile_data
    (Sample.accepted "Accept") Sample.remove_hop_headers
    Sample.get_content_type Sample.mark_transformation gateway_time 0 None
    Sample.error_requesting_back Sample.error_requesting.

Definition run_fetch_headers :=
  fetch_headers Sample.wml_compile Sample.ws_compile_data ["utf-8"]
    (Sample.accepted "Accept") (Sample.accepted "Accept-Charset")
    Sample.combine Sample.remove_hop_headers Sample.pack "wap.example.org"
    "Kannel" "1.3.1".

Definition run_add_accept_headers :=
  add_accept_headers Sample.wml_compile Sample.ws_compile_data
    (Sample.accepted "Accept").

(** A unit POST with a body. *)
Definition unit_post (u : Octstr) (b : Octstr) : WAPEvent :=
  S_Unit_MethodInvoke_Ind
    {| U.S_Unit_MethodInvoke_Ind.transaction_id := 5;
       U.S_Unit_MethodInvoke_Ind.request_uri := u;
       U.S_Unit_MethodInvoke_Ind.method := "POST";
       U.S_Unit_MethodInvoke_Ind.request_headers := Some [];
       U.S_Unit_MethodInvoke_Ind.request_body := Some b;
       U.S_Unit_MethodInvoke_Ind.addr_tuple := Sample.tuple |}.

End Sample_more.

(** ** The event loop *)

(** The other primitives [main_thread] handles and emits, with the fields
    wap-appl.c reads and writes. *)
Module P.

Module S_MethodInvoke_Res.
Record t : Type := {
  server_transaction_id : Z;
  session_id : Z
}.
End S_MethodInvoke_Res.

Module S_Connect_Res.
Record t (Cap : Type) : Type := {
  server_headers : option (list header);
  negotiated_capabilities : list Cap;
  session_id : Z
}.
Arguments server_headers {Cap} _.
Arguments negotiated_capabilities {Cap} _.
Arguments session_id {Cap} _.
End S_Connect_Res.

Module S_Disconnect_Ind.
Record t : Type := {
  reason_code : Z;
  error_headers : option Octstr;
  error_body : option Octstr;
  session_handle : Z
}.
End S_Disconnect_Ind.

Module S_Suspend_Ind.
Record t : Type := {
  reason : Z;
  session_id : Z
}.
End S_Suspend_Ind.

Module S_Resume_Ind.
Record t : Type := {
  addr_tuple : WAPAddrTuple;
  client_headers : option (list header);
  session_id : Z
}.
End S_Resume_Ind.

Module S_Resume_Res.
Record t : Type := {
  server_headers : option (list header);
  session_id : Z
}.
End S_Resume_Res.

Module S_ConfirmedPush_Cnf.
Record t : Type := {
  server_push_id : Z;
  session_id : Z
}.
End S_ConfirmedPush_Cnf.

Module S_PushAbort_Ind.
Record t : Type := {
  push_id : Z;
  reason : Z;
  session_id : Z
}.
End S_PushAbort_Ind.

Module Pom_Connect_Res.
Record t (Cap : Type) : Type := {
  negotiated_capabilities : list Cap;
  session_id : Z
}.
Arguments negotiated_capabilities {Cap} _.
Arguments session_id {Cap} _.
End Pom_Connect_Res.

Module Pom_Disconnect_Ind.
Record t : Type := {
  reason_code : Z;
  error_headers : option Octstr;
  error_body : option Octstr;
  session_handle : Z
}.
End Pom_Disconnect_Ind.

Module Pom_Suspend_Ind.
Record t : Type := {
  reason : Z;
  session_id : Z
}.
End Pom_Suspend_Ind.

Module Pom_Resume_Ind.
Record t : Type := {
  addr_tuple : WAPAddrTuple;
  bearer_indication : option (list header);
  client_headers : option (list header);
  session_id : Z
}.
End Pom_Resume_Ind.

Module Po_ConfirmedPush_Cnf.
Record t : Type := {
  server_push_id : Z;
  session_handle : Z
}.
End Po_ConfirmedPush_Cnf.

Module Po_PushAbort_Ind.
Record t : Type := {
  push_id : Z;
  reason : Z;
  session_handle : Z
}.
End Po_PushAbort_Ind.

End P.

(** What [list_consume] hands to [main_thread]: the cases of its [switch];
    [Other] is any event type the switch leaves to [default]. *)
Module Queued.
Inductive t (Cap : Type) : Type :=
| S_MethodInvoke_Ind (q : U.S_MethodInvoke_Ind.t)
| S_Unit_MethodInvoke_Ind (q : U.S_Unit_MethodInvoke_Ind.t)
| S_Connect_Ind (q : U.S_Connect_Ind.t Cap)
| S_Disconnect_Ind (q : P.S_Disconnect_Ind.t)
| S_Suspend_Ind (q : P.S_Suspend_Ind.t)
| S_Resume_Ind (q : P.S_Resume_Ind.t)
| S_MethodResult_Cnf
| S_ConfirmedPush_Cnf (q : P.S_ConfirmedPush_Cnf.t)
| S_MethodAbort_Ind
| S_PushAbort_Ind (q : P.S_PushAbort_Ind.t)
| Pom_Connect_Res (q : P.Pom_Connect_Res.t Cap)
| Other (name : string).
Arguments S_MethodInvoke_Ind {Cap} q.
Arguments S_Unit_MethodInvoke_Ind {Cap} q.
Arguments S_Connect_Ind {Cap} q.
Arguments S_Disconnect_Ind {Cap} q.
Arguments S_Suspend_Ind {Cap} q.
Arguments S_Resume_Ind {Cap} q.
Arguments S_MethodResult_Cnf {Cap}.
Arguments S_ConfirmedPush_Cnf {Cap} q.
Arguments S_MethodAbort_Ind {Cap}.
Arguments S_PushAbort_Ind {Cap} q.
Arguments Pom_Connect_Res {Cap} q.
Arguments Other {Cap} name.
End Queued.

(** What one turn hands to the neighbours: events for
    [wsp_session_dispatch_event] and [wsp_unit_dispatch_event] (the three
    responses, and the reply [return_reply] makes), a request for
    [http_start_request], and events for [wap_push_ppg_dispatch_event]. *)
Module Out.
Inductive t (Cap : Type) : Type :=
| S_MethodInvoke_Res (r : P.S_MethodInvoke_Res.t)
| S_Connect_Res (r : P.S_Connect_Res.t Cap)
| S_Resume_Res (r : P.S_Resume_Res.t)
| Reply (e : WAPEvent)
| Http_start_request (method : Z) (url : Octstr) (headers : list header)
    (body : option Octstr) (follow : Z) (p : Request_data.t)
| Pom_Connect_Ind (r : U.Pom_Connect_Ind.t Cap)
| Pom_Disconnect_Ind (r : P.Pom_Disconnect_Ind.t)
| Pom_Suspend_Ind (r : P.Pom_Suspend_Ind.t)
| Pom_Resume_Ind (r : P.Pom_Resume_Ind.t)
| Po_ConfirmedPush_Cnf (r : P.Po_ConfirmedPush_Cnf.t)
| Po_PushAbort_Ind (r : P.Po_PushAbort_Ind.t).
Arguments S_MethodInvoke_Res {Cap} r.
Arguments S_Connect_Res {Cap} r.
Arguments S_Resume_Res {Cap} r.
Arguments Reply {Cap} e.
Arguments Http_start_request {Cap} method url headers body follow p.
Arguments Pom_Connect_Ind {Cap} r.
Arguments Pom_Disconnect_Ind {Cap} r.
Arguments Pom_Suspend_Ind {Cap} r.
Arguments Pom_Resume_Ind {Cap} r.
Arguments Po_ConfirmedPush_Cnf {Cap} r.
Arguments Po_PushAbort_Ind {Cap} r.
End Out.

(** How a turn of the loop ends: it is done, with what it dispatched and
    the session machines it leaves; or the process stops in it ([panic], a
    failed assertion, a list used after its destruction); or the
    Accept-Application loop is still turning when the fuel is used up.  The
    last two carry what was dispatched before. *)
Inductive turn (A : Type) : Type :=
| Turn_done (out : list A) (ms : machines)
| Turn_stopped (out : list A)
| Turn_running (out : list A).

Arguments Turn_done {A} out ms.
Arguments Turn_stopped {A} out.
Arguments Turn_running {A} out.

Definition turn_out {A : Type} (t : turn A) : list A :=
  match t with
  | Turn_done out _ => out
  | Turn_stopped out => out
  | Turn_running out => out
  end.

(** [negotiate_capabilities]: no capability is known, the reply list is
    empty. *)
Definition negotiate_capabilities {Cap : Type} (req_caps : list Cap) : list Cap :=
  [].

(** [indicate_push_disconnect]. *)
Definition indicate_push_disconnect (e : P.S_Disconnect_Ind.t)
    : P.Pom_Disconnect_Ind.t :=
  {| P.Pom_Disconnect_Ind.reason_code := P.S_Disconnect_Ind.reason_code e;
     P.Pom_Disconnect_Ind.error_headers := P.S_Disconnect_Ind.error_headers e;
     P.Pom_Disconnect_Ind.error_body := P.S_Disconnect_Ind.error_body e;
     P.Pom_Disconnect_Ind.session_handle := P.S_Disconnect_Ind.session_handle e |}.

(** [confirm_push]. *)
Definition confirm_push (e : P.S_ConfirmedPush_Cnf.t) : P.Po_ConfirmedPush_Cnf.t :=
  {| P.Po_ConfirmedPush_Cnf.server_push_id := P.S_ConfirmedPush_Cnf.server_push_id e;
     P.Po_ConfirmedPush_Cnf.session_handle := P.S_ConfirmedPush_Cnf.session_id e |}.

(** [indicate_push_abort]. *)
Definition indicate_push_abort (e : P.S_PushAbort_Ind.t) : P.Po_PushAbort_Ind.t :=
  {| P.Po_PushAbort_Ind.push_id := P.S_PushAbort_Ind.push_id e;
     P.Po_PushAbort_Ind.reason := P.S_PushAbort_Ind.reason e;
     P.Po_PushAbort_Ind.session_handle := P.S_PushAbort_Ind.session_id e |}.

(** [indicate_push_suspend]. *)
Definition indicate_push_suspend (e : P.S_Suspend_Ind.t) : P.Pom_Suspend_Ind.t :=
  {| P.Pom_Suspend_Ind.reason := P.S_Suspend_Ind.reason e;
     P.Pom_Suspend_Ind.session_id := P.S_Suspend_Ind.session_id e |}.

(** [response_push_connection]; its assertion [e->type = Pom_Connect_Res]
    is an assignment of a non-zero constant and always holds.  The server
    headers are not assigned and stay as [wap_event_create] made them. *)
Definition response_push_connection {Cap : Type}
    (created_server_headers : option (list header)) (e : P.Pom_Connect_Res.t Cap)
    : P.S_Connect_Res.t Cap :=
  {| P.S_Connect_Res.server_headers := created_server_headers;
     P.S_Connect_Res.negotiated_capabilities :=
       P.Pom_Connect_Res.negotiated_capabilities e;
     P.S_Connect_Res.session_id := P.Pom_Connect_Res.session_id e |}.

(** [indicate_push_resume]: the [Pom_Resume_Ind] dispatched to the PPG;
    [None] when [list_len] is asked of the bearer list that
    [decode_bearer_indication] has destroyed. *)
Definition indicate_push_resume
    (wsp_bearer_indication_to_cstr : Z -> option string)
    (e : P.S_Resume_Ind.t) : option P.Pom_Resume_Ind.t :=
  let push_headers := P.S_Resume_Ind.client_headers e in
  let bearer_headers := http_create_empty_headers in
  let '(push_headers1, bearer_headers1) :=
    decode_bearer_indication wsp_bearer_indication_to_cstr push_headers
      bearer_headers in
  match bearer_headers1 with
  | None => None
  | Some bh =>
      Some {| P.Pom_Resume_Ind.addr_tuple := P.S_Resume_Ind.addr_tuple e;
              P.Pom_Resume_Ind.bearer_indication :=
                if Z.of_nat (List.length bh) =? 0 then None else Some bh;
              P.Pom_Resume_Ind.client_headers := push_headers1;
              P.Pom_Resume_Ind.session_id := P.S_Resume_Ind.session_id e |}
  end.

Section Main_thread.

Variable wml_compile : option Octstr -> Octstr -> Z * Octstr.
Variable ws_compile_data : string -> option Octstr -> Z * Octstr.
Variable charsets : list Octstr.
Variable http_type_accepted : list header -> string -> bool.
Variable http_charset_accepted : list header -> string -> bool.
Variable http_header_combine : list header -> list header -> list header.
Variable http_remove_hop_headers : list header -> list header.
Variable http_header_pack : list header -> list header.
Variable http_header_get_content_type : list header -> Octstr * Octstr.
Variable http_header_mark_transformation :
  list header -> option Octstr -> Octstr -> list header.
Variable http_name2method : Octstr -> Z.
Variable gateway_time : option Octstr.
Variable official_name : Octstr.
Variable GW_NAME : string.
Variable VERSION : string.
Variable wsp_smart_errors : Z.
Variable device_home : option Octstr.
Variable error_requesting_back : Octstr -> Octstr -> Octstr.
Variable error_requesting : Octstr -> Octstr.
Variable wsp_http_map_list : list wsp_http_map.

Variable wsp_application_id_to_cstr : Z -> option string.
Variable wsp_bearer_indication_to_cstr : Z -> option string.
Variable coded_value_address : Z -> Z.
Variable header_outside : list header -> Z -> option header.
Variable Cap : Type.

(** The static [have_ppg], set by [wap_appl_init]. *)
Variable have_ppg : Z.

(** gw/wap_push_ppg.c, not under src/: whether the PPG has a push session
    for an address tuple, or for a session id. *)
Variable wap_push_ppg_have_push_session_for : WAPAddrTuple -> Z.
Variable wap_push_ppg_have_push_session_for_sid : Z -> Z.

(** wap/wap_events.c, not under src/: the server headers of the
    [S_Connect_Res] that [wap_event_create] makes. *)
Variable created_server_headers : option (list header).

(** [start_fetch] as [main_thread] calls it, after having dispatched
    [before]: the reply made at once, or the request submitted. *)
Definition main_thread_fetch (ms : machines) (ind : WAPEvent)
    (before : list (Out.t Cap)) : turn (Out.t Cap) :=
  match start_fetch wml_compile ws_compile_data charsets http_type_accepted
          http_charset_accepted http_header_combine http_remove_hop_headers
          http_header_pack http_name2method official_name GW_NAME VERSION
          wsp_http_map_list ms ind with
  | None => Turn_stopped before
  | Some (Call_return_reply c) =>
      match perform_return_reply wml_compile ws_compile_data http_type_accepted
              http_remove_hop_headers http_header_get_content_type
              http_header_mark_transformation gateway_time wsp_smart_errors
              device_home error_requesting_back error_requesting ms c with
      | Some o =>
          Turn_done (before ++ [Out.Reply (emitted o)]) (machines_after o)
      | None => Turn_stopped before
      end
  | Some (Call_http_start_request method url headers body follow p) =>
      Turn_done (before ++ [Out.Http_start_request method url headers body follow p])
        ms
  end.

(** The body of the [while] loop of [main_thread], for the event [ind]
    that [list_consume] returned. *)
Definition main_thread_turn (fuel : nat) (ms : machines) (ind : Queued.t Cap)
    : turn (Out.t Cap) :=
  match ind with
  | Queued.S_MethodInvoke_Ind q =>
      let res :=
        {| P.S_MethodInvoke_Res.server_transaction_id :=
             U.S_MethodInvoke_Ind.server_transaction_id q;
           P.S_MethodInvoke_Res.session_id := U.S_MethodInvoke_Ind.session_id q |} in
      main_thread_fetch ms (S_MethodInvoke_Ind q) [Out.S_MethodInvoke_Res res]
  | Queued.S_Unit_MethodInvoke_Ind q =>
      main_thread_fetch ms (S_Unit_MethodInvoke_Ind q) []
  | Queued.S_Connect_Ind q =>
      let tuple := U.S_Connect_Ind.addr_tuple q in
      if negb (have_ppg =? 0)
         && negb (wap_push_ppg_have_push_session_for tuple =? 0)
      then
        match indicate_push_connection wsp_application_id_to_cstr
                wsp_bearer_indication_to_cstr coded_value_address
                header_outside Cap fuel q with
        | Returned p => Turn_done [Out.Pom_Connect_Ind p] ms
        | Stopped _ => Turn_stopped []
        | Running _ => Turn_running []
        end
      else
        let res :=
          {| P.S_Connect_Res.server_headers := None;
             P.S_Connect_Res.negotiated_capabilities :=
               negotiate_capabilities (U.S_Connect_Ind.requested_capabilities q);
             P.S_Connect_Res.session_id := U.S_Connect_Ind.session_id q |} in
        Turn_done [Out.S_Connect_Res res] ms
  | Queued.S_Disconnect_Ind q =>
      let sid := P.S_Disconnect_Ind.session_handle q in
      if negb (have_ppg =? 0)
         && negb (wap_push_ppg_have_push_session_for_sid sid =? 0)
      then Turn_done [Out.Pom_Disconnect_Ind (indicate_push_disconnect q)] ms
      else Turn_done [] ms
  | Queued.S_Suspend_Ind q =>
      let sid := P.S_Suspend_Ind.session_id q in
      if negb (wap_push_ppg_have_push_session_for_sid sid =? 0)
      then Turn_done [Out.Pom_Suspend_Ind (indicate_push_suspend q)] ms
      else Turn_done [] ms
  | Queued.S_Resume_Ind q =>
      let sid := P.S_Resume_Ind.session_id q in
      if negb (have_ppg =? 0)
         && negb (wap_push_ppg_have_push_session_for_sid sid =? 0)
      then
        match indicate_push_resume wsp_bearer_indication_to_cstr q with
        | Some p => Turn_done [Out.Pom_Resume_Ind p] ms
        | None => Turn_stopped []
        end
      else
        let res :=
          {| P.S_Resume_Res.server_headers := None;
             P.S_Resume_Res.session_id := P.S_Resume_Ind.session_id q |} in
        Turn_done [Out.S_Resume_Res res] ms
  | Queued.S_MethodResult_Cnf => Turn_done [] ms
  | Queued.S_ConfirmedPush_Cnf q =>
      Turn_done [Out.Po_ConfirmedPush_Cnf (confirm_push q)] ms
  | Queued.S_MethodAbort_Ind => Turn_done [] ms
  | Queued.S_PushAbort_Ind q =>
      Turn_done [Out.Po_PushAbort_Ind (indicate_push_abort q)] ms
  | Queued.Pom_Connect_Res q =>
      Turn_done [Out.S_Connect_Res (response_push_connection created_server_headers q)]
        ms
  | Queued.Other _ => Turn_stopped []
  end.

End Main_thread.

(** The session an event of the queue belongs to; a connectionless request
    runs under the session id -1 that [start_fetch] gives it. *)
Definition queued_session {Cap : Type} (ind : Queued.t Cap) : option Z :=
  match ind with
  | Queued.S_MethodInvoke_Ind q => Some (U.S_MethodInvoke_Ind.session_id q)
  | Queued.S_Unit_MethodInvoke_Ind _ => Some (-1)
  | Queued.S_Connect_Ind q => Some (U.S_Connect_Ind.session_id q)
  | Queued.S_Disconnect_Ind q => Some (P.S_Disconnect_Ind.session_handle q)
  | Queued.S_Suspend_Ind q => Some (P.S_Suspend_Ind.session_id q)
  | Queued.S_Resume_Ind q => Some (P.S_Resume_Ind.session_id q)
  | Queued.S_ConfirmedPush_Cnf q => Some (P.S_ConfirmedPush_Cnf.session_id q)
  | Queued.S_PushAbort_Ind q => Some (P.S_PushAbort_Ind.session_id q)
  | Queued.Pom_Connect_Res q => Some (P.Pom_Connect_Res.session_id q)
  | Queued.S_MethodResult_Cnf | Queued.S_MethodAbort_Ind | Queued.Other _ => None
  end.

(** Whether a dispatched event goes to the PPG. *)
Definition to_ppg {Cap : Type} (x : Out.t Cap) : bool :=
  match x with
  | Out.Pom_Connect_Ind _ | Out.Pom_Disconnect_Ind _ | Out.Pom_Suspend_Ind _
  | Out.Pom_Resume_Ind _ | Out.Po_ConfirmedPush_Cnf _ | Out.Po_PushAbort_Ind _ =>
      true
  | _ => false
  end.

(** ** The public interface *)

Inductive run_status_t : Type := limbo | running | terminating.

(** The statics the public functions read and write. *)
Record appl_state : Type := {
  run_status : run_status_t;
  have_ppg : Z
}.

(** Before the first call: [run_status = limbo], [have_ppg = 0]. *)
Definition appl_initial : appl_state :=
  {| run_status := limbo; have_ppg := 0 |}.

Definition run_status_eqb (a b : run_status_t) : bool :=
  match a, b with
  | limbo, limbo | running, running | terminating, terminating => true
  | _, _ => false
  end.

(** [wap_appl_init]; [cfg] is [None] for a NULL configuration.  [None] as
    result is the failed assertion. *)
Definition wap_appl_init {Cfg : Type} (cfg : option Cfg) (st : appl_state)
    : option appl_state :=
  if run_status_eqb (run_status st) limbo
  then Some {| run_status := running;
               have_ppg := match cfg with Some _ => 1 | None => 0 end |}
  else None.

(** [wap_appl_shutdown]. *)
Definition wap_appl_shutdown (st : appl_state) : option appl_state :=
  if run_status_eqb (run_status st) running
  then Some {| run_status := terminating; have_ppg := have_ppg st |}
  else None.

(** [wap_appl_dispatch]: the event handed to [list_produce]. *)
Definition wap_appl_dispatch {E : Type} (event : E) (st : appl_state)
    : option (appl_state * E) :=
  if run_status_eqb (run_status st) running
  then Some (st, event)
  else None.

(** [wap_appl_get_load], with the value of the counter [fetches] and the
    length of the queue at the time of the call. *)
Definition wap_appl_get_load (fetches queue_len : Z) (st : appl_state)
    : option (appl_state * Z) :=
  if run_status_eqb (run_status st) running
  then Some (st, fetches + queue_len)
  else None.

(** A call of the public interface. *)
Inductive appl_call (Cfg E : Type) : Type :=
| Call_init (cfg : option Cfg)
| Call_shutdown
| Call_dispatch (event : E)
| Call_get_load (fetches queue_len : Z).

Arguments Call_init {Cfg E} cfg.
Arguments Call_shutdown {Cfg E}.
Arguments Call_dispatch {Cfg E} event.
Arguments Call_get_load {Cfg E} fetches queue_len.

Definition appl_call_step {Cfg E : Type} (st : appl_state) (c : appl_call Cfg E)
    : option appl_state :=
  match c with
  | Call_init cfg => wap_appl_init cfg st
  | Call_shutdown => wap_appl_shutdown st
  | Call_dispatch e => option_map fst (wap_appl_dispatch e st)
  | Call_get_load f q => option_map fst (wap_appl_get_load f q st)
  end.

(** A sequence of calls, as long as no assertion fails. *)
Fixpoint appl_calls {Cfg E : Type} (st : appl_state) (cs : list (appl_call Cfg E))
    : option appl_state :=
  match cs with
  | [] => Some st
  | c :: rest =>
      match appl_call_step st c with
      | Some st1 => appl_calls st1 rest
      | None => None
      end
  end.

Definition is_work {Cfg E : Type} (c : appl_call Cfg E) : bool :=
  match c with
  | Call_dispatch _ | Call_get_load _ _ => true
  | _ => false
  end.

(** Stand-ins for the push side. *)
Module Sample_push.

(** A bearer registry with the one code 10. *)
Definition bearer_indication (code : Z) : option string :=
  if code =? 10 then Some "GSM_CSD_IPV4" else None.

(** The header value with the one octet [n]. *)
Definition octet (n : nat) : Octstr := String (ascii_of_nat n) EmptyString.

Definition connect (hs : option (list header)) : U.S_Connect_Ind.t Z :=
  {| U.S_Connect_Ind.addr_tuple := Sample.tuple;
     U.S_Connect_Ind.client_headers := hs;
     U.S_Connect_Ind.requested_capabilities := [1; 2];
     U.S_Connect_Ind.session_id := 7 |}.

Definition resume (hs : option (list header)) : P.S_Resume_Ind.t :=
  {| P.S_Resume_Ind.addr_tuple := Sample.tuple;
     P.S_Resume_Ind.client_headers := hs;
     P.S_Resume_Ind.session_id := 7 |}.

Definition run_indicate_push_connection :=
  indicate_push_connection Sample.application_id bearer_indication
    Sample.heap_address Sample.stop_outside Z.

(** One turn of the loop with the stand-ins, for a gateway with
    [have_ppg] and a PPG that holds, or does not hold, a push session. *)
Definition run_main_thread_turn (have_ppg : Z) (push_session : Z) :=
  main_thread_turn Sample.wml_compile Sample.ws_compile_data ["utf-8"]
    (Sample.accepted "Accept") (Sample.accepted "Accept-Charset")
    Sample.combine Sample.remove_hop_headers Sample.pack
    Sample.get_content_type Sample.mark_transformation Sample.name2method
    None "wap.example.org" "Kannel" "1.3.1" 0 None
    Sample.error_requesting_back Sample.error_requesting []
    Sample.application_id bearer_indication Sample.heap_address
    Sample.stop_outside Z have_ppg (fun _ => push_session)
    (fun _ => push_session) None.

(** A session request for the health deck. *)
Definition alive : U.S_MethodInvoke_Ind.t :=
  {| U.S_MethodInvoke_Ind.server_transaction_id := 42;
     U.S_MethodInvoke_Ind.session_id := 7;
     U.S_MethodInvoke_Ind.request_uri := "kannel:alive";
     U.S_MethodInvoke_Ind.method := "GET";
     U.S_MethodInvoke_Ind.request_headers := Some [];
     U.S_MethodInvoke_Ind.session_headers := None;
     U.S_MethodInvoke_Ind.request_body := None;
     U.S_MethodInvoke_Ind.addr_tuple := Sample.tuple;
     U.S_MethodInvoke_Ind.client_SDU_size := 0 |}.

Definition suspend : P.S_Suspend_Ind.t :=
  {| P.S_Suspend_Ind.reason := 1; P.S_Suspend_Ind.session_id := 7 |}.

End Sample_push.

(** The session a dispatched event or a submitted request belongs to; the
    reply to a connectionless request has none and counts under -1. *)
Definition out_session {Cap : Type} (x : Out.t Cap) : option Z :=
  match x with
  | Out.S_MethodInvoke_Res r => Some (P.S_MethodInvoke_Res.session_id r)
  | Out.S_Connect_Res r => Some (P.S_Connect_Res.session_id r)
  | Out.S_Resume_Res r => Some (P.S_Resume_Res.session_id r)
  | Out.Reply (S_MethodResult_Req r) => Some (U.S_MethodResult_Req.session_id r)
  | Out.Reply (S_Unit_MethodResult_Req _) => Some (-1)
  | Out.Reply _ => None
  | Out.Http_start_request _ _ _ _ _ p => Some (Request_data.session_id p)
  | Out.Pom_Connect_Ind r => Some (U.Pom_Connect_Ind.session_id r)
  | Out.Pom_Disconnect_Ind r => Some (P.Pom_Disconnect_Ind.session_handle r)
  | Out.Pom_Suspend_Ind r => Some (P.Pom_Suspend_Ind.session_id r)
  | Out.Pom_Resume_Ind r => Some (P.Pom_Resume_Ind.session_id r)
  | Out.Po_ConfirmedPush_Cnf r => Some (P.Po_ConfirmedPush_Cnf.session_handle r)
  | Out.Po_PushAbort_Ind r => Some (P.Po_PushAbort_Ind.session_handle r)
  end.

(** The events of the queue that are forwarded to the PPG without asking
    for [have_ppg]. *)
Definition push_unguarded {Cap : Type} (ind : Queued.t Cap) : bool :=
  match ind with
  | Queued.S_Suspend_Ind _ | Queued.S_ConfirmedPush_Cnf _
  | Queued.S_PushAbort_Ind _ => true
  | _ => false
  end.

(** The session-control events: all that [main_thread] handles, the two
    invoke events apart. *)
Definition session_control {Cap : Type} (ind : Queued.t Cap) : bool :=
  match ind with
  | Queued.S_MethodInvoke_Ind _ | Queued.S_Unit_MethodInvoke_Ind _
  | Queued.Other _ => false
  | _ => true
  end.

(** * Delivery reports in LibSDB (gw/dlr_sdb.c, built with [DLR_SDB]) *)

Module Dlr.

(** gw/dlr_p.h, not under src/: the names of the table and of its columns,
    and a delivery report entry, with the fields dlr_sdb.c reads and
    writes. *)
Record dlr_db_fields : Type := {
  table : Octstr;
  field_smsc : Octstr;
  field_ts : Octstr;
  field_src : Octstr;
  field_dst : Octstr;
  field_serv : Octstr;
  field_url : Octstr;
  field_mask : Octstr;
  field_status : Octstr;
  field_boxc : Octstr
}.

Record dlr_entry : Type := {
  smsc : option Octstr;
  timestamp : option Octstr;
  source : option Octstr;
  destination : option Octstr;
  service : option Octstr;
  url : option Octstr;
  boxc_id : option Octstr;
  mask : Z
}.

Definition SDB_ORACLE : Z := 0.
Definition SDB_OTHER : Z := 1.

(** [sdb_get_limit_str]. *)
Definition sdb_get_limit_str (sdb_conn_type : Z) : string :=
  if sdb_conn_type =? SDB_ORACLE then "AND ROWNUM < 2" else "LIMIT 1".

(** [%s] of [octstr_format] for [octstr_get_cstr] of an octet string: the
    octets up to the first NUL. *)
Definition fmt_s (o : Octstr) : string := c_str (octstr_get_cstr o).

(** [%d] of [octstr_format]. *)
Definition fmt_d (z : Z) : string := format_ld (int_of z).

(** What an operation does with the mutex and the database, in order. *)
Inductive event : Type :=
| Mutex_lock
| Mutex_unlock
| Sdb_query (sql : string).

Definition is_mutex_event (e : event) : bool :=
  match e with
  | Sdb_query _ => false
  | _ => true
  end.

(** [sdb_callback_add], for a result row [p] of [n] columns; the entry is
    the one [data] points to. *)
Definition sdb_callback_add (atoi : string -> Z) (p : list string)
    (res : dlr_entry) : dlr_entry :=
  if negb (Z.of_nat (List.length p) =? 6) then res
  else
    match destination res with
    | Some _ => res
    | None =>
        {| smsc := smsc res;
           timestamp := timestamp res;
           source := Some (c_str (nth 3 p EmptyString));
           destination := Some (c_str (nth 4 p EmptyString));
           service := Some (c_str (nth 1 p EmptyString));
           url := Some (c_str (nth 2 p EmptyString));
           boxc_id := Some (c_str (nth 5 p EmptyString));
           mask := int_of (atoi (nth 0 p EmptyString)) |}
    end.

(** [sdb_callback_msgs]. *)
Definition sdb_callback_msgs (atol : string -> Z) (p : list string)
    (count : Z) : Z :=
  if negb (Z.of_nat (List.length p) =? 1) then count
  else atol (nth 0 p EmptyString).

Section Storage.

(** The statics [fields] and [sdb_conn_type]. *)
Variable fields : dlr_db_fields.
Variable sdb_conn_type : Z.

(** libsdb, not under src/: what [sdb_query] returns for a statement, and
    the rows it calls the callback with, in order. *)
Variable sdb_query : string -> Z * list (list string).

(** libc. *)
Variable atoi : string -> Z.
Variable atol : string -> Z.

(** gw/dlr.c, not under src/: the entry [dlr_entry_create] makes. *)
Variable created : dlr_entry.

Definition where_clause (smsc ts : Octstr) : string :=
  fmt_s (field_smsc fields) ++ "='" ++ fmt_s smsc ++ "' AND "
  ++ fmt_s (field_ts fields) ++ "='" ++ fmt_s ts ++ "' "
  ++ sdb_get_limit_str sdb_conn_type.

(** [dlr_sdb_add]; [None] when a string of the entry is NULL and
    [octstr_get_cstr] stops on it. *)
Definition dlr_sdb_add (dlr : dlr_entry) : option (list event) :=
  match smsc dlr, timestamp dlr, source dlr, destination dlr, service dlr,
        url dlr, boxc_id dlr with
  | Some smsc0, Some ts, Some src, Some dst, Some serv, Some u, Some boxc =>
      let sql :=
        "INSERT INTO " ++ fmt_s (table fields) ++ " ("
        ++ fmt_s (field_smsc fields) ++ ", " ++ fmt_s (field_ts fields) ++ ", "
        ++ fmt_s (field_src fields) ++ ", " ++ fmt_s (field_dst fields) ++ ", "
        ++ fmt_s (field_serv fields) ++ ", " ++ fmt_s (field_url fields) ++ ", "
        ++ fmt_s (field_mask fields) ++ ", " ++ fmt_s (field_boxc fields) ++ ", "
        ++ fmt_s (field_status fields) ++ ") VALUES ('"
        ++ fmt_s smsc0 ++ "', '" ++ fmt_s ts ++ "', '" ++ fmt_s src ++ "', '"
        ++ fmt_s dst ++ "', '" ++ fmt_s serv ++ "', '" ++ fmt_s u ++ "', '"
        ++ fmt_d (mask dlr) ++ "', '" ++ fmt_s boxc ++ "', '" ++ fmt_d 0 ++ "')" in
      Some [Mutex_lock; Sdb_query sql; Mutex_unlock]
  | _, _, _, _, _, _, _ => None
  end.

(** The statement of [dlr_sdb_get]. *)
Definition select_sql (smsc0 ts : Octstr) : string :=
  "SELECT " ++ fmt_s (field_mask fields) ++ ", " ++ fmt_s (field_serv fields)
  ++ ", " ++ fmt_s (field_url fields) ++ ", " ++ fmt_s (field_src fields)
  ++ ", " ++ fmt_s (field_dst fields) ++ ", " ++ fmt_s (field_boxc fields)
  ++ " FROM " ++ fmt_s (table fields) ++ " WHERE " ++ where_clause smsc0 ts.

(** [dlr_sdb_get]: what it does, and the entry returned (NULL is [None]). *)
Definition dlr_sdb_get (smsc0 ts dst : Octstr)
    : list event * option dlr_entry :=
  let res := created in
  let sql := select_sql smsc0 ts in
  let '(state, rows) := sdb_query sql in
  let res1 := fold_left (fun r p => sdb_callback_add atoi p r) rows res in
  let trace := [Mutex_lock; Sdb_query sql; Mutex_unlock] in
  if state =? -1 then (trace, None)
  else if state =? 0 then (trace, None)
  else
    (trace,
     Some {| smsc := Some smsc0;
             timestamp := timestamp res1;
             source := source res1;
             destination := destination res1;
             service := service res1;
             url := url res1;
             boxc_id := boxc_id res1;
             mask := mask res1 |}).

(** [dlr_sdb_update]. *)
Definition dlr_sdb_update (smsc0 ts dst : Octstr) (status : Z) : list event :=
  let sql :=
    "UPDATE " ++ fmt_s (table fields) ++ " SET " ++ fmt_s (field_status fields)
    ++ "=" ++ fmt_d status ++ " WHERE " ++ where_clause smsc0 ts in
  [Mutex_lock; Sdb_query sql; Mutex_unlock].

(** [dlr_sdb_remove]. *)
Definition dlr_sdb_remove (smsc0 ts dst : Octstr) : list event :=
  let sql :=
    "DELETE FROM " ++ fmt_s (table fields) ++ " WHERE " ++ where_clause smsc0 ts in
  [Mutex_lock; Sdb_query sql; Mutex_unlock].

(** The statement of [dlr_sdb_messages]. *)
Definition messages_sql : string :=
  "SELECT count(*) FROM " ++ fmt_s (table fields).

(** [dlr_sdb_messages]: what it does, and the count returned. *)
Definition dlr_sdb_messages : list event * Z :=
  let res := 0 in
  let sql := messages_sql in
  let '(state, rows) := sdb_query sql in
  let res1 := fold_left (fun c p => sdb_callback_msgs atol p c) rows res in
  if state =? -1
  then ([Mutex_lock; Sdb_query sql; Mutex_unlock; Mutex_unlock], -1)
  else ([Mutex_lock; Sdb_query sql; Mutex_unlock], res1).

(** [dlr_sdb_flush]. *)
Definition dlr_sdb_flush : list event :=
  let sql := "DELETE FROM " ++ fmt_s (table fields) in
  [Mutex_lock; Sdb_query sql; Mutex_unlock].

End Storage.

(** A mutex that is free or held, run through the events of an operation;
    [None] once a free mutex is unlocked or a held one locked again. *)
Fixpoint mutex_run (held : bool) (t : list event) : option bool :=
  match t with
  | [] => Some held
  | Mutex_lock :: rest => if held then None else mutex_run true rest
  | Mutex_unlock :: rest => if held then mutex_run false rest else None
  | Sdb_query _ :: rest => mutex_run held rest
  end.

(** Whether every query of a trace is made while the mutex is held. *)
Fixpoint queries_locked (held : bool) (t : list event) : bool :=
  match t with
  | [] => true
  | Mutex_lock :: rest => queries_locked true rest
  | Mutex_unlock :: rest => queries_locked false rest
  | Sdb_query _ :: rest => held && queries_locked held rest
  end.

(** The operations of the storage handle, [dlr_sdb_shutdown] apart. *)
Inductive operation : Type :=
| Op_add (dlr : dlr_entry)
| Op_get (smsc ts dst : Octstr)
| Op_update (smsc ts dst : Octstr) (status : Z)
| Op_remove (smsc ts dst : Octstr)
| Op_messages
| Op_flush.

Definition operation_trace (fields : dlr_db_fields) (sdb_conn_type : Z)
    (sdb_query : string -> Z * list (list string)) (atoi atol : string -> Z)
    (created : dlr_entry) (op : operation) : option (list event) :=
  match op with
  | Op_add dlr => dlr_sdb_add fields dlr
  | Op_get s t d =>
      Some (fst (dlr_sdb_get fields sdb_conn_type sdb_query atoi created s t d))
  | Op_update s t d st => Some (dlr_sdb_update fields sdb_conn_type s t d st)
  | Op_remove s t d => Some (dlr_sdb_remove fields sdb_conn_type s t d)
  | Op_messages => Some (fst (dlr_sdb_messages fields sdb_query atol))
  | Op_flush => Some (dlr_sdb_flush fields)
  end.

End Dlr.

(** Stand-ins for the database side. *)
Module Sample_dlr.

Definition fields : Dlr.dlr_db_fields :=
  {| Dlr.table := "dlr"; Dlr.field_smsc := "smsc"; Dlr.field_ts := "ts";
     Dlr.field_src := "source"; Dlr.field_dst := "destination";
     Dlr.field_serv := "service"; Dlr.field_url := "url";
     Dlr.field_mask := "mask"; Dlr.field_status := "status";
     Dlr.field_boxc := "boxc" |}.

Definition created : Dlr.dlr_entry :=
  {| Dlr.smsc := None; Dlr.timestamp := None; Dlr.source := None;
     Dlr.destination := None; Dlr.service := None; Dlr.url := None;
     Dlr.boxc_id := None; Dlr.mask := 0 |}.

(** A database whose every statement fails. *)
Definition failing (sql : string) : Z * list (list string) := (-1, []).

(** A database that answers every statement with a short row and two full
    ones. *)
Definition two_rows (sql : string) : Z * list (list string) :=
  (2, [ ["31"];
        ["31"; "sms"; "http://a/"; "100"; "200"; "box1"];
        ["8"; "other"; "http://b/"; "300"; "400"; "box2"] ]).

(** A stand-in for [atoi] and [atol] on the numbers of the rows above. *)
Definition atoi (s : string) : Z :=
  if String.eqb s "31" then 31 else if String.eqb s "8" then 8 else 0.

End Sample_dlr.

(** The header lists of an invoke event: those of the session and those
    of the request; the unit event has no session headers. *)
Definition invoke_session_headers (e : WAPEvent) : option (list header) :=
  match e with
  | S_MethodInvoke_Ind p => U.S_MethodInvoke_Ind.session_headers p
  | _ => None
  end.

Definition invoke_request_headers (e : WAPEvent) : option (list header) :=
  match e with
  | S_MethodInvoke_Ind p => U.S_MethodInvoke_Ind.request_headers p
  | S_Unit_MethodInvoke_Ind p => U.S_Unit_MethodInvoke_Ind.request_headers p
  | _ => None
  end.

(** Whether a header list that may be missing holds a header of a name. *)
Definition carries (name : string) (hs : option (list header)) : bool :=
  match hs with
  | Some l => has_header name l
  | None => false
  end.

(** Whether the client sent an X-WAP.TOD header: among the session headers
    or among the request headers of the event. *)
Definition request_carried_tod (e : WAPEvent) : bool :=
  carries X_WAP_TOD (invoke_session_headers e)
  || carries X_WAP_TOD (invoke_request_headers e).

(** * Properties *)

#[local] Set Warnings "-notation-for-abbreviation".

Example rewrite_s2 :
  match wsp_http_map_url_config_all [Map_url "http://a/*" "http://b/*"] [] with
  | Some rules =>
      wsp_http_map_url rules "http://a/page?x=1" = Some "http://b/page?x=1"
      /\ wsp_http_map_url rules "HTTP://A/Page?X=1" = Some "http://b/Page?X=1"
      /\ wsp_http_map_url rules "http://c/page" = Some "http://c/page"
  | None => False
  end.
Proof. vm_compute. auto. Qed.

Example format_ld_ex : format_ld 0 = "0" /\ format_ld 1400 = "1400" /\ format_ld (-1) = "-1".
Proof. vm_compute. auto. Qed.

(** ** C strings *)

Lemma is_nul_tolower (c : ascii) : is_nul (tolower c) = is_nul c.
Proof.
  destruct c as [[] [] [] [] [] [] [] []]; reflexivity.
Qed.

Lemma is_nul_true (c : ascii) : is_nul c = true <-> c = NUL.
Proof. unfold is_nul. apply Ascii.eqb_eq. Qed.

Lemma code_diff_zero (a b : ascii) : code a - code b = 0 <-> a = b.
Proof.
  unfold code. split.
  - intros H. assert (E : nat_of_ascii a = nat_of_ascii b) by lia.
    rewrite <- (ascii_nat_embedding a), <- (ascii_nat_embedding b).
    now rewrite E.
  - intros ->. lia.
Qed.

Lemma strlen_le_length (s : string) : (strlen s <= String.length s)%nat.
Proof.
  induction s as [|c t IH]; simpl; [lia|]. destruct (is_nul c); lia.
Qed.

Lemma strlen_c_str (s : string) : String.length (c_str s) = strlen s.
Proof.
  induction s as [|c t IH]; simpl; [reflexivity|].
  destruct (is_nul c); simpl; congruence.
Qed.

Lemma c_str_idem (s : string) : c_str (c_str s) = c_str s.
Proof.
  induction s as [|c t IH]; simpl; [reflexivity|].
  destruct (is_nul c) eqn:E; simpl; [reflexivity|]. now rewrite E, IH.
Qed.

Lemma strlen_nul_free (s : string) : c_str s = s -> strlen s = String.length s.
Proof. intros H. now rewrite <- strlen_c_str, H. Qed.

Lemma c_str_cons (c : ascii) (t : string) :
  c_str (String c t) = String c t -> is_nul c = false /\ c_str t = t.
Proof.
  simpl. destruct (is_nul c); [discriminate|].
  intros H. split; [reflexivity|]. congruence.
Qed.

Lemma c_str_drop (n : nat) (s : string) : c_str s = s -> c_str (drop n s) = drop n s.
Proof.
  revert s. induction n as [|n IH]; intros s H.
  - now destruct s.
  - destruct s as [|c t]; [reflexivity|].
    apply c_str_cons in H as [_ H]. simpl. now apply IH.
Qed.

Lemma c_str_app_star (s : string) :
  c_str (c_str s ++ String star EmptyString) = c_str s ++ String star EmptyString.
Proof.
  induction s as [|c t IH]; simpl; [reflexivity|].
  destruct (is_nul c) eqn:E; simpl; [reflexivity|]. now rewrite E, IH.
Qed.

Lemma length_take (n : nat) (s : string) :
  (n <= String.length s)%nat -> String.length (take n s) = n.
Proof.
  revert s. induction n as [|n IH]; intros s H; [reflexivity|].
  destruct s as [|c t]; simpl in *; [lia|]. rewrite IH; lia.
Qed.

Lemma take_all (s : string) (n : nat) : (String.length s <= n)%nat -> take n s = s.
Proof.
  revert n. induction s as [|c t IH]; intros n H; [now destruct n|].
  destruct n as [|n]; simpl in *; [lia|]. rewrite IH; [reflexivity|lia].
Qed.

Lemma length_app (s t : string) :
  String.length (s ++ t) = (String.length s + String.length t)%nat.
Proof. induction s as [|c r IH]; simpl; congruence. Qed.

Lemma lower_length (s : string) : String.length (lower s) = String.length s.
Proof. induction s as [|c t IH]; simpl; congruence. Qed.

Lemma strncasecmp_nil (s2 : string) (n : Z) :
  n <> 0 ->
  strncasecmp EmptyString s2 n = code (tolower NUL) - code (tolower (head s2)).
Proof. intros H. destruct n; [contradiction|reflexivity..]. Qed.

Lemma strncasecmp_cons (a : ascii) (t1 s2 : string) (n : Z) :
  n <> 0 ->
  strncasecmp (String a t1) s2 n =
    if negb (Ascii.eqb (tolower a) (tolower (head s2)))
    then code (tolower a) - code (tolower (head s2))
    else if is_nul (tolower a) then 0
         else strncasecmp t1 (tail s2) (n - 1).
Proof. intros H. destruct n; [contradiction|reflexivity..]. Qed.

(** [strncasecmp] over a prefix that stays inside the second string: zero
    exactly when the first string has that many octets and they agree up
    to case. *)
Lemma strncasecmp_prefix (n : nat) : forall s1 s2,
  (n <= strlen s2)%nat ->
  (strncasecmp s1 s2 (Z.of_nat n) = 0
   <-> (n <= String.length s1)%nat /\ lower (take n s1) = lower (take n s2)).
Proof.
  induction n as [|n IH]; intros s1 s2 Hn.
  - destruct s1; simpl; split; intros; auto; split; auto; lia.
  - destruct s2 as [|c t2]; [simpl in Hn; lia|].
    simpl in Hn. destruct (is_nul c) eqn:Ec; [lia|].
    assert (Hz : Z.of_nat (S n) <> 0) by lia.
    destruct s1 as [|a t1];
      [rewrite (strncasecmp_nil _ _ Hz)|rewrite (strncasecmp_cons _ _ _ _ Hz)].
    + cbn [head]. split.
      * intros H. apply code_diff_zero in H.
        assert (E : is_nul (tolower c) = true) by (apply is_nul_true; now rewrite <- H).
        rewrite is_nul_tolower in E. congruence.
      * intros [H _]. simpl in H. lia.
    + cbn [head tail].
      destruct (Ascii.eqb (tolower a) (tolower c)) eqn:Eac; simpl negb; cbv iota.
      * apply Ascii.eqb_eq in Eac.
        assert (En : is_nul (tolower a) = false)
          by (rewrite Eac, is_nul_tolower; exact Ec).
        rewrite En.
        replace (Z.of_nat (S n) - 1) with (Z.of_nat n) by lia.
        rewrite IH by lia. simpl. rewrite Eac. split.
        -- intros [H1 H2]. split; [lia|now rewrite H2].
        -- intros [H1 H2]. split; [lia|now inversion H2].
      * apply Ascii.eqb_neq in Eac. split.
        -- intros H. apply code_diff_zero in H. contradiction.
        -- intros [_ H]. simpl in H. inversion H. contradiction.
Qed.

(** [strncasecmp] over a whole NUL-free string and its terminator: zero
    exactly when the first string, as a C string, is the second up to case. *)
Lemma strncasecmp_full : forall s2 s1,
  c_str s2 = s2 ->
  (strncasecmp s1 s2 (Z.of_nat (String.length s2) + 1) = 0
   <-> lower (c_str s1) = lower s2).
Proof.
  induction s2 as [|c t2 IH]; intros s1 H2.
  - simpl String.length. simpl Z.add.
    destruct s1 as [|a t1]; simpl; [split; auto|].
    destruct (Ascii.eqb (tolower a) (tolower NUL)) eqn:Ea; simpl negb; cbv iota.
    + apply Ascii.eqb_eq in Ea.
      assert (En : is_nul (tolower a) = true) by (apply is_nul_true; exact Ea).
      rewrite En. rewrite is_nul_tolower in En. rewrite En. split; auto.
    + apply Ascii.eqb_neq in Ea. split.
      * intros H. apply code_diff_zero in H. contradiction.
      * destruct (is_nul a) eqn:En.
        -- apply is_nul_true in En. subst a. now contradiction Ea.
        -- simpl. discriminate.
  - apply c_str_cons in H2 as [Ec H2].
    assert (Hz : Z.of_nat (String.length (String c t2)) + 1 <> 0) by lia.
    destruct s1 as [|a t1];
      [rewrite (strncasecmp_nil _ _ Hz)|rewrite (strncasecmp_cons _ _ _ _ Hz)].
    + cbn [head]. split.
      * intros H. apply code_diff_zero in H.
        assert (E : is_nul (tolower c) = true) by (apply is_nul_true; now rewrite <- H).
        rewrite is_nul_tolower in E. congruence.
      * simpl. discriminate.
    + cbn [head tail].
      destruct (Ascii.eqb (tolower a) (tolower c)) eqn:Eac; simpl negb; cbv iota.
      * apply Ascii.eqb_eq in Eac.
        assert (En : is_nul (tolower a) = false)
          by (rewrite Eac, is_nul_tolower; exact Ec).
        rewrite En.
        replace (Z.of_nat (String.length (String c t2)) + 1 - 1)
          with (Z.of_nat (String.length t2) + 1) by (simpl String.length; lia).
        rewrite IH by assumption.
        rewrite is_nul_tolower in En. simpl c_str. rewrite En. simpl. rewrite Eac.
        split; intros H; [now rewrite H|now inversion H].
      * apply Ascii.eqb_neq in Eac. split.
        -- intros H. apply code_diff_zero in H. contradiction.
        -- simpl c_str. destruct (is_nul a); simpl; [discriminate|].
           intros H. inversion H. contradiction.
Qed.

(** ** The URL map *)

Lemma int_of_small (z : Z) : - 2 ^ 31 <= z < 2 ^ 31 -> int_of z = z.
Proof.
  intros H. unfold int_of. rewrite Z.mod_small by lia. lia.
Qed.

Lemma size_t_of_small (z : Z) : 0 <= z < 2 ^ 64 -> size_t_of z = z.
Proof. intros H. unfold size_t_of. now apply Z.mod_small. Qed.

Lemma c_index_last (s : string) (i : Z) :
  0 <= i <= Z.of_nat (strlen s) ->
  c_index s i = Some (head (drop (Z.to_nat i) s)).
Proof.
  intros H. unfold c_index, c_offset.
  assert (E : (0 <=? i) && (i <=? Z.of_nat (strlen s)) = true)
    by (apply andb_true_iff; split; apply Z.leb_le; lia).
  now rewrite E.
Qed.

Lemma c_index_outside (s : string) (i : Z) : i < 0 -> c_index s i = None.
Proof.
  intros H. unfold c_index, c_offset.
  assert (E : (0 <=? i) = false) by (apply Z.leb_gt; lia).
  now rewrite E.
Qed.

Lemma do_config_wf (s d : string) (maps maps' : list wsp_http_map) :
  fits_int s -> fits_int d ->
  Forall wf_map maps ->
  wsp_http_map_url_do_config (Some s) (Some d) maps = Some maps' ->
  Forall wf_map maps'.
Proof.
  unfold fits_int. intros Hs Hd Hm. unfold wsp_http_map_url_do_config.
  rewrite !int_of_small by lia.
  destruct (Z.of_nat (strlen s) =? 0) eqn:E0; [intros [= <-]; exact Hm|].
  apply Z.eqb_neq in E0.
  rewrite (c_index_last s) by lia.
  destruct (Z.of_nat (strlen d) =? 0) eqn:Ed.
  { apply Z.eqb_eq in Ed. rewrite Ed. now rewrite c_index_outside by lia. }
  apply Z.eqb_neq in Ed.
  rewrite (c_index_last d) by lia.
  set (cs := head (drop _ s)). set (cd := head (drop _ d)).
  assert (Hls : String.length (gw_strdup s) = strlen s) by apply strlen_c_str.
  assert (Hld : String.length (gw_strdup d) = strlen d) by apply strlen_c_str.
  assert (Hfit : fits_int (gw_strdup s)).
  { unfold fits_int, gw_strdup. rewrite <- strlen_c_str, c_str_idem, strlen_c_str. lia. }
  destruct (Ascii.eqb cs star), (Ascii.eqb cd star); intros [= <-];
    (apply Forall_app; split; [exact Hm|]); constructor; try constructor;
    cbn [in_ out flags in_len out_len]; unfold gw_strdup in *;
    try apply c_str_idem; try exact Hfit;
    try (cbn; tauto);
    try (unfold in_prefix; cbn; rewrite ?int_of_small by lia; lia).
Qed.

Lemma head_drop_strlen (s : string) : head (drop (strlen s) s) = NUL.
Proof.
  induction s as [|c t IH]; [reflexivity|]. cbn [strlen].
  destruct (is_nul c) eqn:E; [|exact IH].
  cbn [drop head]. now apply is_nul_true.
Qed.

(** Whatever the destination ends in, the octet compared with ['*'] is its
    terminator, and the ['*'] is appended. *)
Lemma device_home_always_appends (t : string) (maps : list wsp_http_map) :
  fits_int t ->
  wsp_http_map_url_config_device_home (Some t) maps
  = wsp_http_map_url_do_config (Some "DEVICE:home*")
      (Some (c_str t ++ String star EmptyString)) maps.
Proof.
  unfold fits_int. intros Hfit. unfold wsp_http_map_url_config_device_home.
  rewrite int_of_small by lia. rewrite c_index_last by lia.
  now rewrite Nat2Z.id, head_drop_strlen, Z.eqb_refl.
Qed.

Lemma config_step_wf (l : config_line) (maps maps' : list wsp_http_map) :
  line_fits l ->
  Forall wf_map maps ->
  config_step l maps = Some maps' ->
  Forall wf_map maps'.
Proof.
  destruct l as [src dst|to]; cbn [line_fits config_step].
  - intros [Hs Hd]. now apply do_config_wf.
  - intros Hfit Hm.
    rewrite device_home_always_appends by (unfold fits_int; lia).
    apply do_config_wf; [unfold fits_int; vm_compute; reflexivity| |exact Hm].
    unfold fits_int. rewrite <- strlen_c_str, c_str_app_star.
    rewrite length_app, strlen_c_str. cbn [String.length]. lia.
Qed.

Lemma config_all_wf (cfg : list config_line) :
  forall maps maps',
  Forall line_fits cfg ->
  Forall wf_map maps ->
  wsp_http_map_url_config_all cfg maps = Some maps' ->
  Forall wf_map maps'.
Proof.
  induction cfg as [|l rest IH]; intros maps maps' Hc Hm; simpl.
  - now intros [= <-].
  - inversion Hc as [|? ? Hl Hr]; subst.
    destruct (config_step l maps) as [m1|] eqn:E; [|discriminate].
    apply IH; [exact Hr|]. exact (config_step_wf l maps m1 Hl Hm E).
Qed.

Lemma find_test_spec (r : wsp_http_map) (u : string) :
  wf_map r -> c_str u = u ->
  (0 =? strncasecmp u (in_ r) (size_t_of (in_len r))) = spec_matches u r.
Proof.
  intros [Hin _ Hfit _ Hlen _] Hu. unfold fits_int in Hfit.
  rewrite (strlen_nul_free _ Hin) in Hfit.
  apply Bool.eq_iff_eq_true. rewrite Z.eqb_eq.
  unfold spec_matches, spec_in_pattern. destruct (in_prefix r).
  - destruct Hlen as [H0 Hl].
    rewrite size_t_of_small by lia.
    rewrite <- (Z2Nat.id (in_len r)) at 1 by exact H0.
    rewrite andb_true_iff, Nat.leb_le, String.eqb_eq.
    split; intros H.
    + symmetry in H. apply strncasecmp_prefix in H; [exact H|].
      rewrite (strlen_nul_free _ Hin). lia.
    + symmetry. apply strncasecmp_prefix; [|exact H].
      rewrite (strlen_nul_free _ Hin). lia.
  - rewrite size_t_of_small by lia. rewrite Hlen, String.eqb_eq.
    split; intros H.
    + symmetry in H. apply strncasecmp_full in H; [|exact Hin]. now rewrite Hu in H.
    + symmetry. apply strncasecmp_full; [exact Hin|]. now rewrite Hu.
Qed.

Lemma wsp_http_map_find_spec (rules : list wsp_http_map) (u : string) :
  Forall wf_map rules -> c_str u = u ->
  wsp_http_map_find rules u = find (spec_matches u) rules.
Proof.
  intros Hr Hu. induction Hr as [|r rest Hw _ IH];
    cbn [wsp_http_map_find find]; [reflexivity|].
  rewrite (find_test_spec r u Hw Hu). now rewrite IH.
Qed.

Lemma find_wf (rules : list wsp_http_map) (f : wsp_http_map -> bool)
    (r : wsp_http_map) :
  Forall wf_map rules -> find f rules = Some r -> wf_map r /\ f r = true.
Proof.
  intros Hr Hf. apply find_some in Hf as [Hin Hf]. split; [|exact Hf].
  rewrite Forall_forall in Hr. now apply Hr.
Qed.

Lemma wsp_http_map_url_wf (rules : list wsp_http_map) (u : string) :
  Forall wf_map rules -> c_str u = u ->
  wsp_http_map_url rules u = Some (spec_rewrite rules u).
Proof.
  intros Hr Hu. unfold wsp_http_map_url, spec_rewrite, octstr_get_cstr.
  rewrite (wsp_http_map_find_spec rules u Hr Hu).
  destruct (find (spec_matches u) rules) as [r|] eqn:Ef; [|reflexivity].
  destruct (find_wf _ _ _ Hr Ef) as [[Hin Hout Hfit Hfl Hlen Hol] Hm].
  unfold octstr_create_from_data, spec_out_pattern.
  assert (Eo : (0 <=? out_len r) && (out_len r <=? Z.of_nat (strlen (out r))) = true).
  { rewrite (strlen_nul_free _ Hout). apply andb_true_iff; split; apply Z.leb_le; lia. }
  rewrite Eo.
  unfold spec_matches in Hm. unfold in_prefix, out_prefix in *.
  destruct Hfl as [Hf|[Hf|[Hf|Hf]]]; rewrite Hf in *; cbn in Hlen, Hm |- *;
    try reflexivity.
  apply andb_true_iff in Hm as [Hle _]. apply Nat.leb_le in Hle.
  unfold c_offset. rewrite (strlen_nul_free _ Hu).
  assert (Ei : (0 <=? in_len r) && (in_len r <=? Z.of_nat (String.length u)) = true).
  { apply andb_true_iff; split; apply Z.leb_le; lia. }
  rewrite Ei. unfold octstr_append_cstr. now rewrite (c_str_drop _ _ Hu).
Qed.

Lemma do_config_appends (src dst : string) (maps maps' : list wsp_http_map) :
  wsp_http_map_url_do_config (Some src) (Some dst) maps = Some maps' ->
  maps' = maps \/ exists r, maps' = (maps ++ [r])%list.
Proof.
  unfold wsp_http_map_url_do_config.
  destruct (int_of (Z.of_nat (strlen src)) =? 0); [intros [= <-]; now left|].
  destruct (c_index src _); [|discriminate].
  destruct (c_index dst _); [|discriminate].
  destruct (Ascii.eqb _ star), (Ascii.eqb _ star); intros [= <-]; right; eauto.
Qed.


(** ** Octet string comparison *)

Lemma ascii_compare_refl (a : ascii) : Ascii.compare a a = Eq.
Proof. unfold Ascii.compare. apply N.compare_refl. Qed.

Lemma string_compare_refl (s : string) : String.compare s s = Eq.
Proof.
  induction s as [|c t IH]; simpl; [reflexivity|].
  now rewrite ascii_compare_refl.
Qed.

Lemma octstr_compare_zero (a b : Octstr) : (octstr_compare a b =? 0) = String.eqb a b.
Proof.
  unfold octstr_compare. destruct (String.eqb a b) eqn:E.
  - apply String.eqb_eq in E. subst b. now rewrite string_compare_refl.
  - destruct (String.compare a b) eqn:Ec; try reflexivity.
    apply String.compare_eq_iff in Ec. subst b. now rewrite String.eqb_refl in E.
Qed.

Lemma is_method_eqb (m : Octstr) (name : string) : is_method m name = String.eqb m name.
Proof. unfold is_method, octstr_str_compare. apply octstr_compare_zero. Qed.

(** ** The converter registry *)

Section Converter_properties.

Variable wml_compile : option Octstr -> Octstr -> Z * Octstr.
Variable ws_compile_data : string -> option Octstr -> Z * Octstr.

Local Notation converters := (converters wml_compile ws_compile_data).
Local Notation convert_content := (convert_content wml_compile ws_compile_data).

Lemma type_test (c : content) (t : string) :
  (octstr_str_compare (type c) t =? 0) = String.eqb (type c) t.
Proof. apply octstr_compare_zero. Qed.

Lemma convert_content_unregistered (c : content) :
  (forall cv, In cv converters -> type c <> Converter.type cv) ->
  convert_content c = (0, c).
Proof.
  intros H. unfold convert_content, convert_content_from, converters.
  cbn [Converter.type Converter.result_type Converter.convert].
  rewrite !type_test.
  assert (H1 : String.eqb (type c) "text/vnd.wap.wml" = false).
  { apply String.eqb_neq. apply (H _ (or_introl eq_refl)). }
  assert (H2 : String.eqb (type c) "text/vnd.wap.wmlscript" = false).
  { apply String.eqb_neq. apply (H _ (or_intror (or_introl eq_refl))). }
  now rewrite H1, H2.
Qed.

(** C7: the registered source types are exactly text/vnd.wap.wml and
    text/vnd.wap.wmlscript; content of any other type is returned as it
    was, with 0; when the converter of the content's type yields a body,
    the result is 1 with that body and the converter's result type, charset
    and url as they were; when it yields none, the result is -1 and the
    content is as it was. *)
Theorem convert_content_cases (c : content) :
  map Converter.type converters = ["text/vnd.wap.wml"; "text/vnd.wap.wmlscript"]
  /\ ((forall cv, In cv converters -> type c <> Converter.type cv) ->
      convert_content c = (0, c))
  /\ (forall cv new_body,
         In cv converters -> type c = Converter.type cv ->
         Converter.convert cv c = Some new_body ->
         convert_content c =
           (1, {| body := Some new_body; type := Converter.result_type cv;
                  charset := charset c; url := url c |}))
  /\ (forall cv,
         In cv converters -> type c = Converter.type cv ->
         Converter.convert cv c = None ->
         convert_content c = (-1, c)).
Proof.
  split; [reflexivity|]. split; [apply convert_content_unregistered|].
  unfold convert_content, convert_content_from, converters.
  cbn [Converter.type Converter.result_type Converter.convert].
  rewrite !type_test. split.
  - intros cv nb [<-|[<-|[]]] Ht; cbn [Converter.type Converter.convert Converter.result_type];
      intros Hc; rewrite Ht; cbn [String.eqb Ascii.eqb Bool.eqb]; rewrite Hc;
      reflexivity.
  - intros cv [<-|[<-|[]]] Ht; cbn [Converter.type Converter.convert];
      intros Hc; rewrite Ht; cbn [String.eqb Ascii.eqb Bool.eqb]; rewrite Hc;
      destruct c; cbn in *; reflexivity.
Qed.

End Converter_properties.

(** ** The request assembler and the reply dispatcher *)

Lemma http_status_class_2xx (status : Z) :
  (http_status_class status =? HTTP_STATUS_SUCCESSFUL) = is_2xx status.
Proof.
  unfold http_status_class, HTTP_STATUS_SUCCESSFUL, HTTP_STATUS_UNKNOWN, is_2xx.
  pose proof (Z.div_mod status 100 ltac:(lia)) as Hd.
  pose proof (Z.mod_pos_bound status 100 ltac:(lia)) as Hm.
  destruct (status <? 100) eqn:E1; [apply Z.ltb_lt in E1|apply Z.ltb_ge in E1];
    destruct (600 <=? status) eqn:E2; [apply Z.leb_le in E2|apply Z.leb_gt in E2
                                      |apply Z.leb_le in E2|apply Z.leb_gt in E2];
    cbn [orb];
    destruct (200 <=? status) eqn:E3; [apply Z.leb_le in E3|apply Z.leb_gt in E3
                                      |apply Z.leb_le in E3|apply Z.leb_gt in E3
                                      |apply Z.leb_le in E3|apply Z.leb_gt in E3
                                      |apply Z.leb_le in E3|apply Z.leb_gt in E3];
    destruct (status <? 300) eqn:E4;
    try apply Z.ltb_lt in E4; try apply Z.ltb_ge in E4; cbn [andb];
    try reflexivity; try lia;
    try (apply Z.eqb_eq; lia); try (apply Z.eqb_neq; lia).
Qed.

Section Gateway_properties.

Variable wml_compile : option Octstr -> Octstr -> Z * Octstr.
Variable ws_compile_data : string -> option Octstr -> Z * Octstr.
Variable charsets : list Octstr.
Variable http_type_accepted : list header -> string -> bool.
Variable http_charset_accepted : list header -> string -> bool.
Variable http_header_combine : list header -> list header -> list header.
Variable http_remove_hop_headers : list header -> list header.
Variable http_header_pack : list header -> list header.
Variable http_header_get_content_type : list header -> Octstr * Octstr.
Variable http_header_mark_transformation :
  list header -> option Octstr -> Octstr -> list header.
Variable http_name2method : Octstr -> Z.
Variable gateway_time : option Octstr.
Variable official_name : Octstr.
Variable GW_NAME : string.
Variable VERSION : string.
Variable wsp_smart_errors : Z.
Variable device_home : option Octstr.
Variable error_requesting_back : Octstr -> Octstr -> Octstr.
Variable error_requesting : Octstr -> Octstr.
Variable wsp_http_map_list : list wsp_http_map.

Local Notation converters := (converters wml_compile ws_compile_data).
Local Notation convert_content := (convert_content wml_compile ws_compile_data).
Local Notation combined_headers := (combined_headers http_header_combine).
Local Notation fetch_headers :=
  (fetch_headers wml_compile ws_compile_data charsets http_type_accepted
     http_charset_accepted http_header_combine http_remove_hop_headers
     http_header_pack official_name GW_NAME VERSION).
Local Notation start_fetch :=
  (start_fetch wml_compile ws_compile_data charsets http_type_accepted
     http_charset_accepted http_header_combine http_remove_hop_headers
     http_header_pack http_name2method official_name GW_NAME VERSION
     wsp_http_map_list).
Local Notation add_x_wap_tod := (add_x_wap_tod gateway_time).
Local Notation reply_headers := (reply_headers http_remove_hop_headers gateway_time).
Local Notation reply_accept_filter :=
  (reply_accept_filter http_type_accepted http_header_mark_transformation).
Local Notation reply_sdu_limit := (reply_sdu_limit http_header_mark_transformation).
Local Notation smart_error_deck :=
  (smart_error_deck device_home error_requesting_back error_requesting).
Local Notation smart_error_content :=
  (smart_error_content device_home error_requesting_back error_requesting).
Local Notation return_reply_failure :=
  (return_reply_failure wml_compile ws_compile_data
     http_header_mark_transformation wsp_smart_errors device_home
     error_requesting_back error_requesting).
Local Notation return_reply_success :=
  (return_reply_success wml_compile ws_compile_data
     http_header_get_content_type http_header_mark_transformation).
Local Notation return_reply_until_sdu :=
  (return_reply_until_sdu wml_compile ws_compile_data http_type_accepted
     http_remove_hop_headers http_header_get_content_type
     http_header_mark_transformation gateway_time wsp_smart_errors device_home
     error_requesting_back error_requesting).
Local Notation return_reply :=
  (return_reply wml_compile ws_compile_data http_type_accepted
     http_remove_hop_headers http_header_get_content_type
     http_header_mark_transformation gateway_time wsp_smart_errors device_home
     error_requesting_back error_requesting).
Local Notation perform_return_reply :=
  (perform_return_reply wml_compile ws_compile_data http_type_accepted
     http_remove_hop_headers http_header_get_content_type
     http_header_mark_transformation gateway_time wsp_smart_errors device_home
     error_requesting_back error_requesting).
Local Notation return_replies_turn :=
  (return_replies_turn wml_compile ws_compile_data http_type_accepted
     http_remove_hop_headers http_header_get_content_type
     http_header_mark_transformation gateway_time wsp_smart_errors device_home
     error_requesting_back error_requesting).

Lemma reply_sdu_limit_eq (sdu_size status : Z) (c : content) (h : list header) :
  reply_sdu_limit sdu_size status c h =
    if (body_len c >? sdu_size) && (sdu_size >? 0)
    then (if is_2xx status then HTTP_BAD_GATEWAY else status,
          set_body c (Some EmptyString),
          http_header_mark_transformation h (Some EmptyString) (type c))
    else (status, c, h).
Proof.
  unfold reply_sdu_limit. now rewrite http_status_class_2xx.
Qed.

Lemma body_len_octets (c : content) : body_len c = octstr_len (body_octets c).
Proof. unfold body_len, body_octets. now destruct (body c). Qed.

Lemma reply_event_fields (ev e : WAPEvent) (status : Z) (h : list header)
    (c : content) (session_id : Z) :
  reply_event ev status h c session_id = Some e ->
  emitted_status e = status /\ emitted_headers e = h
  /\ emitted_body e = body_octets c.
Proof.
  unfold reply_event. destruct ev; intros [= <-]; cbn; auto.
Qed.

Lemma reply_event_invoke (ev : WAPEvent) (status : Z) (h : list header)
    (c : content) (session_id : Z) :
  is_invoke ev = true -> exists e, reply_event ev status h c session_id = Some e.
Proof.
  unfold reply_event. destruct ev; cbn; intros H; try discriminate; eauto.
Qed.

Lemma return_reply_inv (ms : machines) (status : Z) (cb : option Octstr)
    (h : option (list header)) (sdu_size : Z) (ev : WAPEvent) (session_id : Z)
    (url : Octstr) (x_wap_tod : Z) (rh : list header) (o : reply_outcome) :
  return_reply ms status cb h sdu_size ev session_id url x_wap_tod rh = Some o ->
  exists s1 c1 h1 ms1 s2 c2 h2,
    return_reply_until_sdu ms status cb h session_id url x_wap_tod rh
      = Some (s1, c1, h1, ms1)
    /\ reply_sdu_limit sdu_size s1 c1 h1 = (s2, c2, h2)
    /\ reply_event ev s2 h2 c2 session_id = Some (emitted o)
    /\ final_content o = c2
    /\ machines_after o = ms1.
Proof.
  unfold return_reply.
  destruct (return_reply_until_sdu _ _ _ _ _ _ _ _) as [[[[s1 c1] h1] ms1]|];
    [|discriminate].
  destruct (reply_sdu_limit sdu_size s1 c1 h1) as [[s2 c2] h2] eqn:El.
  destruct (reply_event ev s2 h2 c2 session_id) as [e|] eqn:Ee; [|discriminate].
  intros [= <-]. exists s1, c1, h1, ms1, s2, c2, h2. cbn. auto.
Qed.

(** C2: with a positive SDU size, the body of the emitted reply is never
    longer than it; a body that was longer is replaced by the empty string
    and the status becomes 502 exactly when it was in the 2xx class, any
    other status being kept; a body within the limit and its status are
    emitted as they were. *)
Theorem return_reply_sdu_enforced (ms : machines) (status : Z)
    (cb : option Octstr) (h : option (list header)) (sdu_size : Z)
    (ev : WAPEvent) (session_id : Z) (url : Octstr) (x_wap_tod : Z)
    (rh : list header) (o : reply_outcome) :
  0 < sdu_size ->
  return_reply ms status cb h sdu_size ev session_id url x_wap_tod rh = Some o ->
  octstr_len (emitted_body (emitted o)) <= sdu_size
  /\ exists s1 c1 h1 ms1,
       return_reply_until_sdu ms status cb h session_id url x_wap_tod rh
         = Some (s1, c1, h1, ms1)
       /\ (sdu_size < octstr_len (body_octets c1) ->
           emitted_body (emitted o) = EmptyString
           /\ emitted_status (emitted o)
              = if (200 <=? s1) && (s1 <? 300) then 502 else s1)
       /\ (octstr_len (body_octets c1) <= sdu_size ->
           emitted_body (emitted o) = body_octets c1
           /\ emitted_status (emitted o) = s1).
Proof.
  intros Hsdu Hr.
  apply return_reply_inv in Hr
    as (s1 & c1 & h1 & ms1 & s2 & c2 & h2 & Hu & Hl & He & _ & _).
  apply reply_event_fields in He as (Hs & _ & Hb).
  rewrite reply_sdu_limit_eq, body_len_octets in Hl. rewrite Hs, Hb.
  assert (Hpos : (sdu_size >? 0) = true) by (apply Z.gtb_lt; lia).
  rewrite Hpos, andb_true_r in Hl.
  destruct (octstr_len (body_octets c1) >? sdu_size) eqn:Eo;
    injection Hl as <- <- <-.
  - apply Z.gtb_lt in Eo. split; [cbn; lia|].
    exists s1, c1, h1, ms1. split; [exact Hu|]. split.
    + intros _. split; reflexivity.
    + intros Hle. lia.
  - rewrite Z.gtb_ltb in Eo. apply Z.ltb_ge in Eo. split; [exact Eo|].
    exists s1, c1, h1, ms1. split; [exact Hu|]. split.
    + intros Hlt. lia.
    + intros _. split; reflexivity.
Qed.

Lemma empty_body_within_sdu (sdu_size : Z) (c : content) :
  body c = Some EmptyString -> (body_len c >? sdu_size) && (sdu_size >? 0) = false.
Proof.
  intros H. unfold body_len. rewrite H. cbn.
  destruct (0 >? sdu_size) eqn:E1; [|reflexivity].
  destruct (sdu_size >? 0) eqn:E2; [|reflexivity].
  apply Z.gtb_lt in E1, E2. lia.
Qed.

Lemma return_reply_success_some (ms : machines) (cb : option Octstr)
    (h : list header) (session_id : Z) (url : Octstr) :
  exists c h1 ms1,
    return_reply_success ms cb (Some h) session_id url = Some (c, h1, ms1).
Proof.
  unfold return_reply_success.
  destruct (http_header_get_content_type h) as [ty cs].
  destruct (convert_content _) as [converted c1].
  destruct (converted =? 1); eauto.
Qed.

Lemma return_reply_success_unregistered (ms : machines) (cb : option Octstr)
    (h : list header) (session_id : Z) (url : Octstr) :
  (forall cv, In cv converters ->
              fst (http_header_get_content_type h) <> Converter.type cv) ->
  exists c,
    return_reply_success ms cb (Some h) session_id url = Some (c, Some h, ms)
    /\ body c = cb.
Proof.
  intros H. unfold return_reply_success.
  destruct (http_header_get_content_type h) as [ty cs]. cbn [fst] in H.
  rewrite convert_content_unregistered by exact H. cbn [Z.eqb]. eauto.
Qed.

Lemma reply_accept_filter_empty (status : Z) (rh : list header) (c : content)
    (h : list header) :
  body c = Some EmptyString ->
  body (fst (reply_accept_filter status rh c h)) = Some EmptyString.
Proof.
  intros H. unfold reply_accept_filter.
  destruct (negb _ && negb _); [reflexivity|exact H].
Qed.

Lemma reply_sdu_limit_empty (sdu_size status : Z) (c : content) (h : list header) :
  body c = Some EmptyString ->
  reply_sdu_limit sdu_size status c h = (status, c, h).
Proof.
  intros H. now rewrite reply_sdu_limit_eq, empty_body_within_sdu.
Qed.

Lemma reply_sdu_limit_status (sdu_size status : Z) (c : content) (h : list header) :
  is_2xx status = false ->
  fst (fst (reply_sdu_limit sdu_size status c h)) = status.
Proof.
  intros H. rewrite reply_sdu_limit_eq, H. now destruct (_ && _).
Qed.

(** A reply that is not a success and comes with a header list is emitted
    with its status; its empty body stays empty unless the header list
    announces a type that has a converter. *)
Lemma return_reply_error_status (ms : machines) (status : Z) (cb : option Octstr)
    (h : list header) (sdu_size : Z) (ev : WAPEvent) (session_id : Z)
    (url : Octstr) (x_wap_tod : Z) (rh : list header) :
  0 <= status -> is_2xx status = false -> is_invoke ev = true ->
  exists o,
    return_reply ms status cb (Some h) sdu_size ev session_id url x_wap_tod rh
      = Some o
    /\ emitted_status (emitted o) = status
    /\ (cb = Some EmptyString ->
        (forall cv, In cv converters ->
                    fst (http_header_get_content_type h) <> Converter.type cv) ->
        emitted_body (emitted o) = EmptyString).
Proof.
  intros Hpos Hcls Hev.
  assert (Hge : (status <? 0) = false) by (apply Z.ltb_ge; exact Hpos).
  unfold return_reply, return_reply_until_sdu. rewrite Hge.
  destruct (return_reply_success ms cb (Some h) session_id url)
    as [[[c h1] ms1]|] eqn:Es;
    [|destruct (return_reply_success_some ms cb h session_id url)
        as (c & h1 & ms1 & E); congruence].
  destruct (reply_accept_filter status rh (reply_body c) (reply_headers h1 x_wap_tod))
    as [c2 h2] eqn:Ef.
  pose proof (reply_sdu_limit_status sdu_size status c2 h2 Hcls) as Hst.
  destruct (reply_sdu_limit sdu_size status c2 h2) as [[s2 c3] h3] eqn:El.
  cbn [fst] in Hst. subst s2.
  destruct (reply_event_invoke ev status h3 c3 session_id Hev) as [e He].
  rewrite He. eexists. split; [reflexivity|]. cbn [emitted].
  apply reply_event_fields in He as (Hs & _ & Hb). split; [exact Hs|].
  intros Hcb Hun. rewrite Hb.
  destruct (return_reply_success_unregistered ms cb h session_id url Hun)
    as (c' & Es' & Hbody).
  rewrite Es in Es'. assert (Ecc : c = c') by congruence. subst c'.
  assert (Hc : body (reply_body c) = Some EmptyString).
  { unfold reply_body. rewrite Hbody, Hcb. now rewrite <- Hcb, <- Hbody. }
  pose proof (reply_accept_filter_empty status rh _ (reply_headers h1 x_wap_tod) Hc)
    as Hc2.
  rewrite Ef in Hc2. cbn [fst] in Hc2.
  rewrite (reply_sdu_limit_empty _ _ _ _ Hc2) in El.
  assert (Ec3 : c3 = c2) by congruence. subst c3.
  unfold body_octets. now rewrite Hc2.
Qed.

Lemma reply_event_unit (p : U.S_Unit_MethodInvoke_Ind.t) (e : WAPEvent)
    (status : Z) (h : list header) (c : content) (session_id : Z) :
  reply_event (S_Unit_MethodInvoke_Ind p) status h c session_id = Some e ->
  e = S_Unit_MethodResult_Req
        {| U.S_Unit_MethodResult_Req.addr_tuple := U.S_Unit_MethodInvoke_Ind.addr_tuple p;
           U.S_Unit_MethodResult_Req.transaction_id :=
             U.S_Unit_MethodInvoke_Ind.transaction_id p;
           U.S_Unit_MethodResult_Req.status := emitted_status e;
           U.S_Unit_MethodResult_Req.response_headers := emitted_headers e;
           U.S_Unit_MethodResult_Req.response_body := emitted_body e |}.
Proof. cbn. intros [= <-]. reflexivity. Qed.

(** C8: a method other than GET, POST and HEAD ends [start_fetch] in a
    call of [return_reply], not of the HTTP caller, with status 501, an
    empty body and an empty header list; the reply comes out with status
    501, and with an empty body when an empty header list announces no
    type that has a converter; for the unit event it is one
    [S_Unit_MethodResult_Req] with the address tuple and the transaction id
    of the event. *)
Theorem start_fetch_not_implemented (ms : machines) (event : WAPEvent)
    (m uri url : Octstr) :
  invoke_method event = Some m ->
  m <> "GET" -> m <> "POST" -> m <> "HEAD" ->
  invoke_uri event = Some uri ->
  wsp_http_map_url wsp_http_map_list uri = Some url ->
  exists c o,
    start_fetch ms event = Some (Call_return_reply c)
    /\ Reply_call.status c = 501
    /\ Reply_call.content_body c = Some EmptyString
    /\ Reply_call.headers c = Some []
    /\ Reply_call.orig_event c = event
    /\ perform_return_reply ms c = Some o
    /\ emitted_status (emitted o) = 501
    /\ ((forall cv, In cv converters ->
                    fst (http_header_get_content_type []) <> Converter.type cv) ->
        emitted_body (emitted o) = EmptyString)
    /\ (forall p, event = S_Unit_MethodInvoke_Ind p ->
        emitted o =
          S_Unit_MethodResult_Req
            {| U.S_Unit_MethodResult_Req.addr_tuple :=
                 U.S_Unit_MethodInvoke_Ind.addr_tuple p;
               U.S_Unit_MethodResult_Req.transaction_id :=
                 U.S_Unit_MethodInvoke_Ind.transaction_id p;
               U.S_Unit_MethodResult_Req.status := 501;
               U.S_Unit_MethodResult_Req.response_headers :=
                 emitted_headers (emitted o);
               U.S_Unit_MethodResult_Req.response_body :=
                 emitted_body (emitted o) |}).
Proof.
  intros Hm Hget Hpost Hhead Hu Hmap.
  apply String.eqb_neq in Hget, Hpost, Hhead.
  assert (Hev : is_invoke event = true)
    by (destruct event; cbn in Hm; try discriminate; reflexivity).
  unfold start_fetch.
  destruct event as [p|p|p|p]; cbn in Hm, Hu; try discriminate;
    injection Hm as Hm; injection Hu as Hu; rewrite Hu, Hmap, Hm;
    destruct (fetch_headers _ _ _ _ _ _) as [actual_headers x_wap_tod];
    rewrite !is_method_eqb, Hget, Hpost, Hhead; cbn [andb orb];
    (match goal with
     | |- context [Call_return_reply ?c] =>
         destruct (return_reply_error_status ms HTTP_NOT_IMPLEMENTED
                     (Some EmptyString) http_create_empty_headers
                     (Reply_call.sdu_size c) (Reply_call.orig_event c)
                     (Reply_call.session_id c) url x_wap_tod actual_headers
                     ltac:(unfold HTTP_NOT_IMPLEMENTED; lia) eq_refl Hev)
           as (o & Ho & Hs & Hb);
         exists c, o
     end);
    (split; [reflexivity|]); cbn [Reply_call.status Reply_call.content_body
      Reply_call.headers Reply_call.orig_event];
    repeat (split; [reflexivity|]);
    (split; [exact Ho|]); (split; [exact Hs|]);
    (split; [intros Hun; exact (Hb eq_refl Hun)|]);
    intros q Hq; try discriminate; injection Hq as <-;
    apply return_reply_inv in Ho
      as (s1 & c1 & h1 & ms1 & s2 & c2 & h2 & _ & _ & He & _ & _);
    cbn [Reply_call.orig_event] in He; apply reply_event_unit in He;
    rewrite Hs in He; exact He.
Qed.

(** *** The headers of a reply *)

Lemma has_header_removed (name : string) (hs : list header) :
  has_header name (fst (http_header_remove_all hs name)) = false.
Proof.
  unfold has_header, http_header_remove_all. cbn [fst].
  induction hs as [|x rest IH]; [reflexivity|]. cbn [filter].
  destruct (header_is_called name x) eqn:E; cbn [negb]; [exact IH|].
  cbn [existsb]. now rewrite E, IH.
Qed.

Lemma no_hop_filter (is_hop_header : header -> bool) (f : header -> bool)
    (hs : list header) :
  no_hop_headers is_hop_header hs = true ->
  no_hop_headers is_hop_header (filter f hs) = true.
Proof.
  unfold no_hop_headers. induction hs as [|x rest IH]; [reflexivity|].
  cbn [forallb filter]. intros H. apply andb_true_iff in H as [Hx Hr].
  destruct (f x); [cbn [forallb]; rewrite Hx|]; auto.
Qed.

Lemma count_zero_existsb (f : header -> bool) (hs : list header) :
  Z.of_nat (List.length (filter f hs)) <> 0 <-> existsb f hs = true.
Proof.
  induction hs as [|x rest IH]; cbn [filter existsb List.length].
  - split; [intros H; now contradiction H|discriminate].
  - destruct (f x); cbn [orb List.length]; [split; [reflexivity|lia]|exact IH].
Qed.

Lemma filter_length_le (f : header -> bool) (hs : list header) :
  (List.length (filter f hs) <= List.length hs)%nat.
Proof.
  induction hs as [|x rest IH]; cbn [filter List.length]; [lia|].
  destruct (f x); cbn [List.length]; lia.
Qed.

(** The headers and the flag in the call [start_fetch] ends with are the
    two results of [fetch_headers] for the header lists, the session id and
    the SDU size of the event. *)
Lemma start_fetch_headers (ms : machines) (event : WAPEvent) :
  (forall c,
      start_fetch ms event = Some (Call_return_reply c) ->
      exists tuple,
        fetch_headers ms (invoke_session_headers event)
          (invoke_request_headers event) tuple (invoke_session_id event)
          (invoke_sdu_size event)
        = (Reply_call.request_headers c, Reply_call.x_wap_tod c))
  /\ (forall method url hs body follow p,
         start_fetch ms event
         = Some (Call_http_start_request method url hs body follow p) ->
         exists tuple,
           fetch_headers ms (invoke_session_headers event)
             (invoke_request_headers event) tuple (invoke_session_id event)
             (invoke_sdu_size event)
           = (hs, Request_data.x_wap_tod p)
           /\ Request_data.request_headers p = hs).
Proof.
  unfold start_fetch.
  destruct event as [q|q|q|q];
    cbn [invoke_session_id invoke_sdu_size invoke_session_headers
         invoke_request_headers];
    try (split; intros; discriminate);
    (destruct (wsp_http_map_url _ _) as [url0|]; [|split; intros; discriminate]);
    (match goal with
     | |- context [fetch_headers ms ?sh ?rh ?t ?sid ?sdu] =>
         destruct (fetch_headers ms sh rh t sid sdu)
           as [actual_headers x_wap_tod] eqn:Ef
     end);
    (split; [intros c Hs|intros method url hs body follow p Hs]);
    (destruct (is_method _ "GET" && _);
     [|destruct (is_method _ "GET" || is_method _ "POST" || is_method _ "HEAD")]);
    try discriminate; injection Hs; intros; subst; cbn;
    eexists; try split; try exact Ef; reflexivity.
Qed.

Section Reply_headers.

(** What the properties ask of gwlib: [http_remove_hop_headers] leaves no
    hop-by-hop header, marking a transformation brings none in and neither
    adds nor removes X-WAP.TOD, and X-WAP.TOD is not hop-by-hop itself: it
    stays when hop-by-hop headers are removed; and a combined header list
    holds X-WAP.TOD exactly when one of the two lists did. *)
Variable is_hop_header : header -> bool.
Hypothesis hop_removed :
  forall hs, no_hop_headers is_hop_header (http_remove_hop_headers hs) = true.
Hypothesis hop_keeps_tod :
  forall hs,
    has_header X_WAP_TOD (http_remove_hop_headers hs) = has_header X_WAP_TOD hs.
Hypothesis combine_tod :
  forall old new,
    has_header X_WAP_TOD (http_header_combine old new)
    = has_header X_WAP_TOD old || has_header X_WAP_TOD new.
Hypothesis mark_no_hop :
  forall hs b t,
    no_hop_headers is_hop_header hs = true ->
    no_hop_headers is_hop_header (http_header_mark_transformation hs b t) = true.
Hypothesis mark_keeps_tod :
  forall hs b t,
    has_header X_WAP_TOD (http_header_mark_transformation hs b t)
    = has_header X_WAP_TOD hs.
Hypothesis tod_not_hop : forall v, is_hop_header (X_WAP_TOD, v) = false.

Local Notation reply_headers_ok := (reply_headers_ok is_hop_header gateway_time).

Lemma reply_headers_start (h : option (list header)) (x_wap_tod : Z) :
  reply_headers_ok x_wap_tod (reply_headers h x_wap_tod).
Proof.
  unfold reply_headers_ok, reply_headers.
  set (h0 := match h with None => _ | Some l => l end).
  pose proof (hop_removed h0) as Hh.
  pose proof (has_header_removed "X-WAP.TOD" (http_remove_hop_headers h0)) as Ht.
  assert (Hf : no_hop_headers is_hop_header
                 (fst (http_header_remove_all (http_remove_hop_headers h0) "X-WAP.TOD"))
               = true) by (apply no_hop_filter; exact Hh).
  destruct (negb (x_wap_tod =? 0)); cbn [andb]; [|split; assumption].
  unfold add_x_wap_tod. destruct gateway_time as [t|]; cbn [available];
    [|split; assumption].
  unfold http_header_add, no_hop_headers, has_header.
  rewrite forallb_app, existsb_app. split.
  - unfold no_hop_headers in Hf. rewrite Hf. cbn [forallb andb].
    change (c_str "X-WAP.TOD") with X_WAP_TOD. now rewrite tod_not_hop.
  - apply orb_true_iff. right. reflexivity.
Qed.

Lemma reply_headers_mark (x_wap_tod : Z) (hs : list header) (b : option Octstr)
    (t : Octstr) :
  reply_headers_ok x_wap_tod hs ->
  reply_headers_ok x_wap_tod (http_header_mark_transformation hs b t).
Proof.
  intros [H1 H2]. split; [now apply mark_no_hop|now rewrite mark_keeps_tod].
Qed.

(** For any flag: the header list of an emitted reply holds no hop-by-hop
    header, and X-WAP.TOD exactly when the flag is set and the gateway time
    could be formatted. *)
Lemma return_reply_headers_flag (ms : machines) (status : Z)
    (cb : option Octstr) (h : option (list header)) (sdu_size : Z)
    (ev : WAPEvent) (session_id : Z) (url : Octstr) (x_wap_tod : Z)
    (rh : list header) (o : reply_outcome) :
  return_reply ms status cb h sdu_size ev session_id url x_wap_tod rh = Some o ->
  reply_headers_ok x_wap_tod (emitted_headers (emitted o)).
Proof.
  intros Hr.
  apply return_reply_inv in Hr
    as (s1 & c1 & h1 & ms1 & s2 & c2 & h2 & Hu & Hl & He & _ & _).
  apply reply_event_fields in He as (_ & Hh & _). rewrite Hh.
  assert (H1 : reply_headers_ok x_wap_tod h1).
  { unfold return_reply_until_sdu in Hu.
    destruct (if status <? 0 then _ else _) as [[[[s c] h0] ms0]|];
      [|discriminate].
    pose proof (reply_headers_start h0 x_wap_tod) as Hs.
    unfold reply_accept_filter in Hu.
    destruct (negb _ && negb _); injection Hu as <- <- <- <-;
      [apply reply_headers_mark|]; exact Hs. }
  rewrite reply_sdu_limit_eq in Hl.
  destruct (_ && _); injection Hl as <- <- <-;
    [apply reply_headers_mark|]; exact H1.
Qed.

(** The flag [fetch_headers] records is set exactly when the client sent
    an X-WAP.TOD header, among the session headers or the request headers. *)
Lemma fetch_headers_flag (ms : machines) (sh rh : option (list header))
    (tuple : WAPAddrTuple) (session_id sdu_size : Z) :
  Z.of_nat (List.length (http_remove_hop_headers (combined_headers sh rh)))
    < 2 ^ 31 ->
  negb (snd (fetch_headers ms sh rh tuple session_id sdu_size) =? 0)
  = carries X_WAP_TOD sh || carries X_WAP_TOD rh.
Proof.
  intros Hlen.
  assert (Hc : has_header X_WAP_TOD (http_remove_hop_headers (combined_headers sh rh))
               = carries X_WAP_TOD sh || carries X_WAP_TOD rh).
  { rewrite hop_keeps_tod. unfold combined_headers, carries.
    destruct sh as [sh|], rh as [rh|]; rewrite ?combine_tod; cbn [has_header existsb orb];
      rewrite ?orb_false_r; reflexivity. }
  rewrite <- Hc. unfold fetch_headers, http_header_remove_all. cbn [snd].
  set (h3 := http_remove_hop_headers (combined_headers sh rh)) in *.
  pose proof (filter_length_le (header_is_called "X-WAP.TOD") h3) as Hle.
  rewrite int_of_small by lia.
  pose proof (count_zero_existsb (header_is_called "X-WAP.TOD") h3) as Hz.
  unfold has_header, X_WAP_TOD.
  destruct (existsb (header_is_called "X-WAP.TOD") h3).
  - apply negb_true_iff, Z.eqb_neq, Hz. reflexivity.
  - apply negb_false_iff, Z.eqb_eq.
    destruct (Z.eq_dec (Z.of_nat (List.length (filter (header_is_called "X-WAP.TOD") h3))) 0)
      as [E|E]; [exact E|]. apply Hz in E. discriminate.
Qed.


End Reply_headers.

End Gateway_properties.

(** ** The device-home shorthand *)

(** C5, on the code: for the destination "http://home/*", which already
    ends in ['*'], the shorthand still appends one; the installed rule has
    both prefix flags, but its out pattern is "http://home/*", the
    destination itself and not the destination less its ['*'], and
    "DEVICE:home/news" is rewritten with the ['*'] inside. *)
Theorem device_home_star_kept :
  wsp_http_map_url_config_device_home (Some "http://home/*") []
  = Some [ {| flags := 3; in_ := "DEVICE:home*"; in_len := 11;
              out := "http://home/**"; out_len := 13 |} ]
  /\ wsp_http_map_url
       [ {| flags := 3; in_ := "DEVICE:home*"; in_len := 11;
            out := "http://home/**"; out_len := 13 |} ]
       "DEVICE:home/news"
     = Some "http://home/*/news".
Proof. split; vm_compute; reflexivity. Qed.

(** ** Push OTA *)

Section PushOTA_properties.

Variable wsp_application_id_to_cstr : Z -> option string.
Variable wsp_bearer_indication_to_cstr : Z -> option string.
Variable coded_value_address : Z -> Z.
Variable header_outside : list header -> Z -> option header.
Variable Cap : Type.

Local Notation application_loop :=
  (application_loop wsp_application_id_to_cstr coded_value_address header_outside).
Local Notation check_application_headers :=
  (check_application_headers wsp_application_id_to_cstr coded_value_address
     header_outside).
Local Notation indicate_push_connection :=
  (indicate_push_connection wsp_application_id_to_cstr
     wsp_bearer_indication_to_cstr coded_value_address header_outside Cap).

(** Without an Accept-Application header the default application is
    announced, and the call returns. *)
Lemma check_application_headers_default (fuel : nat)
    (headers : option (list header)) (application_headers : list header) :
  match headers with
  | Some hs => has_header "Accept-Application" hs = false
  | None => True
  end ->
  exists rest,
    check_application_headers fuel headers application_headers
    = Returned (rest, (application_headers ++ [("Accept-Application", "wml ua")])%list).
Proof.
  unfold check_application_headers, split_header_list.
  destruct headers as [hs|]; [|intros _; eexists; reflexivity].
  intros H. unfold http_header_find_all.
  assert (E : filter (header_is_called "Accept-Application") hs = []).
  { unfold has_header in H. induction hs as [|x rest IH]; [reflexivity|].
    cbn [existsb filter] in *. apply orb_false_iff in H as [Hx Hr].
    rewrite Hx. now apply IH. }
  rewrite E. cbn. eexists. reflexivity.
Qed.

(** S6: a connect indication with no client headers is indicated to the PPG
    with the one application "wml ua" and no bearer indication. *)
Lemma indicate_push_connection_default (fuel : nat) (e : U.S_Connect_Ind.t Cap) :
  U.S_Connect_Ind.client_headers e = None
  \/ U.S_Connect_Ind.client_headers e = Some [] ->
  exists p,
    indicate_push_connection fuel e = Returned p
    /\ U.Pom_Connect_Ind.accept_application p = [("Accept-Application", "wml ua")]
    /\ U.Pom_Connect_Ind.bearer_indication p = None
    /\ U.Pom_Connect_Ind.addr_tuple p = U.S_Connect_Ind.addr_tuple e
    /\ U.Pom_Connect_Ind.session_id p = U.S_Connect_Ind.session_id e.
Proof.
  unfold indicate_push_connection.
  intros [H|H]; rewrite H; cbn; eexists; (split; [reflexivity|]); cbn; auto.
Qed.

(** The loop guard [list_len(inh) > 0] does not change: from a list that
    is not empty the loop never falls through to the return. *)
Lemma application_loop_never_returns (inh : list header) :
  inh <> [] ->
  forall fuel i appid_value application_headers r,
    application_loop fuel inh i appid_value application_headers <> Returned r.
Proof.
  intros Hne. induction fuel as [|fuel IH]; intros i v apps r; cbn [application_loop].
  - discriminate.
  - assert (E : (Z.of_nat (List.length inh) >? 0) = true).
    { destruct inh; [contradiction|]. apply Z.gtb_lt. cbn [List.length]. lia. }
    rewrite E. destruct (http_header_get header_outside inh i) as [[name value]|];
      [apply IH|discriminate].
Qed.

(** C10, on the code: when the push headers hold an Accept-Application
    header, [check_application_headers] does not return, whatever the fuel:
    the loop is left only by the stop inside [http_header_get], once [i]
    has run past the list. *)
Theorem check_application_headers_never_returns (fuel : nat)
    (headers application_headers : list header) :
  has_header "Accept-Application" headers = true ->
  forall r,
    check_application_headers fuel (Some headers) application_headers
    <> Returned r.
Proof.
  intros H r. unfold check_application_headers, split_header_list.
  unfold http_header_find_all.
  assert (Hne : filter (header_is_called "Accept-Application") headers <> []).
  { unfold has_header in H. induction headers as [|x rest IH]; [discriminate|].
    cbn [existsb filter] in *. destruct (header_is_called _ x); [discriminate|].
    now apply IH. }
  destruct (filter _ headers) as [|x l] eqn:E; [contradiction|].
  cbn [List.length]. 
  assert (E0 : (Z.of_nat (S (List.length l)) =? 0) = false)
    by (apply Z.eqb_neq; lia).
  rewrite E0.
  pose proof (application_loop_never_returns (x :: l) Hne fuel 0 None
                application_headers) as Hl.
  destruct (application_loop fuel (x :: l) 0 None application_headers) as [a|b|b];
    [now contradiction (Hl a)|discriminate|discriminate].
Qed.

End PushOTA_properties.

(** With the assertion of [list_get] in force, the loop handles each
    extracted header once and then stops the process at the position just
    past the list. *)
Lemma application_loop_stops (reg : Z -> option string) (addr : Z -> Z)
    (inh : list header) :
  inh <> [] ->
  Z.of_nat (List.length inh) < 2 ^ 31 ->
  forall (n k : nat) (fuel : nat) (v : option string) (apps : list header),
    (k + n = List.length inh)%nat ->
    (n < fuel)%nat ->
    exists built,
      application_loop reg addr Sample.stop_outside fuel inh (Z.of_nat k) v apps
      = Stopped built.
Proof.
  intros Hne Hlen.
  assert (Hg : (Z.of_nat (List.length inh) >? 0) = true).
  { destruct inh; [contradiction|]. apply Z.gtb_lt. cbn [List.length]. lia. }
  induction n as [|n IH]; intros k fuel v apps Hk Hf;
    (destruct fuel as [|fuel]; [lia|]); cbn [application_loop];
    rewrite Hg; unfold http_header_get.
  - assert (E : (0 <=? Z.of_nat k) && (Z.of_nat k <? Z.of_nat (List.length inh))
                = false).
    { apply andb_false_iff. right. apply Z.ltb_ge. lia. }
    rewrite E. cbn. eauto.
  - assert (E : (0 <=? Z.of_nat k) && (Z.of_nat k <? Z.of_nat (List.length inh))
                = true).
    { apply andb_true_iff. split; [apply Z.leb_le|apply Z.ltb_lt]; lia. }
    rewrite E, Nat2Z.id.
    destruct (nth_error inh k) as [[name value]|] eqn:En.
    + rewrite int_of_small by lia.
      replace (Z.of_nat k + 1) with (Z.of_nat (S k)) by lia.
      apply IH; lia.
    + apply nth_error_None in En. lia.
Qed.

(** C6, on the code: the push headers hold one Accept-Application header
    whose value is the octet 4 ("mms ua" in the sample registry).  The
    registry is asked for the address of the value, not for 4: with the
    value on the heap nothing is announced, and were its address 2 the name
    announced would be "wml ua"; in both runs the call stops inside the
    loop and does not return. *)
Theorem check_application_headers_takes_address :
  check_application_headers Sample.application_id Sample.heap_address
    Sample.stop_outside 3 (Some Sample.accept_mms) []
  = Stopped []
  /\ check_application_headers Sample.application_id (fun _ => 2)
       Sample.stop_outside 3 (Some Sample.accept_mms) []
     = Stopped [("Accept-Application", "wml ua")].
Proof. split; vm_compute; reflexivity. Qed.

(** ** The stand-ins meet the contracts *)

Lemma sample_hop_removed (hs : list header) :
  no_hop_headers Sample.is_hop_header (Sample.remove_hop_headers hs) = true.
Proof.
  unfold no_hop_headers, Sample.remove_hop_headers.
  induction hs as [|x rest IH]; [reflexivity|]. cbn [filter].
  destruct (negb (Sample.is_hop_header x)) eqn:E; [|exact IH].
  cbn [forallb]. now rewrite E, IH.
Qed.

Lemma sample_tod_not_hop (v : string) : Sample.is_hop_header (X_WAP_TOD, v) = false.
Proof. reflexivity. Qed.

Lemma sample_mark_no_hop (hs : list header) (b : option Octstr) (t : Octstr) :
  no_hop_headers Sample.is_hop_header hs = true ->
  no_hop_headers Sample.is_hop_header (Sample.mark_transformation hs b t) = true.
Proof.
  intros H. unfold Sample.mark_transformation, http_header_add,
    http_header_remove_all. cbn [fst].
  unfold no_hop_headers. rewrite !forallb_app.
  pose proof (no_hop_filter Sample.is_hop_header
                (fun h => negb (header_is_called "Content-Type" h)) _
                (no_hop_filter Sample.is_hop_header
                   (fun h => negb (header_is_called "Content-Length" h)) _ H)) as Hf.
  unfold no_hop_headers in Hf. rewrite Hf. reflexivity.
Qed.

Lemma existsb_filter_other (f g : header -> bool) (hs : list header) :
  (forall x, f x = true -> g x = true) ->
  existsb f (filter g hs) = existsb f hs.
Proof.
  intros H. induction hs as [|x rest IH]; [reflexivity|]. cbn [filter existsb].
  destruct (g x) eqn:Eg; cbn [existsb]; [now rewrite IH|].
  destruct (f x) eqn:Ef; [|exact IH].
  apply H in Ef. congruence.
Qed.

Lemma called_tod_not (name : string) (x : header) :
  String.eqb (lower X_WAP_TOD) (lower name) = false ->
  header_is_called X_WAP_TOD x = true ->
  negb (header_is_called name x) = true.
Proof.
  unfold header_is_called. intros Hn Hx. apply String.eqb_eq in Hx.
  rewrite Hx. now rewrite Hn.
Qed.

Lemma sample_mark_keeps_tod (hs : list header) (b : option Octstr) (t : Octstr) :
  has_header X_WAP_TOD (Sample.mark_transformation hs b t) = has_header X_WAP_TOD hs.
Proof.
  unfold Sample.mark_transformation, http_header_add, http_header_remove_all,
    has_header. cbn [fst]. rewrite !existsb_app.
  rewrite !existsb_filter_other
    by (intros x; apply called_tod_not; reflexivity).
  cbn. now rewrite !orb_false_r.
Qed.

Lemma sample_hop_keeps_tod (hs : list header) :
  has_header X_WAP_TOD (Sample.remove_hop_headers hs) = has_header X_WAP_TOD hs.
Proof.
  unfold Sample.remove_hop_headers, has_header.
  apply existsb_filter_other. intros [n v] Hx.
  unfold header_is_called in Hx. apply String.eqb_eq in Hx.
  unfold Sample.is_hop_header, Sample.hop_names, header_is_called.
  cbn [existsb]. rewrite Hx. reflexivity.
Qed.

Lemma sample_combine_tod (old new : list header) :
  has_header X_WAP_TOD (Sample.combine old new)
  = has_header X_WAP_TOD old || has_header X_WAP_TOD new.
Proof. unfold Sample.combine, has_header. apply existsb_app. Qed.

(** ** Scenarios, with the stand-ins *)

(** S3: a unit invoke with method PUT is answered by one
    [S_Unit_MethodResult_Req] with status 501 and an empty body. *)
Example unsupported_method_reply :
  exists o,
    Sample.run_start_fetch_reply (Some "Thu, 01 Jan 2004 00:00:00 GMT") []
      Sample.no_machines (Sample.unit_invoke "PUT" "http://x/y" [])
    = Some (Some o)
    /\ emitted o
       = S_Unit_MethodResult_Req
           {| U.S_Unit_MethodResult_Req.addr_tuple := Sample.tuple;
              U.S_Unit_MethodResult_Req.transaction_id := 5;
              U.S_Unit_MethodResult_Req.status := 501;
              U.S_Unit_MethodResult_Req.response_headers :=
                [("Content-Length", "0"); ("Content-Type", "text/plain")];
              U.S_Unit_MethodResult_Req.response_body := EmptyString |}.
Proof. eexists. split; vm_compute; reflexivity. Qed.

(** S4: a successful reply of five octets for a client SDU size of three
    goes out with status 502 and an empty body. *)
Example oversized_reply :
  exists o,
    Sample.run_return_reply None 0 None Sample.no_machines 200 (Some "hello")
      (Some [("Content-Type", "text/plain")]) 3
      (Sample.session_invoke "GET" "http://x/" 3) 7 "http://x/" 0 []
    = Some o
    /\ emitted_status (emitted o) = 502
    /\ emitted_body (emitted o) = EmptyString.
Proof. eexists. split; [vm_compute; reflexivity|]. split; reflexivity. Qed.

(** S5: a WML reply is compiled, and the session's referer becomes the
    request URL. *)
Example compiled_reply_sets_referer :
  exists o,
    Sample.run_return_reply None 0 None Sample.one_machine 200 (Some "<wml/>")
      (Some [("Content-Type", "text/vnd.wap.wml")]) 0
      (Sample.session_invoke "GET" "http://x/a.wml" 0) 7 "http://x/a.wml" 0 []
    = Some o
    /\ type (final_content o) = "application/vnd.wap.wmlc"
    /\ emitted_body (emitted o) = "wmlc:<wml/>"
    /\ get_referer_url (find_session_machine_by_id (machines_after o) 7)
       = Some "http://x/a.wml".
Proof.
  eexists. split; [vm_compute; reflexivity|]. repeat split; reflexivity.
Qed.

(** ** The statements at concrete inputs *)


Lemma convert_content_cases_witness :
  convert_content Sample.wml_compile Sample.ws_compile_data
    {| body := Some "<wml/>"; type := "text/vnd.wap.wml";
       charset := "utf-8"; url := "http://x/a.wml" |}
  = (1, {| body := Some "wmlc:<wml/>"; type := "application/vnd.wap.wmlc";
           charset := "utf-8"; url := "http://x/a.wml" |})
  /\ convert_content Sample.wml_compile Sample.ws_compile_data
       {| body := None; type := "text/vnd.wap.wmlscript";
          charset := "utf-8"; url := "http://x/a.wmls" |}
     = (-1, {| body := None; type := "text/vnd.wap.wmlscript";
               charset := "utf-8"; url := "http://x/a.wmls" |})
  /\ convert_content Sample.wml_compile Sample.ws_compile_data
       {| body := Some "hello"; type := "text/plain";
          charset := "utf-8"; url := "http://x/a.txt" |}
     = (0, {| body := Some "hello"; type := "text/plain";
              charset := "utf-8"; url := "http://x/a.txt" |}).
Proof.
  split; [|split].
  - refine (proj1 (proj2 (proj2 (convert_content_cases Sample.wml_compile
              Sample.ws_compile_data _)))
              {| Converter.type := "text/vnd.wap.wml";
                 Converter.result_type := "application/vnd.wap.wmlc";
                 Converter.convert := convert_wml_to_wmlc Sample.wml_compile |}
              "wmlc:<wml/>" _ _ _);
      [left; reflexivity|reflexivity|reflexivity].
  - refine (proj2 (proj2 (proj2 (convert_content_cases Sample.wml_compile
              Sample.ws_compile_data _)))
              {| Converter.type := "text/vnd.wap.wmlscript";
                 Converter.result_type := "application/vnd.wap.wmlscriptc";
                 Converter.convert :=
                   convert_wmlscript_to_wmlscriptc Sample.ws_compile_data |}
              _ _ _);
      [right; left; reflexivity|reflexivity|reflexivity].
  - refine (proj1 (proj2 (convert_content_cases Sample.wml_compile
              Sample.ws_compile_data _)) _).
    intros cv [<-|[<-|[]]]; discriminate.
Defined.

Lemma start_fetch_not_implemented_witness :
  invoke_method (Sample.unit_invoke "PUT" "http://x/y" []) = Some "PUT"
  /\ exists c o,
       Sample.run_start_fetch [] Sample.no_machines
         (Sample.unit_invoke "PUT" "http://x/y" [])
       = Some (Call_return_reply c)
       /\ Reply_call.status c = 501
       /\ perform_return_reply Sample.wml_compile Sample.ws_compile_data
            (Sample.accepted "Accept") Sample.remove_hop_headers
            Sample.get_content_type Sample.mark_transformation None 0 None
            Sample.error_requesting_back Sample.error_requesting
            Sample.no_machines c
          = Some o
       /\ emitted_status (emitted o) = 501
       /\ emitted_body (emitted o) = EmptyString.
Proof.
  split; [reflexivity|].
  destruct (start_fetch_not_implemented Sample.wml_compile Sample.ws_compile_data
              ["utf-8"] (Sample.accepted "Accept") (Sample.accepted "Accept-Charset")
              Sample.combine Sample.remove_hop_headers Sample.pack
              Sample.get_content_type Sample.mark_transformation
              Sample.name2method None "wap.example.org" "Kannel" "1.3.1" 0 None
              Sample.error_requesting_back Sample.error_requesting []
              Sample.no_machines (Sample.unit_invoke "PUT" "http://x/y" [])
              "PUT" "http://x/y" "http://x/y" eq_refl
              ltac:(discriminate) ltac:(discriminate) ltac:(discriminate)
              eq_refl eq_refl)
    as (c & o & H1 & H2 & _ & _ & _ & H6 & H7 & H8 & _).
  exists c, o. repeat (split; [assumption|]).
  apply H8. intros cv [<-|[<-|[]]]; discriminate.
Defined.

Lemma return_reply_sdu_enforced_witness :
  0 < 3
  /\ exists o,
       Sample.run_return_reply None 0 None Sample.no_machines 200 (Some "hello")
         (Some [("Content-Type", "text/plain")]) 3
         (Sample.session_invoke "GET" "http://x/" 3) 7 "http://x/" 0 []
       = Some o
       /\ octstr_len (emitted_body (emitted o)) <= 3.
Proof.
  split; [lia|]. eexists. split; [vm_compute; reflexivity|].
  refine (proj1 (return_reply_sdu_enforced Sample.wml_compile
            Sample.ws_compile_data (Sample.accepted "Accept")
            Sample.remove_hop_headers Sample.get_content_type
            Sample.mark_transformation None 0 None Sample.error_requesting_back
            Sample.error_requesting Sample.no_machines 200 (Some "hello")
            (Some [("Content-Type", "text/plain")]) 3
            (Sample.session_invoke "GET" "http://x/" 3) 7 "http://x/" 0 [] _ _ _));
    [lia|reflexivity].
Defined.


Lemma check_application_headers_never_returns_witness :
  has_header "Accept-Application" Sample.accept_mms = true
  /\ forall r,
       check_application_headers Sample.application_id Sample.heap_address
         Sample.stop_outside 3 (Some Sample.accept_mms) []
       <> Returned r.
Proof.
  split; [reflexivity|].
  apply check_application_headers_never_returns. reflexivity.
Defined.


(** * Further properties

    ** The "map-url" line *)

Lemma c_str_app (s t : string) : c_str s = s -> c_str (s ++ t) = s ++ c_str t.
Proof.
  induction s as [|c r IH]; intros H; [reflexivity|].
  apply c_str_cons in H as [Hc Hr]. cbn [append c_str]. rewrite Hc.
  now rewrite IH.
Qed.

Lemma all_blank_c_str (b : string) : all_blank b = true -> c_str b = b.
Proof.
  induction b as [|c r IH]; [reflexivity|]. cbn [all_blank c_str].
  intros H. apply andb_true_iff in H as [Hc Hr].
  destruct (is_nul c) eqn:E.
  - apply is_nul_true in E. subst c. discriminate.
  - now rewrite IH.
Qed.

Lemma is_word_c_str (w : string) : is_word w = true -> c_str w = w.
Proof.
  induction w as [|c r IH]; [reflexivity|]. cbn [is_word c_str].
  intros H. apply andb_true_iff in H as [Hc Hr].
  apply andb_true_iff in Hc as [Hn _]. apply negb_true_iff in Hn.
  rewrite Hn. now rewrite IH.
Qed.

Lemma strtok_skip_blanks (b s : string) :
  all_blank b = true ->
  strtok_skip blank_tab (b ++ s) = strtok_skip blank_tab s.
Proof.
  induction b as [|c r IH]; [reflexivity|]. cbn [all_blank append strtok_skip].
  intros H. apply andb_true_iff in H as [Hc Hr]. rewrite Hc.
  destruct (is_nul c) eqn:E; [|now apply IH].
  apply is_nul_true in E. subst c. discriminate.
Qed.

Lemma strtok_skip_word (s : string) :
  at_word_start s = true -> strtok_skip blank_tab s = s.
Proof.
  destruct s as [|c t]; [discriminate|]. cbn [at_word_start strtok_skip].
  intros H. apply andb_true_iff in H as [Hn Hd].
  apply negb_true_iff in Hn, Hd. now rewrite Hn, Hd.
Qed.

Lemma strtok_skip_only_blanks (b : string) :
  all_blank b = true -> strtok_skip blank_tab b = EmptyString.
Proof.
  induction b as [|c r IH]; [reflexivity|]. cbn [all_blank strtok_skip].
  intros H. apply andb_true_iff in H as [Hc Hr]. rewrite Hc.
  destruct (is_nul c); [reflexivity|now apply IH].
Qed.

Lemma strtok_token_word (w s : string) :
  is_word w = true -> at_word_end s = true ->
  strtok_token blank_tab (w ++ s) = (w, tail s).
Proof.
  induction w as [|c r IH]; intros Hw Hs.
  - cbn [append]. destruct s as [|d t]; [reflexivity|].
    cbn [at_word_end] in Hs. cbn [strtok_token tail]. rewrite Hs.
    destruct (is_nul d) eqn:E; [|reflexivity].
    apply is_nul_true in E. subst d. discriminate.
  - cbn [is_word] in Hw. apply andb_true_iff in Hw as [Hc Hr].
    apply andb_true_iff in Hc as [Hn Hd]. apply negb_true_iff in Hn, Hd.
    cbn [append strtok_token]. rewrite Hn, Hd. now rewrite IH.
Qed.

Lemma word_app_start (w s : string) :
  is_word w = true -> w <> EmptyString -> at_word_start (w ++ s) = true.
Proof.
  destruct w as [|c r]; [intros _ H; now contradiction H|].
  cbn [is_word append at_word_start]. intros H _.
  now apply andb_true_iff in H as [H _].
Qed.

Lemma strtok_word (b w s : string) :
  all_blank b = true -> is_word w = true -> w <> EmptyString ->
  at_word_end s = true ->
  strtok blank_tab (b ++ w ++ s) = (Some w, tail s).
Proof.
  intros Hb Hw Hne Hs. unfold strtok.
  rewrite (strtok_skip_blanks b _ Hb).
  rewrite (strtok_skip_word _ (word_app_start w s Hw Hne)).
  destruct (w ++ s) as [|c t] eqn:E.
  - destruct w; [now contradiction Hne|discriminate].
  - rewrite <- E. now rewrite (strtok_token_word w s Hw Hs).
Qed.

Lemma blank_app_end (b s : string) :
  all_blank b = true -> b <> EmptyString -> at_word_end (b ++ s) = true.
Proof.
  destruct b as [|c r]; [intros _ H; now contradiction H|].
  cbn [all_blank append at_word_end]. intros H _.
  now apply andb_true_iff in H as [H _].
Qed.

Lemma tail_blank_app (b s : string) :
  all_blank b = true -> b <> EmptyString ->
  exists b', all_blank b' = true /\ tail (b ++ s) = b' ++ s.
Proof.
  destruct b as [|c r]; [intros _ H; now contradiction H|].
  cbn [all_blank append tail]. intros H _.
  apply andb_true_iff in H as [_ H]. now exists r.
Qed.

Lemma ends_word_c_str (rest : string) :
  ends_word rest = true -> at_word_end (c_str rest) = true.
Proof.
  destruct rest as [|c t]; [reflexivity|]. cbn [ends_word c_str].
  destruct (is_nul c); [reflexivity|]. cbn [orb at_word_end]. auto.
Qed.

(** A line "src dst", with any blanks and tabs before, between and after
    the two words, configures the rule for [src] and [dst]; what follows
    the second word is ignored. *)
Theorem wsp_http_map_url_config_words (b1 src b2 dst rest : string)
    (maps : list wsp_http_map) :
  all_blank b1 = true ->
  is_word src = true -> src <> EmptyString ->
  all_blank b2 = true -> b2 <> EmptyString ->
  is_word dst = true -> dst <> EmptyString ->
  ends_word rest = true ->
  wsp_http_map_url_config (b1 ++ src ++ b2 ++ dst ++ rest) maps
  = wsp_http_map_url_do_config (Some src) (Some dst) maps.
Proof.
  intros Hb1 Hs Hsne Hb2 Hb2ne Hd Hdne Hrest.
  unfold wsp_http_map_url_config, gw_strdup.
  rewrite (c_str_app b1) by now apply all_blank_c_str.
  rewrite (c_str_app src) by now apply is_word_c_str.
  rewrite (c_str_app b2) by now apply all_blank_c_str.
  rewrite (c_str_app dst) by now apply is_word_c_str.
  rewrite (strtok_word b1 src _ Hb1 Hs Hsne)
    by (now apply blank_app_end).
  destruct (tail_blank_app b2 (dst ++ c_str rest) Hb2 Hb2ne) as (b' & Hb' & ->).
  rewrite (strtok_word b' dst _ Hb' Hd Hdne) by (now apply ends_word_c_str).
  reflexivity.
Qed.

(** A line with fewer than two words changes nothing. *)
Theorem wsp_http_map_url_config_short_line (b1 src b2 : string)
    (maps : list wsp_http_map) :
  all_blank b1 = true -> is_word src = true -> all_blank b2 = true ->
  wsp_http_map_url_config (b1 ++ src ++ b2) maps = Some maps.
Proof.
  intros Hb1 Hs Hb2. unfold wsp_http_map_url_config, gw_strdup.
  rewrite (c_str_app b1) by now apply all_blank_c_str.
  rewrite (c_str_app src) by now apply is_word_c_str.
  rewrite (all_blank_c_str b2 Hb2).
  destruct src as [|c r].
  - cbn [append]. unfold strtok at 1.
    rewrite (strtok_skip_blanks b1 _ Hb1), (strtok_skip_only_blanks b2 Hb2).
    reflexivity.
  - assert (Hne : String c r <> EmptyString) by discriminate.
    destruct b2 as [|d t].
    + rewrite (strtok_word b1 (String c r) EmptyString Hb1 Hs Hne eq_refl).
      reflexivity.
    + assert (Hb2ne : String d t <> EmptyString) by discriminate.
      rewrite (strtok_word b1 (String c r) (String d t) Hb1 Hs Hne)
        by (cbn [all_blank] in Hb2; now apply andb_true_iff in Hb2 as [H _]).
      cbn [tail]. unfold strtok. cbn [all_blank] in Hb2.
      apply andb_true_iff in Hb2 as [_ Hb2].
      now rewrite (strtok_skip_only_blanks t Hb2).
Qed.

(** ** The URL map on arbitrary octet strings *)

Lemma strncasecmp_zero (s1 s2 : string) : strncasecmp s1 s2 0 = 0.
Proof. now destruct s1. Qed.

Lemma strncasecmp_c_str (u : string) : forall s n,
  strncasecmp u s n = strncasecmp (c_str u) s n.
Proof.
  induction u as [|a t IH]; intros s n; [reflexivity|].
  destruct (Z.eq_dec n 0) as [->|Hn]; [now rewrite !strncasecmp_zero|].
  cbn [c_str]. destruct (is_nul a) eqn:Ea.
  - rewrite (strncasecmp_cons _ _ _ _ Hn), (strncasecmp_nil _ _ Hn).
    apply is_nul_true in Ea. subst a.
    destruct (Ascii.eqb (tolower NUL) (tolower (head s))) eqn:E; cbn [negb];
      [|reflexivity].
    apply Ascii.eqb_eq in E. rewrite <- E. cbn. reflexivity.
  - rewrite !(strncasecmp_cons _ _ _ _ Hn). now rewrite IH.
Qed.

Lemma wsp_http_map_find_c_str (maps : list wsp_http_map) (u : string) :
  wsp_http_map_find maps u = wsp_http_map_find maps (c_str u).
Proof.
  induction maps as [|r rest IH]; [reflexivity|]. cbn [wsp_http_map_find].
  now rewrite <- strncasecmp_c_str, IH.
Qed.

Lemma strlen_c_str_same (u : string) : strlen (c_str u) = strlen u.
Proof.
  induction u as [|a t IH]; [reflexivity|]. cbn [c_str strlen].
  destruct (is_nul a) eqn:E; [reflexivity|]. cbn [strlen]. now rewrite E, IH.
Qed.

Lemma c_str_drop_view (n : nat) : forall u,
  (n <= strlen u)%nat -> c_str (drop n u) = c_str (drop n (c_str u)).
Proof.
  induction n as [|n IH]; intros u H.
  - cbn [drop]. destruct u; cbn [drop]; now rewrite ?c_str_idem.
  - destruct u as [|a t]; [reflexivity|]. cbn [strlen] in H. cbn [c_str].
    destruct (is_nul a); [lia|]. cbn [drop]. apply IH. lia.
Qed.

(** [wsp_http_map_url] sees its argument as a C string: up to the first
    NUL octet. *)
Lemma wsp_http_map_url_c_view (maps : list wsp_http_map) (u : string) :
  wsp_http_map_url maps u =
    match wsp_http_map_find maps (c_str u) with
    | None => Some u
    | Some _ => wsp_http_map_url maps (c_str u)
    end.
Proof.
  unfold wsp_http_map_url, octstr_get_cstr.
  rewrite (wsp_http_map_find_c_str maps u), (wsp_http_map_find_c_str maps (c_str u)).
  rewrite c_str_idem.
  destruct (wsp_http_map_find maps (c_str u)) as [r|]; [|reflexivity].
  destruct (octstr_create_from_data (out r) (out_len r)) as [new|]; [|reflexivity].
  destruct (_ =? _); [|reflexivity].
  unfold c_offset. rewrite strlen_c_str_same.
  destruct ((0 <=? in_len r) && (in_len r <=? Z.of_nat (strlen u))) eqn:E;
    [|reflexivity].
  apply andb_true_iff in E as [E1 E2]. apply Z.leb_le in E1, E2.
  unfold octstr_append_cstr. rewrite (c_str_drop_view _ u) by lia.
  reflexivity.
Qed.

Lemma strtok_skip_strlen (delim s : string) :
  (strlen (strtok_skip delim s) <= strlen s)%nat.
Proof.
  induction s as [|c t IH]; [cbn; lia|]. cbn [strtok_skip strlen].
  destruct (is_nul c) eqn:E; [cbn; lia|].
  destruct (in_delim delim c); [lia|]. cbn [strlen]. rewrite E. lia.
Qed.

Lemma strtok_token_facts (delim s : string) :
  c_str (fst (strtok_token delim s)) = fst (strtok_token delim s)
  /\ (strlen (fst (strtok_token delim s)) <= strlen s)%nat
  /\ (strlen (snd (strtok_token delim s)) <= strlen s)%nat.
Proof.
  induction s as [|c t IH]; [cbn; auto|]. cbn [strtok_token strlen].
  destruct (is_nul c) eqn:E; [cbn; auto|].
  destruct (in_delim delim c); [cbn; repeat split; lia|].
  destruct (strtok_token delim t) as [tok saved]. cbn [fst snd] in *.
  destruct IH as (H1 & H2 & H3). cbn [c_str strlen]. rewrite E.
  repeat split; [now rewrite H1|lia|lia].
Qed.

(** A token of [strtok] is a C string that is not empty and not longer
    than what was searched; so is what is left to search. *)
Lemma strtok_facts (delim s tok saved : string) :
  strtok delim s = (Some tok, saved) ->
  c_str tok = tok /\ tok <> EmptyString
  /\ (strlen tok <= strlen s)%nat /\ (strlen saved <= strlen s)%nat.
Proof.
  unfold strtok. pose proof (strtok_skip_strlen delim s) as Hk.
  destruct (strtok_skip delim s) as [|c t] eqn:Es; [discriminate|].
  pose proof (strtok_token_facts delim (String c t)) as (H1 & H2 & H3).
  assert (Hfirst : is_nul c = false /\ in_delim delim c = false).
  { clear - Es. induction s as [|d r IH]; [discriminate|].
    cbn [strtok_skip] in Es. destruct (is_nul d) eqn:E; [discriminate|].
    destruct (in_delim delim d) eqn:Ed; [now apply IH|].
    injection Es as -> _. auto. }
  destruct Hfirst as [Hn Hd].
  destruct (strtok_token delim (String c t)) as [tk sv] eqn:Et.
  intros [= <- <-]. cbn [fst snd] in *.
  repeat split; try assumption; try lia.
  cbn [strtok_token] in Et. rewrite Hn, Hd in Et.
  destruct (strtok_token delim t). injection Et as <- _. discriminate.
Qed.

Lemma do_config_defined (s d : string) (maps : list wsp_http_map) :
  fits_int s -> fits_int d -> d <> EmptyString -> c_str d = d ->
  exists maps', wsp_http_map_url_do_config (Some s) (Some d) maps = Some maps'.
Proof.
  unfold fits_int. intros Hs Hd Hne Hc. unfold wsp_http_map_url_do_config.
  rewrite !int_of_small by lia.
  destruct (Z.of_nat (strlen s) =? 0) eqn:E0; [eauto|].
  apply Z.eqb_neq in E0.
  assert (Hlen : (0 < strlen d)%nat).
  { rewrite (strlen_nul_free _ Hc). destruct d; [now contradiction Hne|cbn; lia]. }
  rewrite (c_index_last s), (c_index_last d) by lia.
  destruct (Ascii.eqb _ star), (Ascii.eqb _ star); eauto.
Qed.

Lemma config_call_step_wf (c : config_call) (maps : list wsp_http_map) :
  call_fits c -> Forall wf_map maps ->
  exists maps', config_call_step c maps = Some maps' /\ Forall wf_map maps'.
Proof.
  destruct c as [s|to]; cbn [call_fits config_call_step]; intros Hfit Hm.
  - unfold wsp_http_map_url_config, gw_strdup.
    destruct (strtok blank_tab (c_str s)) as [[i|] saved] eqn:E1; [|eauto].
    destruct (strtok_facts _ _ _ _ E1) as (Hi & Hine & Hil & Hsl).
    destruct (strtok blank_tab saved) as [[o|] saved2] eqn:E2; [|eauto].
    destruct (strtok_facts _ _ _ _ E2) as (Ho & Hone & Hol & _).
    rewrite strlen_c_str_same in Hil, Hsl. unfold fits_int in Hfit.
    assert (Fi : fits_int i) by (unfold fits_int; lia).
    assert (Fo : fits_int o) by (unfold fits_int; lia).
    destruct (do_config_defined i o maps Fi Fo Hone Ho) as [maps' E].
    exists maps'. split; [exact E|]. exact (do_config_wf i o maps maps' Fi Fo Hm E).
  - assert (Fd : fits_int (c_str to ++ String star EmptyString)).
    { unfold fits_int. rewrite <- strlen_c_str, c_str_app_star.
      rewrite length_app, strlen_c_str. cbn [String.length]. lia. }
    assert (Fh : fits_int "DEVICE:home*") by (unfold fits_int; vm_compute; reflexivity).
    rewrite device_home_always_appends by (unfold fits_int; lia).
    destruct (do_config_defined "DEVICE:home*" _ maps Fh Fd) as [maps' E].
    + destruct (c_str to); discriminate.
    + apply c_str_app_star.
    + exists maps'. split; [exact E|].
      exact (do_config_wf _ _ maps maps' Fh Fd Hm E).
Qed.

Lemma config_calls_wf (cs : list config_call) : forall maps,
  Forall call_fits cs -> Forall wf_map maps ->
  exists rules, config_calls cs maps = Some rules /\ Forall wf_map rules.
Proof.
  induction cs as [|c rest IH]; intros maps Hc Hm; cbn [config_calls]; [eauto|].
  inversion Hc as [|? ? Hf Hr]; subst.
  destruct (config_call_step_wf c maps Hf Hm) as (m1 & E & Hw). rewrite E.
  now apply IH.
Qed.

(** Configuration calls on strings an [int] can measure never leave a
    string, and the table they build rewrites every octet string: the URL
    is matched, and its tail taken, up to its first NUL octet, while a URL
    that matches no rule is returned whole. *)
Theorem wsp_http_map_url_octets (cs : list config_call) :
  Forall call_fits cs ->
  exists rules,
    config_calls cs [] = Some rules
    /\ forall u,
         wsp_http_map_url rules u =
           Some (match find (spec_matches (c_str u)) rules with
                 | None => u
                 | Some _ => spec_rewrite rules (c_str u)
                 end).
Proof.
  intros Hc.
  destruct (config_calls_wf cs [] Hc (Forall_nil _)) as (rules & E & Hw).
  exists rules. split; [exact E|]. intros u.
  rewrite wsp_http_map_url_c_view.
  rewrite (wsp_http_map_find_spec rules (c_str u) Hw (c_str_idem u)).
  destruct (find (spec_matches (c_str u)) rules); [|reflexivity].
  apply wsp_http_map_url_wf; [exact Hw|apply c_str_idem].
Qed.

(** First match wins: rules configured later never change the rewrite of a
    URL that an earlier rule matches. *)
Theorem wsp_http_map_url_later_rules (maps more : list wsp_http_map)
    (u : Octstr) (r : wsp_http_map) :
  wsp_http_map_find maps (octstr_get_cstr u) = Some r ->
  wsp_http_map_find (maps ++ more)%list (octstr_get_cstr u) = Some r
  /\ wsp_http_map_url (maps ++ more)%list u = wsp_http_map_url maps u.
Proof.
  intros H.
  assert (E : wsp_http_map_find (maps ++ more)%list (octstr_get_cstr u) = Some r).
  { induction maps as [|x rest IH]; [discriminate|].
    cbn [app wsp_http_map_find] in *.
    destruct (0 =? strncasecmp _ _ _); [exact H|now apply IH]. }
  split; [exact E|]. unfold wsp_http_map_url. now rewrite E, H.
Qed.

Lemma lower_eq_strncasecmp (u : string) : forall u' s n,
  lower u = lower u' -> strncasecmp u s n = strncasecmp u' s n.
Proof.
  induction u as [|a t IH]; intros u' s n H.
  - destruct u'; [reflexivity|discriminate].
  - destruct u' as [|a' t']; [discriminate|]. cbn [lower] in H.
    injection H as Ha Ht.
    destruct (Z.eq_dec n 0) as [->|Hn]; [now rewrite !strncasecmp_zero|].
    rewrite !(strncasecmp_cons _ _ _ _ Hn), Ha. now rewrite (IH t').
Qed.

Lemma lower_app (s t : string) : lower (s ++ t) = lower s ++ lower t.
Proof. induction s as [|c r IH]; cbn [append lower]; congruence. Qed.

Lemma lower_c_str (s : string) : lower (c_str s) = c_str (lower s).
Proof.
  induction s as [|c r IH]; [reflexivity|]. cbn [c_str lower].
  rewrite is_nul_tolower. destruct (is_nul c); [reflexivity|].
  cbn [lower]. now rewrite IH.
Qed.

Lemma lower_drop (n : nat) : forall s, lower (drop n s) = drop n (lower s).
Proof.
  induction n as [|n IH]; intros s; [now destruct s|].
  destruct s as [|c r]; [reflexivity|]. cbn [drop lower]. apply IH.
Qed.

Lemma lower_eq_strlen (u u' : string) : lower u = lower u' -> strlen u = strlen u'.
Proof.
  intros H. rewrite <- !strlen_c_str, <- (lower_length (c_str u)),
    <- (lower_length (c_str u')), !lower_c_str. now rewrite H.
Qed.

(** Letter case does not matter to the choice of the rule: two URLs that
    differ only in case select the same rule and are rewritten to URLs that
    differ only in case. *)
Theorem wsp_http_map_url_ignores_case (maps : list wsp_http_map) (u u' : Octstr) :
  lower u = lower u' ->
  wsp_http_map_find maps (octstr_get_cstr u)
  = wsp_http_map_find maps (octstr_get_cstr u')
  /\ option_map lower (wsp_http_map_url maps u)
     = option_map lower (wsp_http_map_url maps u').
Proof.
  intros H. unfold octstr_get_cstr.
  assert (E : wsp_http_map_find maps u = wsp_http_map_find maps u').
  { induction maps as [|r rest IH]; [reflexivity|]. cbn [wsp_http_map_find].
    now rewrite (lower_eq_strncasecmp u u' _ _ H), IH. }
  split; [exact E|]. unfold wsp_http_map_url, octstr_get_cstr. rewrite E.
  destruct (wsp_http_map_find maps u') as [r|]; [|cbn; now rewrite H].
  destruct (octstr_create_from_data (out r) (out_len r)) as [new|]; [|reflexivity].
  destruct (_ =? _); [|reflexivity].
  unfold c_offset. rewrite (lower_eq_strlen u u' H).
  destruct ((0 <=? in_len r) && (in_len r <=? Z.of_nat (strlen u'))); [|reflexivity].
  cbn [option_map]. unfold octstr_append_cstr.
  now rewrite !lower_app, !lower_c_str, !lower_drop, H.
Qed.

(** *** At concrete inputs *)

Lemma wsp_http_map_url_config_words_witness :
  wsp_http_map_url_config
    (" " ++ "http://a/*" ++ String (ascii_of_nat 9) " " ++ "http://b/*" ++ " # old") []
  = wsp_http_map_url_do_config (Some "http://a/*") (Some "http://b/*") [].
Proof.
  apply (wsp_http_map_url_config_words " " "http://a/*"
           (String (ascii_of_nat 9) " ") "http://b/*" " # old" []);
    try reflexivity; discriminate.
Defined.

Lemma wsp_http_map_url_config_short_line_witness :
  wsp_http_map_url_config ("  " ++ "http://a/*" ++ " ") [] = Some [].
Proof.
  apply (wsp_http_map_url_config_short_line "  " "http://a/*" " " []); reflexivity.
Defined.

Lemma wsp_http_map_url_octets_witness :
  Forall call_fits [Call_map_url "http://a/* http://b/*"; Call_device_home "http://home/"]
  /\ exists rules,
       config_calls
         [Call_map_url "http://a/* http://b/*"; Call_device_home "http://home/"] []
       = Some rules
       /\ forall u,
            wsp_http_map_url rules u =
              Some (match find (spec_matches (c_str u)) rules with
                    | None => u
                    | Some _ => spec_rewrite rules (c_str u)
                    end).
Proof.
  assert (H : Forall call_fits
                [Call_map_url "http://a/* http://b/*"; Call_device_home "http://home/"]).
  { repeat constructor; cbn [call_fits]; unfold fits_int; vm_compute; reflexivity. }
  split; [exact H|]. exact (wsp_http_map_url_octets _ H).
Defined.

Lemma wsp_http_map_url_later_rules_witness :
  wsp_http_map_find
    [ {| flags := 3; in_ := "http://a/*"; in_len := 9;
         out := "http://b/*"; out_len := 9 |} ] "http://a/x"
  = Some {| flags := 3; in_ := "http://a/*"; in_len := 9;
            out := "http://b/*"; out_len := 9 |}
  /\ wsp_http_map_url
       ([ {| flags := 3; in_ := "http://a/*"; in_len := 9;
             out := "http://b/*"; out_len := 9 |} ]
        ++ [ {| flags := 1; in_ := "*"; in_len := 0;
                out := "http://c/"; out_len := 9 |} ])%list "http://a/x"
     = wsp_http_map_url
         [ {| flags := 3; in_ := "http://a/*"; in_len := 9;
              out := "http://b/*"; out_len := 9 |} ] "http://a/x".
Proof.
  split; [reflexivity|].
  refine (proj2 (wsp_http_map_url_later_rules _ _ "http://a/x" _ _)).
  reflexivity.
Defined.

Lemma wsp_http_map_url_ignores_case_witness :
  lower "HTTP://A/Page" = lower "http://a/page"
  /\ wsp_http_map_find
       [ {| flags := 3; in_ := "http://a/*"; in_len := 9;
            out := "http://b/*"; out_len := 9 |} ] "HTTP://A/Page"
     = wsp_http_map_find
         [ {| flags := 3; in_ := "http://a/*"; in_len := 9;
              out := "http://b/*"; out_len := 9 |} ] "http://a/page".
Proof.
  split; [reflexivity|].
  refine (proj1 (wsp_http_map_url_ignores_case _ "HTTP://A/Page" "http://a/page" _)).
  reflexivity.
Defined.


(** ** More on the request assembler and the reply dispatcher *)

Lemma grows_refl (Q : header -> bool) (hs : list header) : grows_by Q hs hs.
Proof. exists []. now rewrite app_nil_r. Qed.

Lemma grows_trans (Q : header -> bool) (h1 h2 h3 : list header) :
  grows_by Q h1 h2 -> grows_by Q h2 h3 -> grows_by Q h1 h3.
Proof.
  intros (a & -> & Ha) (b & -> & Hb). exists (a ++ b)%list.
  rewrite app_assoc, forallb_app, Ha, Hb. auto.
Qed.

Lemma grows_add (Q : header -> bool) (hs : list header) (name value : string) :
  Q (c_str name, c_str value) = true ->
  grows_by Q hs (http_header_add hs name value).
Proof.
  intros H. exists [(c_str name, c_str value)]. split; [reflexivity|].
  cbn [forallb]. now rewrite H.
Qed.

Lemma grows_fold (A : Type) (Q : header -> bool)
    (f : list header -> A -> list header) (l : list A) :
  (forall hs x, grows_by Q hs (f hs x)) ->
  forall hs, grows_by Q hs (fold_left f l hs).
Proof.
  intros Hf. induction l as [|x rest IH]; intros hs; cbn [fold_left];
    [apply grows_refl|].
  eapply grows_trans; [apply Hf|apply IH].
Qed.

Section Gateway_more.

Variable wml_compile : option Octstr -> Octstr -> Z * Octstr.
Variable ws_compile_data : string -> option Octstr -> Z * Octstr.
Variable charsets : list Octstr.
Variable http_type_accepted : list header -> string -> bool.
Variable http_charset_accepted : list header -> string -> bool.
Variable http_header_combine : list header -> list header -> list header.
Variable http_remove_hop_headers : list header -> list header.
Variable http_header_pack : list header -> list header.
Variable http_header_get_content_type : list header -> Octstr * Octstr.
Variable http_header_mark_transformation :
  list header -> option Octstr -> Octstr -> list header.
Variable http_name2method : Octstr -> Z.
Variable gateway_time : option Octstr.
Variable official_name : Octstr.
Variable GW_NAME : string.
Variable VERSION : string.
Variable wsp_smart_errors : Z.
Variable device_home : option Octstr.
Variable error_requesting_back : Octstr -> Octstr -> Octstr.
Variable error_requesting : Octstr -> Octstr.
Variable wsp_http_map_list : list wsp_http_map.

Local Notation converters := (converters wml_compile ws_compile_data).
Local Notation convert_content := (convert_content wml_compile ws_compile_data).
Local Notation add_accept_headers :=
  (add_accept_headers wml_compile ws_compile_data http_type_accepted).
Local Notation add_charset_headers :=
  (add_charset_headers charsets http_charset_accepted).
Local Notation add_via := (add_via official_name GW_NAME VERSION).
Local Notation add_kannel_version := (add_kannel_version GW_NAME VERSION).
Local Notation combined_headers := (combined_headers http_header_combine).
Local Notation fetch_headers :=
  (fetch_headers wml_compile ws_compile_data charsets http_type_accepted
     http_charset_accepted http_header_combine http_remove_hop_headers
     http_header_pack official_name GW_NAME VERSION).
Local Notation start_fetch :=
  (start_fetch wml_compile ws_compile_data charsets http_type_accepted
     http_charset_accepted http_header_combine http_remove_hop_headers
     http_header_pack http_name2method official_name GW_NAME VERSION
     wsp_http_map_list).
Local Notation reply_headers := (reply_headers http_remove_hop_headers gateway_time).
Local Notation reply_accept_filter :=
  (reply_accept_filter http_type_accepted http_header_mark_transformation).
Local Notation reply_sdu_limit := (reply_sdu_limit http_header_mark_transformation).
Local Notation return_reply_failure :=
  (return_reply_failure wml_compile ws_compile_data
     http_header_mark_transformation wsp_smart_errors device_home
     error_requesting_back error_requesting).
Local Notation return_reply_success :=
  (return_reply_success wml_compile ws_compile_data
     http_header_get_content_type http_header_mark_transformation).
Local Notation return_reply_until_sdu :=
  (return_reply_until_sdu wml_compile ws_compile_data http_type_accepted
     http_remove_hop_headers http_header_get_content_type
     http_header_mark_transformation gateway_time wsp_smart_errors device_home
     error_requesting_back error_requesting).
Local Notation return_reply :=
  (return_reply wml_compile ws_compile_data http_type_accepted
     http_remove_hop_headers http_header_get_content_type
     http_header_mark_transformation gateway_time wsp_smart_errors device_home
     error_requesting_back error_requesting).
Local Notation perform_return_reply :=
  (perform_return_reply wml_compile ws_compile_data http_type_accepted
     http_remove_hop_headers http_header_get_content_type
     http_header_mark_transformation gateway_time wsp_smart_errors device_home
     error_requesting_back error_requesting).
Local Notation return_replies_turn :=
  (return_replies_turn wml_compile ws_compile_data http_type_accepted
     http_remove_hop_headers http_header_get_content_type
     http_header_mark_transformation gateway_time wsp_smart_errors device_home
     error_requesting_back error_requesting).

(** *** What [start_fetch] hands to the HTTP caller *)

(** GET, POST and HEAD, the health URL apart, are submitted to the HTTP
    caller and not answered: with the mapped URL, with the request body for
    POST only, and with request data that carry the event, its session id
    and SDU size (-1 and 0 for the unit event), the URL and the headers. *)
Theorem start_fetch_submits (ms : machines) (event : WAPEvent)
    (m uri url : Octstr) :
  invoke_method event = Some m ->
  m = "GET" \/ m = "POST" \/ m = "HEAD" ->
  invoke_uri event = Some uri ->
  wsp_http_map_url wsp_http_map_list uri = Some url ->
  ~ (m = "GET" /\ url = "kannel:alive") ->
  exists hs p,
    start_fetch ms event
    = Some (Call_http_start_request (http_name2method m) url hs
              (if String.eqb m "POST" then invoke_request_body event else None)
              0 p)
    /\ Request_data.event p = event
    /\ Request_data.url p = url
    /\ Request_data.session_id p = invoke_session_id event
    /\ Request_data.client_SDU_size p = invoke_sdu_size event
    /\ Request_data.request_headers p = hs.
Proof.
  intros Hm Hcase Hu Hmap Hnot.
  assert (Hmagic : is_method m "GET" && (octstr_compare url magic_url =? 0) = false).
  { rewrite is_method_eqb, octstr_compare_zero.
    destruct (String.eqb m "GET") eqn:E1; [|reflexivity].
    destruct (String.eqb url magic_url) eqn:E2; [|reflexivity].
    apply String.eqb_eq in E1, E2. now contradiction Hnot. }
  assert (Hsup : is_method m "GET" || is_method m "POST" || is_method m "HEAD" = true).
  { rewrite !is_method_eqb. destruct Hcase as [-> | [-> | ->]]; reflexivity. }
  assert (Hbody : forall b : option Octstr,
             match b with
             | Some _ => if is_method m "GET" || is_method m "HEAD" then None else b
             | None => b
             end = if String.eqb m "POST" then b else None).
  { intros b. rewrite !is_method_eqb.
    destruct Hcase as [-> | [-> | ->]]; destruct b; reflexivity. }
  unfold start_fetch.
  destruct event as [p|p|p|p]; cbn in Hm, Hu; try discriminate;
    injection Hm as Hm; injection Hu as Hu; rewrite Hu, Hmap, Hm;
    destruct (fetch_headers _ _ _ _ _ _) as [actual_headers x_wap_tod];
    rewrite Hmagic, Hsup, Hbody;
    eexists; eexists; (split; [reflexivity|]); cbn; repeat split; reflexivity.
Qed.

(** *** The headers of the outbound request *)

Lemma fetch_headers_grows (ms : machines) (tuple : WAPAddrTuple)
    (session_id sdu_size : Z) (h4 : list header) :
  grows_by (added_ok session_id sdu_size) h4
    (add_session_id
      (add_kannel_version
         (if negb (session_id =? -1)
          then match get_referer_url (find_session_machine_by_id ms session_id) with
               | Some referer_url =>
                   add_referer_url
                     (add_via (add_client_sdu_size
                                 (add_network_info
                                    (add_charset_headers (add_accept_headers h4))
                                    tuple) sdu_size))
                     referer_url
               | None =>
                   add_via (add_client_sdu_size
                              (add_network_info
                                 (add_charset_headers (add_accept_headers h4))
                                 tuple) sdu_size)
               end
          else add_via (add_client_sdu_size
                          (add_network_info
                             (add_charset_headers (add_accept_headers h4))
                             tuple) sdu_size)))
      session_id).
Proof.
  set (Q := added_ok session_id sdu_size).
  assert (Hplain : forall name v,
             named_in gateway_header_names (c_str name, v) = true ->
             named_in session_header_names (c_str name, v) = false ->
             Q (c_str name, v) = true).
  { intros name v H1 H2. unfold Q, added_ok. rewrite H1, H2. now rewrite orb_true_r. }
  assert (H1 : grows_by Q h4 (add_accept_headers h4)).
  { unfold add_accept_headers. apply grows_fold. intros hs cv.
    destruct (_ && _); [|apply grows_refl].
    apply grows_add, Hplain; reflexivity. }
  assert (H2 : forall hs, grows_by Q hs (add_charset_headers hs)).
  { unfold add_charset_headers. apply grows_fold. intros hs cs.
    destruct (negb _); [|apply grows_refl].
    apply grows_add, Hplain; reflexivity. }
  assert (H3 : forall hs, grows_by Q hs (add_network_info hs tuple)).
  { intros hs. unfold add_network_info. destruct (_ >? 0); [|apply grows_refl].
    apply grows_add, Hplain; reflexivity. }
  assert (H4 : forall hs, grows_by Q hs (add_client_sdu_size hs sdu_size)).
  { intros hs. unfold add_client_sdu_size.
    destruct (sdu_size >? 0) eqn:E; [|apply grows_refl].
    apply grows_add. unfold Q, added_ok.
    assert (E' : (sdu_size <=? 0) = false)
      by (apply Z.leb_gt; apply Z.gtb_lt in E; lia).
    rewrite E', andb_false_r. reflexivity. }
  assert (H5 : forall hs, grows_by Q hs (add_via hs)).
  { intros hs. apply grows_add, Hplain; reflexivity. }
  assert (H6 : forall hs u, (session_id =? -1) = false ->
                            grows_by Q hs (add_referer_url hs u)).
  { intros hs u E. unfold add_referer_url. destruct (_ >? 0); [|apply grows_refl].
    apply grows_add. unfold Q, added_ok. rewrite E. reflexivity. }
  assert (H7 : forall hs, grows_by Q hs (add_kannel_version hs)).
  { intros hs. apply grows_add, Hplain; reflexivity. }
  assert (H8 : forall hs, grows_by Q hs (add_session_id hs session_id)).
  { intros hs. unfold add_session_id.
    destruct (session_id =? -1) eqn:E; cbn [negb]; [apply grows_refl|].
    apply grows_add. unfold Q, added_ok. rewrite E. reflexivity. }
  assert (H15 : grows_by Q h4
                  (add_via (add_client_sdu_size
                              (add_network_info
                                 (add_charset_headers (add_accept_headers h4))
                                 tuple) sdu_size))).
  { eapply grows_trans; [|apply H5]. eapply grows_trans; [|apply H4].
    eapply grows_trans; [|apply H3]. eapply grows_trans; [apply H1|apply H2]. }
  eapply grows_trans; [|apply H8]. eapply grows_trans; [|apply H7].
  destruct (session_id =? -1) eqn:E; cbn [negb]; [exact H15|].
  destruct (get_referer_url _); [|exact H15].
  eapply grows_trans; [exact H15|]. now apply H6.
Qed.

Lemma gateway_name_not_tod (h : header) :
  named_in gateway_header_names h = true -> header_is_called X_WAP_TOD h = false.
Proof.
  unfold named_in, gateway_header_names, header_is_called. cbn [existsb].
  rewrite !orb_true_iff, !String.eqb_eq.
  intros [H|[H|[H|[H|[H|[H|[H|[H|H]]]]]]]]; try discriminate;
    rewrite H; reflexivity.
Qed.

(** What [fetch_headers] builds: the combined headers without hop-by-hop
    headers and without X-WAP.TOD, in their order, followed by headers of
    the gateway's own. *)
Lemma fetch_headers_added (ms : machines)
    (sh rh : option (list header)) (tuple : WAPAddrTuple)
    (session_id sdu_size : Z) :
  exists added,
    fst (fetch_headers ms sh rh tuple session_id sdu_size)
    = http_header_pack
        (fst (http_header_remove_all
                (http_remove_hop_headers (combined_headers sh rh)) "X-WAP.TOD")
         ++ added)%list
    /\ forallb (named_in gateway_header_names) added = true
    /\ has_header X_WAP_TOD
         (fst (http_header_remove_all
                 (http_remove_hop_headers (combined_headers sh rh)) "X-WAP.TOD")
          ++ added)%list = false
    /\ (session_id = -1 -> sdu_size <= 0 ->
        forallb (fun h => negb (named_in session_header_names h)) added = true).
Proof.
  unfold fetch_headers.
  set (h3 := http_remove_hop_headers (combined_headers sh rh)).
  destruct (http_header_remove_all h3 "X-WAP.TOD") as [h4 removed] eqn:E.
  assert (E4 : h4 = fst (http_header_remove_all h3 "X-WAP.TOD")) by now rewrite E.
  cbn [fst].
  destruct (fetch_headers_grows ms tuple session_id sdu_size h4) as (a & Ha & Hq).
  exists a. rewrite Ha.
  assert (Hn : forallb (named_in gateway_header_names) a = true).
  { clear - Hq. induction a as [|x r IH]; [reflexivity|]. cbn [forallb] in *.
    apply andb_true_iff in Hq as [Hx Hr]. apply andb_true_iff in Hx as [Hx _].
    now rewrite Hx, IH. }
  split; [reflexivity|]. split; [exact Hn|]. split.
  - unfold has_header, X_WAP_TOD. rewrite existsb_app, E4.
    pose proof (has_header_removed "X-WAP.TOD" h3) as Hr. unfold has_header in Hr.
    rewrite Hr. cbn [orb]. clear - Hn.
    induction a as [|x r IH]; [reflexivity|]. cbn [forallb existsb] in *.
    apply andb_true_iff in Hn as [Hx Hr].
    pose proof (gateway_name_not_tod x Hx) as Hg. unfold X_WAP_TOD in Hg.
    now rewrite Hg, IH.
  - intros Hs Hd. clear - Hq Hs Hd.
    assert (Ec : (session_id =? -1) && (sdu_size <=? 0) = true).
    { apply andb_true_iff. split; [apply Z.eqb_eq|apply Z.leb_le]; assumption. }
    induction a as [|x r IH]; [reflexivity|]. cbn [forallb] in *.
    apply andb_true_iff in Hq as [Hx Hr]. apply andb_true_iff in Hx as [_ Hx].
    rewrite Ec in Hx. cbn [negb orb] in Hx. now rewrite Hx, IH.
Qed.

(** The headers of a request submitted to the HTTP caller, which are also
    those kept in its request data: the session and request headers of the
    event, combined, without hop-by-hop headers and without X-WAP.TOD, in
    their order, followed by headers of the gateway's own; before packing
    there is no X-WAP.TOD among them, the added headers bear only the
    gateway's eight names, and with no session and no SDU size none of
    X-WAP-Session-ID, X-WAP-Client-SDU-Size and Referer is added. *)
Theorem fetch_headers_outbound (ms : machines) (event : WAPEvent)
    (method : Z) (url : Octstr) (hs : list header) (body : option Octstr)
    (follow : Z) (p : Request_data.t) :
  start_fetch ms event
  = Some (Call_http_start_request method url hs body follow p) ->
  exists added,
    hs = http_header_pack
           (fst (http_header_remove_all
                   (http_remove_hop_headers
                      (combined_headers (invoke_session_headers event)
                         (invoke_request_headers event))) "X-WAP.TOD")
            ++ added)%list
    /\ Request_data.request_headers p = hs
    /\ forallb (named_in gateway_header_names) added = true
    /\ has_header X_WAP_TOD
         (fst (http_header_remove_all
                 (http_remove_hop_headers
                    (combined_headers (invoke_session_headers event)
                       (invoke_request_headers event))) "X-WAP.TOD")
          ++ added)%list = false
    /\ (invoke_session_id event = -1 -> invoke_sdu_size event <= 0 ->
        forallb (fun h => negb (named_in session_header_names h)) added = true).
Proof.
  intros Hs.
  destruct (proj2 (start_fetch_headers wml_compile ws_compile_data charsets
                     http_type_accepted http_charset_accepted
                     http_header_combine http_remove_hop_headers
                     http_header_pack http_name2method official_name GW_NAME
                     VERSION wsp_http_map_list ms event)
              _ _ _ _ _ _ Hs) as (tuple & Hf & Hp).
  destruct (fetch_headers_added ms (invoke_session_headers event)
              (invoke_request_headers event) tuple (invoke_session_id event)
              (invoke_sdu_size event)) as (added & Ha & Hn & Ht & Hq).
  rewrite Hf in Ha. cbn [fst] in Ha.
  exists added. auto.
Qed.


(** *** What [return_reply] emits *)

Lemma convert_content_kept (c : content) :
  fst (convert_content c) <> 1 -> snd (convert_content c) = c.
Proof.
  unfold convert_content, convert_content_from, converters.
  cbn [Converter.type Converter.result_type Converter.convert].
  destruct (octstr_str_compare (type c) "text/vnd.wap.wml" =? 0);
    [destruct (convert_wml_to_wmlc wml_compile c);
       [cbn; intros H; now contradiction H|]|];
    (destruct (octstr_str_compare (type c) "text/vnd.wap.wmlscript" =? 0);
     [destruct (convert_wmlscript_to_wmlscriptc ws_compile_data c);
        [cbn; intros H; now contradiction H|]|]);
    reflexivity.
Qed.

(** The arm for a status that is not negative, up to the SDU check, in one
    piece. *)
Lemma until_sdu_success (ms : machines) (status : Z) (cb : option Octstr)
    (h : list header) (session_id : Z) (url : Octstr) (x_wap_tod : Z)
    (rh : list header) :
  0 <= status ->
  return_reply_until_sdu ms status cb (Some h) session_id url x_wap_tod rh =
    let c0 := {| body := cb; type := fst (http_header_get_content_type h);
                 charset := snd (http_header_get_content_type h); url := url |} in
    let converted := fst (convert_content c0) =? 1 in
    let c1 := snd (convert_content c0) in
    let h1 := if converted
              then http_header_mark_transformation h (body c1) (type c1)
              else h in
    let ms1 := if converted && negb (session_id =? -1)
               then match find_session_machine_by_id ms session_id with
                    | Some _ => set_referer_url url session_id ms
                    | None => ms
                    end
               else ms in
    Some (status,
          fst (reply_accept_filter status rh (reply_body c1)
                 (reply_headers (Some h1) x_wap_tod)),
          snd (reply_accept_filter status rh (reply_body c1)
                 (reply_headers (Some h1) x_wap_tod)),
          ms1).
Proof.
  intros Hpos.
  assert (Hge : (status <? 0) = false) by (apply Z.ltb_ge; exact Hpos).
  unfold return_reply_until_sdu, return_reply_success. rewrite Hge.
  destruct (http_header_get_content_type h) as [ty cs]. cbn [fst snd].
  destruct (convert_content _) as [conv c1]. cbn [fst snd].
  destruct (conv =? 1); cbn [andb];
    [destruct (negb (session_id =? -1))|];
    destruct (reply_accept_filter _ _ _ _); reflexivity.
Qed.

Lemma return_reply_emits (ms : machines) (status : Z) (cb : option Octstr)
    (h : option (list header)) (sdu_size : Z) (ev : WAPEvent) (session_id : Z)
    (url : Octstr) (x_wap_tod : Z) (rh : list header)
    (s1 : Z) (c1 : content) (h1 : list header) (ms1 : machines) :
  is_invoke ev = true ->
  return_reply_until_sdu ms status cb h session_id url x_wap_tod rh
    = Some (s1, c1, h1, ms1) ->
  exists o,
    return_reply ms status cb h sdu_size ev session_id url x_wap_tod rh = Some o
    /\ emitted_status (emitted o) = fst (fst (reply_sdu_limit sdu_size s1 c1 h1))
    /\ emitted_body (emitted o)
       = body_octets (snd (fst (reply_sdu_limit sdu_size s1 c1 h1)))
    /\ emitted_headers (emitted o) = snd (reply_sdu_limit sdu_size s1 c1 h1)
    /\ final_content o = snd (fst (reply_sdu_limit sdu_size s1 c1 h1))
    /\ machines_after o = ms1.
Proof.
  intros Hev Hu. unfold return_reply. rewrite Hu.
  destruct (reply_sdu_limit sdu_size s1 c1 h1) as [[s2 c2] h2]. cbn [fst snd].
  destruct (reply_event_invoke ev s2 h2 c2 session_id Hev) as [e He].
  rewrite He. eexists. split; [reflexivity|]. cbn [emitted final_content machines_after].
  apply reply_event_fields in He as (Hs & Hh & Hb). auto.
Qed.

(** *** The reply delivered for the health URL and for a failed fetch *)

(** WML content goes through the WML compiler: with its result as body
    and the compiled type when the compiler succeeds, unchanged when it
    fails. *)
Lemma convert_content_wml (c : content) :
  type c = "text/vnd.wap.wml" ->
  convert_content c
  = if fst (wml_compile (body c) (charset c)) =? 0
    then (1, set_type (set_body c (Some (snd (wml_compile (body c) (charset c)))))
               "application/vnd.wap.wmlc")
    else (-1, c).
Proof.
  intros Ht. unfold convert_content, convert_content_from, converters.
  cbn [Converter.type Converter.result_type Converter.convert].
  rewrite !type_test, Ht.
  change (String.eqb "text/vnd.wap.wml" "text/vnd.wap.wml") with true.
  change (String.eqb "text/vnd.wap.wml" "text/vnd.wap.wmlscript") with false.
  cbv iota. unfold convert_wml_to_wmlc.
  destruct (wml_compile (body c) (charset c)) as [ret wmlc]. cbn [fst snd].
  destruct (ret =? 0); reflexivity.
Qed.

(** From the reply as it stands before the SDU check to the reply
    emitted. *)
Lemma return_reply_delivers (ms : machines) (status : Z) (cb : option Octstr)
    (h : option (list header)) (sdu_size : Z) (ev : WAPEvent) (session_id : Z)
    (url : Octstr) (x_wap_tod : Z) (rh : list header)
    (s1 : Z) (c1 : content) (h1 : list header) (ms1 : machines) :
  is_invoke ev = true ->
  return_reply_until_sdu ms status cb h session_id url x_wap_tod rh
    = Some (s1, c1, h1, ms1) ->
  exists o,
    return_reply ms status cb h sdu_size ev session_id url x_wap_tod rh = Some o
    /\ emitted_status (emitted o)
       = (if (octstr_len (body_octets c1) >? sdu_size) && (sdu_size >? 0)
          then (if is_2xx s1 then 502 else s1) else s1)
    /\ emitted_body (emitted o)
       = (if (octstr_len (body_octets c1) >? sdu_size) && (sdu_size >? 0)
          then EmptyString else body_octets c1)
    /\ type (final_content o) = type c1
    /\ ((octstr_len (body_octets c1) >? sdu_size) && (sdu_size >? 0) = false ->
        emitted_headers (emitted o) = h1)
    /\ machines_after o = ms1.
Proof.
  intros Hev Hu.
  destruct (return_reply_emits ms status cb h sdu_size ev session_id url
              x_wap_tod rh s1 c1 h1 ms1 Hev Hu)
    as (o & Ho & Hs & Hb & Hh & Hf & Hm).
  exists o. split; [exact Ho|].
  rewrite Hs, Hb, Hh, Hf, reply_sdu_limit_eq, body_len_octets.
  destruct ((octstr_len (body_octets c1) >? sdu_size) && (sdu_size >? 0));
    cbn [fst snd]; repeat split; auto; discriminate.
Qed.

(** C9, amended: when the HTTP layer failed (status < 0) a reply is always
    emitted.  With smart errors off it has status 502 and an empty body,
    the content is text/plain, and the headers are those of the failed
    fetch, cleaned, marked as text/plain only when the client did not
    announce that type.  With smart errors on, the WML error deck (leading
    back to the session's referer if there is one, else to [device_home] if
    that is set, else nowhere) is given to the converter: the reply
    carries the deck compiled, as application/vnd.wap.wmlc with the headers
    marked so, when the compiler succeeds, and the deck itself as
    text/vnd.wap.wml when it fails; its status is 200, unless that body is
    longer than a positive SDU size, when it is 502 with an empty body. *)
Theorem return_reply_http_failure (ms : machines) (status : Z)
    (cb : option Octstr) (h : option (list header)) (sdu_size : Z)
    (ev : WAPEvent) (session_id : Z) (url : Octstr) (x_wap_tod : Z)
    (rh : list header) :
  status < 0 ->
  is_invoke ev = true ->
  (wsp_smart_errors = 0 ->
   exists o,
     return_reply ms status cb h sdu_size ev session_id url x_wap_tod rh = Some o
     /\ emitted_status (emitted o) = 502
     /\ emitted_body (emitted o) = EmptyString
     /\ type (final_content o) = "text/plain"
     /\ emitted_headers (emitted o)
        = (if http_type_accepted rh "text/plain"
           then reply_headers h x_wap_tod
           else http_header_mark_transformation (reply_headers h x_wap_tod)
                  (Some EmptyString) "text/plain")
     /\ machines_after o = ms)
  /\ (wsp_smart_errors <> 0 ->
      let deck :=
        match get_referer_url (find_session_machine_by_id ms session_id) with
        | Some referer_url => error_requesting_back url referer_url
        | None =>
            match device_home with
            | Some home => error_requesting_back url home
            | None => error_requesting url
            end
        end in
      let compiled := wml_compile (Some deck) EmptyString in
      let ok := fst compiled =? 0 in
      let delivered := if ok then snd compiled else deck in
      let oversize := (octstr_len delivered >? sdu_size) && (sdu_size >? 0) in
      let h0 := match h with
                | Some l => l
                | None => http_create_empty_headers
                end in
      exists o,
        return_reply ms status cb h sdu_size ev session_id url x_wap_tod rh
        = Some o
        /\ emitted_status (emitted o) = (if oversize then 502 else 200)
        /\ emitted_body (emitted o) = (if oversize then EmptyString else delivered)
        /\ type (final_content o)
           = (if ok then "application/vnd.wap.wmlc" else "text/vnd.wap.wml")
        /\ (oversize = false ->
            emitted_headers (emitted o)
            = reply_headers
                (Some (if ok
                       then http_header_mark_transformation h0
                              (Some (snd compiled)) "application/vnd.wap.wmlc"
                       else h0))
                x_wap_tod)
        /\ machines_after o = ms).
Proof.
  intros Hneg Hev.
  assert (Hlt : (status <? 0) = true) by (apply Z.ltb_lt; exact Hneg).
  split.
  - intros Hoff.
    assert (Hu : return_reply_until_sdu ms status cb h session_id url x_wap_tod rh
                 = Some (502,
                         {| body := Some EmptyString; type := "text/plain";
                            charset := EmptyString; url := url |},
                         (if http_type_accepted rh "text/plain"
                          then reply_headers h x_wap_tod
                          else http_header_mark_transformation
                                 (reply_headers h x_wap_tod)
                                 (Some EmptyString) "text/plain"),
                         ms)).
    { unfold return_reply_until_sdu, return_reply_failure.
      rewrite Hlt, Hoff. cbn [Z.eqb negb].
      unfold reply_body, reply_accept_filter. cbn [body type set_body set_type].
      rewrite http_status_class_2xx. unfold octstr_get_cstr.
      change (is_2xx HTTP_BAD_GATEWAY) with false. cbn [negb andb].
      destruct (http_type_accepted rh "text/plain"); reflexivity. }
    destruct (return_reply_delivers ms status cb h sdu_size ev session_id url
                x_wap_tod rh _ _ _ _ Hev Hu) as (o & Ho & Hs & Hb & Ht & Hh & Hm).
    cbn [body_octets body type] in Hs, Hb, Ht, Hh.
    assert (E : (octstr_len EmptyString >? sdu_size) && (sdu_size >? 0) = false).
    { change (octstr_len EmptyString) with 0.
      destruct (0 >? sdu_size) eqn:E1; [|reflexivity].
      destruct (sdu_size >? 0) eqn:E2; [|reflexivity].
      apply Z.gtb_lt in E1, E2. lia. }
    rewrite E in Hs, Hb. exists o. repeat split; auto.
  - intros Hon. cbv zeta.
    set (deck := match get_referer_url (find_session_machine_by_id ms session_id) with
                 | Some referer_url => error_requesting_back url referer_url
                 | None => match device_home with
                           | Some home => error_requesting_back url home
                           | None => error_requesting url
                           end
                 end).
    set (h0 := match h with Some l => l | None => http_create_empty_headers end).
    destruct (wml_compile (Some deck) EmptyString) as [ret wmlc] eqn:Ew.
    cbn [fst snd].
    assert (Hu : return_reply_until_sdu ms status cb h session_id url x_wap_tod rh
                 = Some (200,
                         (if ret =? 0
                          then {| body := Some wmlc;
                                  type := "application/vnd.wap.wmlc";
                                  charset := EmptyString; url := url |}
                          else {| body := Some deck; type := "text/vnd.wap.wml";
                                  charset := EmptyString; url := url |}),
                         reply_headers
                           (Some (if ret =? 0
                                  then http_header_mark_transformation h0
                                         (Some wmlc) "application/vnd.wap.wmlc"
                                  else h0))
                           x_wap_tod,
                         ms)).
    { unfold return_reply_until_sdu, return_reply_failure.
      assert (E : negb (wsp_smart_errors =? 0) = true)
        by (apply negb_true_iff, Z.eqb_neq; exact Hon).
      rewrite Hlt, E. unfold smart_error_content, smart_error_deck.
      fold deck. fold h0.
      rewrite convert_content_wml by reflexivity.
      cbn [body charset]. rewrite Ew. cbn [fst snd].
      destruct (ret =? 0); cbn [set_type set_body body type charset Z.eqb];
        unfold reply_body, reply_accept_filter; cbn [body type];
        rewrite http_status_class_2xx; change (is_2xx HTTP_OK) with true;
        reflexivity. }
    destruct (return_reply_delivers ms status cb h sdu_size ev session_id url
                x_wap_tod rh _ _ _ _ Hev Hu) as (o & Ho & Hs & Hb & Ht & Hh & Hm).
    change (is_2xx 200) with true in Hs.
    exists o. split; [exact Ho|].
    destruct (ret =? 0); cbn [body_octets body type] in Hs, Hb, Ht, Hh;
      repeat split; auto.
Qed.

(** C1, amended: a GET whose mapped URL is "kannel:alive" ends
    [start_fetch] in a call of [return_reply], not of the HTTP caller, with
    status 200, the one header Content-Type: text/vnd.wap.wml and the
    health deck as body.  [return_reply] gives the deck to the converter, so
    the reply emitted carries the deck compiled, as
    application/vnd.wap.wmlc with the headers marked so, when the compiler
    succeeds, and the deck itself when it fails; its status is 200, unless
    that body is longer than a positive client SDU size, when it is 502
    with an empty body. *)
Theorem start_fetch_kannel_alive (ms : machines) (event : WAPEvent) (uri : Octstr) :
  invoke_method event = Some "GET" ->
  invoke_uri event = Some uri ->
  wsp_http_map_url wsp_http_map_list uri = Some "kannel:alive" ->
  fst (http_header_get_content_type [("Content-Type", "text/vnd.wap.wml")])
  = "text/vnd.wap.wml" ->
  let compiled :=
    wml_compile (Some HEALTH_DECK)
      (snd (http_header_get_content_type [("Content-Type", "text/vnd.wap.wml")])) in
  let ok := fst compiled =? 0 in
  let delivered := if ok then snd compiled else HEALTH_DECK in
  let oversize :=
    (octstr_len delivered >? invoke_sdu_size event)
    && (invoke_sdu_size event >? 0) in
  exists c o,
    start_fetch ms event = Some (Call_return_reply c)
    /\ Reply_call.status c = 200
    /\ Reply_call.headers c = Some [("Content-Type", "text/vnd.wap.wml")]
    /\ Reply_call.content_body c = Some HEALTH_DECK
    /\ Reply_call.orig_event c = event
    /\ Reply_call.url c = "kannel:alive"
    /\ HEALTH_DECK
       = "<?xml version=" ++ dq ++ "1.0" ++ dq ++ "?>"
         ++ "<!DOCTYPE wml PUBLIC " ++ dq ++ "-//WAPFORUM//DTD 1.1//EN" ++ dq
         ++ " " ++ dq ++ "http://www.wapforum.org/DTD/wml_1.1.xml" ++ dq ++ ">"
         ++ "<wml><card id=" ++ dq ++ "health" ++ dq ++ "><p>Ok</p></card></wml>"
    /\ perform_return_reply ms c = Some o
    /\ emitted_status (emitted o) = (if oversize then 502 else 200)
    /\ emitted_body (emitted o) = (if oversize then EmptyString else delivered)
    /\ type (final_content o)
       = (if ok then "application/vnd.wap.wmlc" else "text/vnd.wap.wml")
    /\ (oversize = false ->
        emitted_headers (emitted o)
        = reply_headers
            (Some (if ok
                   then http_header_mark_transformation
                          [("Content-Type", "text/vnd.wap.wml")]
                          (Some (snd compiled)) "application/vnd.wap.wmlc"
                   else [("Content-Type", "text/vnd.wap.wml")]))
            (Reply_call.x_wap_tod c)).
Proof.
  intros Hm Hu Hmap Hct. cbv zeta.
  assert (Hev : is_invoke event = true)
    by (destruct event; cbn in Hm; try discriminate; reflexivity).
  assert (Hc : exists hs tod,
             start_fetch ms event
             = Some (Call_return_reply
                       {| Reply_call.status := HTTP_OK;
                          Reply_call.content_body := Some HEALTH_DECK;
                          Reply_call.headers :=
                            Some [("Content-Type", "text/vnd.wap.wml")];
                          Reply_call.sdu_size := invoke_sdu_size event;
                          Reply_call.orig_event := event;
                          Reply_call.session_id := invoke_session_id event;
                          Reply_call.url := "kannel:alive";
                          Reply_call.x_wap_tod := tod;
                          Reply_call.request_headers := hs |})).
  { unfold start_fetch.
    destruct event as [p|p|p|p]; cbn in Hm, Hu; try discriminate;
      injection Hm as Hm; injection Hu as Hu; rewrite Hu, Hmap, Hm;
      destruct (fetch_headers _ _ _ _ _ _) as [actual_headers x_wap_tod];
      eexists; eexists; reflexivity. }
  destruct Hc as (hs & tod & Hc). eexists. rewrite Hc.
  cbn [Reply_call.status Reply_call.headers Reply_call.content_body
       Reply_call.orig_event Reply_call.url Reply_call.x_wap_tod].
  unfold perform_return_reply.
  cbn [Reply_call.status Reply_call.headers Reply_call.content_body
       Reply_call.orig_event Reply_call.url Reply_call.x_wap_tod
       Reply_call.sdu_size Reply_call.session_id Reply_call.request_headers].
  pose proof (until_sdu_success ms HTTP_OK (Some HEALTH_DECK)
                [("Content-Type", "text/vnd.wap.wml")] (invoke_session_id event)
                "kannel:alive" tod hs ltac:(unfold HTTP_OK; lia)) as Hus.
  cbv zeta in Hus. rewrite convert_content_wml in Hus by exact Hct.
  cbn [body charset] in Hus.
  destruct (wml_compile (Some HEALTH_DECK) _) as [ret wmlc]. cbn [fst snd] in *.
  unfold reply_accept_filter in Hus. rewrite http_status_class_2xx in Hus.
  change (is_2xx HTTP_OK) with true in Hus. cbn [negb andb fst snd] in Hus.
  destruct (return_reply_delivers ms HTTP_OK (Some HEALTH_DECK)
              (Some [("Content-Type", "text/vnd.wap.wml")])
              (invoke_sdu_size event) event (invoke_session_id event)
              "kannel:alive" tod hs _ _ _ _ Hev Hus)
    as (o & Ho & Hs & Hb & Ht & Hh & _).
  change (is_2xx HTTP_OK) with true in Hs.
  exists o. repeat (split; [reflexivity|]). split; [exact Ho|].
  destruct (ret =? 0);
    cbn [fst snd set_type set_body body type reply_body body_octets Z.eqb]
      in Hs, Hb, Ht, Hh |- *;
    rewrite ?Hct in *; cbn [body_octets body] in *; repeat split; auto.
Qed.

Lemma reply_event_answers (ev e : WAPEvent) (status : Z) (h : list header)
    (c : content) :
  reply_event ev status h c (invoke_session_id ev) = Some e -> answers ev e.
Proof.
  unfold reply_event. destruct ev; intros [= <-]; cbn; auto.
Qed.

(** Every reply answers its request: whether [start_fetch] replies itself
    or the reply thread does so for a completed HTTP request, the event
    emitted is of the kind that goes with the invoke event and carries its
    transaction and session ids (for the unit event: its address tuple and
    transaction id); with an SDU size above 0 in the event, no body longer
    than that is emitted. *)
Theorem reply_answers_event (ms : machines) (event : WAPEvent) :
  (forall c o,
      start_fetch ms event = Some (Call_return_reply c) ->
      perform_return_reply ms c = Some o ->
      answers event (emitted o)
      /\ (0 < invoke_sdu_size event ->
          octstr_len (emitted_body (emitted o)) <= invoke_sdu_size event))
  /\ (forall method url hs body follow p ms' status headers rbody o,
         start_fetch ms event
         = Some (Call_http_start_request method url hs body follow p) ->
         return_replies_turn ms' p status headers rbody = Some o ->
         answers event (emitted o)
         /\ (0 < invoke_sdu_size event ->
             octstr_len (emitted_body (emitted o)) <= invoke_sdu_size event)).
Proof.
  assert (Key : forall ms' status cb h url tod rh o,
             return_reply ms' status cb h (invoke_sdu_size event) event
               (invoke_session_id event) url tod rh = Some o ->
             answers event (emitted o)
             /\ (0 < invoke_sdu_size event ->
                 octstr_len (emitted_body (emitted o)) <= invoke_sdu_size event)).
  { intros ms' status cb h url tod rh o Ho.
    apply return_reply_inv in Ho
      as (s1 & c1 & h1 & ms1 & s2 & c2 & h2 & _ & Hl & He & _ & _).
    split; [exact (reply_event_answers _ _ _ _ _ He)|].
    intros Hsdu. apply reply_event_fields in He as (_ & _ & Hb). rewrite Hb.
    rewrite reply_sdu_limit_eq, body_len_octets in Hl.
    assert (Hp : (invoke_sdu_size event >? 0) = true) by (apply Z.gtb_lt; lia).
    rewrite Hp, andb_true_r in Hl.
    destruct (octstr_len (body_octets c1) >? invoke_sdu_size event) eqn:E;
      injection Hl as <- <- <-.
    - cbn. lia.
    - rewrite Z.gtb_ltb in E. now apply Z.ltb_ge in E. }
  unfold start_fetch, perform_return_reply, return_replies_turn.
  destruct event as [q|q|q|q]; cbn [invoke_sdu_size invoke_session_id] in *;
    try (split; intros; discriminate);
    (destruct (wsp_http_map_url _ _) as [url0|]; [|split; intros; discriminate]);
    destruct (fetch_headers _ _ _ _ _ _) as [actual_headers x_wap_tod];
    (split;
     [intros c o Hs Ho|intros method url hs body follow p ms' status headers rbody o Hs Ho]);
    (destruct (is_method _ "GET" && _);
     [|destruct (is_method _ "GET" || is_method _ "POST" || is_method _ "HEAD")]);
    try discriminate; injection Hs as <-; try (intros; subst);
    cbn in Ho; exact (Key _ _ _ _ _ _ _ _ Ho).
Qed.

(** A unit (connectionless) request has no size limit: whatever the length
    of the body the HTTP server returned, the reply is emitted as it stood
    before the SDU check. *)
Theorem unit_reply_not_limited (ms : machines)
    (q : U.S_Unit_MethodInvoke_Ind.t) (method : Z) (url : Octstr)
    (hs : list header) (body : option Octstr) (follow : Z) (p : Request_data.t)
    (ms' : machines) (status : Z) (headers : option (list header))
    (rbody : option Octstr) (o : reply_outcome) :
  start_fetch ms (S_Unit_MethodInvoke_Ind q)
  = Some (Call_http_start_request method url hs body follow p) ->
  return_replies_turn ms' p status headers rbody = Some o ->
  exists s1 c1 h1 ms1,
    return_reply_until_sdu ms' status rbody headers (-1) url
      (Request_data.x_wap_tod p) hs = Some (s1, c1, h1, ms1)
    /\ emitted_status (emitted o) = s1
    /\ emitted_body (emitted o) = body_octets c1
    /\ emitted_headers (emitted o) = h1.
Proof.
  unfold start_fetch, return_replies_turn.
  destruct (wsp_http_map_url _ _) as [url0|]; [|discriminate].
  destruct (fetch_headers _ _ _ _ _ _) as [actual_headers x_wap_tod].
  destruct (is_method _ "GET" && _); [discriminate|].
  destruct (is_method _ "GET" || is_method _ "POST" || is_method _ "HEAD");
    [|discriminate].
  intros [= <- <- <- <- <- <-]. cbn. intros Ho.
  apply return_reply_inv in Ho
    as (s1 & c1 & h1 & ms1 & s2 & c2 & h2 & Hu & Hl & He & _ & _).
  apply reply_event_fields in He as (Hs & Hh & Hb).
  rewrite reply_sdu_limit_eq in Hl. cbn [Z.gtb Z.compare andb] in Hl.
  rewrite andb_false_r in Hl. injection Hl as <- <- <-.
  exists s1, c1, h1, ms1. auto.
Qed.

(** The content bundle [return_reply] gives to the converter for a
    completed request. *)
Local Notation fetched_content h cb url :=
  {| body := cb; type := fst (http_header_get_content_type h);
     charset := snd (http_header_get_content_type h); url := url |}.

(** The referer of a session changes only when a reply for that session was
    converted: no other session is touched, a failed fetch, a unit request
    and unconverted content leave all sessions as they were, and after a
    conversion for a known session the referer is the request URL. *)
Theorem return_reply_referer (ms : machines) (status : Z) (cb : option Octstr)
    (h : option (list header)) (sdu_size : Z) (ev : WAPEvent) (session_id : Z)
    (url : Octstr) (x_wap_tod : Z) (rh : list header) (o : reply_outcome) :
  return_reply ms status cb h sdu_size ev session_id url x_wap_tod rh = Some o ->
  (forall k, k <> session_id -> machines_after o k = ms k)
  /\ (status < 0 \/ session_id = -1 -> machines_after o = ms)
  /\ (forall hl, h = Some hl ->
                 fst (convert_content (fetched_content hl cb url)) <> 1 ->
                 machines_after o = ms)
  /\ (forall hl sm,
         0 <= status -> h = Some hl -> session_id <> -1 ->
         find_session_machine_by_id ms session_id = Some sm ->
         fst (convert_content (fetched_content hl cb url)) = 1 ->
         get_referer_url (find_session_machine_by_id (machines_after o) session_id)
         = Some url).
Proof.
  intros Ho.
  apply return_reply_inv in Ho
    as (s1 & c1 & h1 & ms1 & s2 & c2 & h2 & Hu & _ & _ & _ & Hm).
  rewrite Hm. clear Hm o.
  destruct (Z.ltb_spec status 0) as [Hneg|Hpos].
  - assert (E : ms1 = ms).
    { unfold return_reply_until_sdu in Hu.
      assert (Hlt : (status <? 0) = true) by (apply Z.ltb_lt; exact Hneg).
      rewrite Hlt in Hu.
      destruct (return_reply_failure ms h session_id url) as [[s c] hh].
      destruct (reply_accept_filter _ _ _ _). congruence. }
    subst ms1. repeat split; auto. intros; lia.
  - destruct h as [hl|].
    2:{ unfold return_reply_until_sdu in Hu.
        assert (Hge : (status <? 0) = false) by (apply Z.ltb_ge; exact Hpos).
        rewrite Hge in Hu. discriminate. }
    rewrite (until_sdu_success ms status cb hl session_id url x_wap_tod rh Hpos)
      in Hu.
    cbv zeta in Hu. injection Hu as _ _ _ Hm. subst ms1.
    split; [|split; [|split]].
    + intros k Hk.
      destruct (_ && _); [|reflexivity].
      destruct (find_session_machine_by_id ms session_id); [|reflexivity].
      unfold set_referer_url, update_machine.
      destruct (k =? session_id) eqn:E; [apply Z.eqb_eq in E; contradiction|].
      reflexivity.
    + intros [Hs|Hs]; [lia|]. subst session_id. cbn [Z.eqb negb].
      now rewrite andb_false_r.
    + intros hl' [= <-] Hc.
      assert (E : (fst (convert_content (fetched_content hl cb url)) =? 1) = false)
        by (apply Z.eqb_neq; exact Hc).
      now rewrite E.
    + intros hl' sm _ [= <-] Hs Hf Hc. rewrite Hc, Hf.
      assert (E : negb (session_id =? -1) = true)
        by (apply negb_true_iff, Z.eqb_neq; exact Hs).
      rewrite E. cbn [Z.eqb andb Pos.eqb].
      unfold set_referer_url, update_machine, find_session_machine_by_id.
      now rewrite Z.eqb_refl.
Qed.

(** A status from the HTTP server is only ever changed to 502, and only
    for a 2xx reply whose body, as it stands before the SDU check (after
    conversion and the accept filter), is longer than a positive SDU size;
    the body is then empty.  Every other reply keeps its status, and a
    body within the size, or any body when the size is not positive, is
    emitted as it stood.  With a header list and an invoke event the reply
    is always emitted. *)
Theorem return_reply_keeps_status (ms : machines) (status : Z)
    (cb : option Octstr) (h : list header) (sdu_size : Z) (ev : WAPEvent)
    (session_id : Z) (url : Octstr) (x_wap_tod : Z) (rh : list header) :
  0 <= status ->
  is_invoke ev = true ->
  exists o c1 h1 ms1,
    return_reply ms status cb (Some h) sdu_size ev session_id url x_wap_tod rh
    = Some o
    /\ return_reply_until_sdu ms status cb (Some h) session_id url x_wap_tod rh
       = Some (status, c1, h1, ms1)
    /\ emitted_status (emitted o)
       = (if (0 <? sdu_size) && (sdu_size <? octstr_len (body_octets c1))
             && is_2xx status
          then 502 else status)
    /\ emitted_body (emitted o)
       = (if (0 <? sdu_size) && (sdu_size <? octstr_len (body_octets c1))
          then EmptyString else body_octets c1).
Proof.
  intros Hpos Hev.
  pose proof (until_sdu_success ms status cb h session_id url x_wap_tod rh Hpos)
    as Hu. cbv zeta in Hu.
  destruct (return_reply_emits ms status cb (Some h) sdu_size ev session_id url
              x_wap_tod rh _ _ _ _ Hev Hu) as (o & Ho & Hs & Hb & _).
  eexists o, _, _, _. split; [exact Ho|]. split; [exact Hu|].
  rewrite Hs, Hb, reply_sdu_limit_eq, body_len_octets.
  rewrite (Z.gtb_ltb _ sdu_size), (Z.gtb_ltb sdu_size 0), andb_comm.
  destruct ((0 <? sdu_size) && (sdu_size <? _)); cbn [fst snd andb];
    [|split; reflexivity].
  split; [destruct (is_2xx status); reflexivity|reflexivity].
Qed.

(** Content the gateway does not convert (no converter for its type, or
    the converter failed) reaches the client as the server sent it when the
    status is 2xx and the body is within the SDU size: same status, same
    body, the headers only stripped, and no session changed. *)
Theorem return_reply_passes_raw (ms : machines) (status : Z) (b : Octstr)
    (h : list header) (sdu_size : Z) (ev : WAPEvent) (session_id : Z)
    (url : Octstr) (x_wap_tod : Z) (rh : list header) :
  200 <= status < 300 ->
  is_invoke ev = true ->
  fst (convert_content (fetched_content h (Some b) url)) <> 1 ->
  sdu_size <= 0 \/ octstr_len b <= sdu_size ->
  exists o,
    return_reply ms status (Some b) (Some h) sdu_size ev session_id url
      x_wap_tod rh = Some o
    /\ emitted_status (emitted o) = status
    /\ emitted_body (emitted o) = b
    /\ emitted_headers (emitted o) = reply_headers (Some h) x_wap_tod
    /\ type (final_content o) = fst (http_header_get_content_type h)
    /\ machines_after o = ms.
Proof.
  intros Hst Hev Hc Hsdu.
  pose proof (until_sdu_success ms status (Some b) h session_id url x_wap_tod rh
                ltac:(lia)) as Hu. cbv zeta in Hu.
  assert (E : (fst (convert_content (fetched_content h (Some b) url)) =? 1) = false)
    by (apply Z.eqb_neq; exact Hc).
  rewrite E, (convert_content_kept _ Hc) in Hu. cbn [andb] in Hu.
  assert (Hcls : negb (http_status_class status =? HTTP_STATUS_SUCCESSFUL) = false).
  { rewrite http_status_class_2xx. unfold is_2xx.
    assert (E1 : (200 <=? status) = true) by (apply Z.leb_le; lia).
    assert (E2 : (status <? 300) = true) by (apply Z.ltb_lt; lia).
    now rewrite E1, E2. }
  unfold reply_accept_filter in Hu. rewrite Hcls in Hu.
  cbn [andb fst snd reply_body body] in Hu.
  destruct (return_reply_emits ms status (Some b) (Some h) sdu_size ev session_id
              url x_wap_tod rh _ _ _ _ Hev Hu) as (o & Ho & Hs & Hb & Hh & Hf & Hm).
  exists o. split; [exact Ho|].
  rewrite Hs, Hb, Hh, Hf, Hm, reply_sdu_limit_eq.
  assert (El : (body_len (fetched_content h (Some b) url) >? sdu_size)
               && (sdu_size >? 0) = false).
  { unfold body_len. cbn [body].
    destruct (sdu_size >? 0) eqn:E2; [|apply andb_false_r].
    apply Z.gtb_lt in E2. rewrite andb_true_r. rewrite Z.gtb_ltb.
    apply Z.ltb_ge. lia. }
  rewrite El. cbn. auto.
Qed.

(** An error reply (status outside 2xx) in a type the client did not
    announce is emitted without its body, as text/plain, with its status;
    in a type the client accepts it keeps its body when that is within the
    SDU size. *)
Theorem return_reply_error_body (ms : machines) (status : Z) (b : Octstr)
    (h : list header) (sdu_size : Z) (ev : WAPEvent) (session_id : Z)
    (url : Octstr) (x_wap_tod : Z) (rh : list header) :
  0 <= status -> ~ 200 <= status < 300 ->
  is_invoke ev = true ->
  fst (convert_content (fetched_content h (Some b) url)) <> 1 ->
  exists o,
    return_reply ms status (Some b) (Some h) sdu_size ev session_id url
      x_wap_tod rh = Some o
    /\ emitted_status (emitted o) = status
    /\ (http_type_accepted rh (fst (http_header_get_content_type h)) = false ->
        emitted_body (emitted o) = EmptyString
        /\ type (final_content o) = "text/plain"
        /\ emitted_headers (emitted o)
           = http_header_mark_transformation (reply_headers (Some h) x_wap_tod)
               (Some EmptyString) "text/plain")
    /\ (http_type_accepted rh (fst (http_header_get_content_type h)) = true ->
        sdu_size <= 0 \/ octstr_len b <= sdu_size ->
        emitted_body (emitted o) = b
        /\ emitted_headers (emitted o) = reply_headers (Some h) x_wap_tod).
Proof.
  intros Hpos Hst Hev Hc.
  pose proof (until_sdu_success ms status (Some b) h session_id url x_wap_tod rh
                Hpos) as Hu. cbv zeta in Hu.
  assert (E : (fst (convert_content (fetched_content h (Some b) url)) =? 1) = false)
    by (apply Z.eqb_neq; exact Hc).
  rewrite E, (convert_content_kept _ Hc) in Hu. cbn [andb] in Hu.
  assert (H2 : is_2xx status = false).
  { unfold is_2xx. destruct (200 <=? status) eqn:E1; [|reflexivity].
    destruct (status <? 300) eqn:E2; [|reflexivity].
    apply Z.leb_le in E1. apply Z.ltb_lt in E2. lia. }
  assert (Hcls : negb (http_status_class status =? HTTP_STATUS_SUCCESSFUL) = true)
    by now rewrite http_status_class_2xx, H2.
  unfold reply_accept_filter in Hu. rewrite Hcls in Hu.
  cbn [andb reply_body body type octstr_get_cstr] in Hu.
  destruct (return_reply_emits ms status (Some b) (Some h) sdu_size ev session_id
              url x_wap_tod rh _ _ _ _ Hev Hu) as (o & Ho & Hs & Hb & Hh & Hf & _).
  exists o. split; [exact Ho|].
  rewrite Hs, Hb, Hh, Hf. clear Hu Ho Hs Hb Hh Hf.
  split; [apply reply_sdu_limit_status; exact H2|].
  unfold octstr_get_cstr.
  split; intros Ha; rewrite Ha; cbn [negb fst snd].
  - rewrite reply_sdu_limit_empty by reflexivity. cbn. auto.
  - intros Hsdu. rewrite reply_sdu_limit_eq.
    assert (El : (body_len (fetched_content h (Some b) url) >? sdu_size)
                 && (sdu_size >? 0) = false).
    { unfold body_len. cbn [body].
      destruct (sdu_size >? 0) eqn:E2; [|apply andb_false_r].
      apply Z.gtb_lt in E2. rewrite andb_true_r. rewrite Z.gtb_ltb.
      apply Z.ltb_ge. lia. }
    rewrite El. cbn. auto.
Qed.

End Gateway_more.

(** *** At concrete inputs *)

Lemma start_fetch_kannel_alive_witness :
  exists c o,
    Sample.run_start_fetch [] Sample.no_machines
      (Sample.session_invoke "GET" "kannel:alive" 0)
    = Some (Call_return_reply c)
    /\ Reply_call.status c = 200
    /\ Reply_call.headers c = Some [("Content-Type", "text/vnd.wap.wml")]
    /\ Reply_call.content_body c = Some HEALTH_DECK
    /\ Sample_more.run_perform_return_reply None Sample.no_machines c = Some o
    /\ emitted_status (emitted o) = 200
    /\ emitted_body (emitted o) = "wmlc:" ++ HEALTH_DECK
    /\ type (final_content o) = "application/vnd.wap.wmlc".
Proof.
  destruct (start_fetch_kannel_alive Sample.wml_compile Sample.ws_compile_data
              ["utf-8"] (Sample.accepted "Accept") (Sample.accepted "Accept-Charset")
              Sample.combine Sample.remove_hop_headers Sample.pack
              Sample.get_content_type Sample.mark_transformation
              Sample.name2method None "wap.example.org" "Kannel" "1.3.1" 0 None
              Sample.error_requesting_back Sample.error_requesting []
              Sample.no_machines (Sample.session_invoke "GET" "kannel:alive" 0)
              "kannel:alive" eq_refl eq_refl eq_refl eq_refl)
    as (c & o & H1 & H2 & H3 & H4 & _ & _ & _ & H8 & H9 & H10 & H11 & _).
  exists c, o. repeat (split; [assumption|]). assumption.
Defined.

(** C1 as stated fails: the reply to GET kannel:alive does not carry the
    health deck under Content-Type: text/vnd.wap.wml.  With a compiler that
    succeeds the body is the compiled deck and the content type
    application/vnd.wap.wmlc; and for a client whose SDU size is 10 the
    reply has status 502 and an empty body. *)
Lemma kannel_alive_reply_compiled :
  (exists o,
      Sample.run_start_fetch_reply None [] Sample.no_machines
        (Sample.session_invoke "GET" "kannel:alive" 0)
      = Some (Some o)
      /\ emitted_status (emitted o) = 200
      /\ emitted_body (emitted o) = "wmlc:" ++ HEALTH_DECK
      /\ emitted_body (emitted o) <> HEALTH_DECK
      /\ Sample.accepted "Content-Type" (emitted_headers (emitted o))
           "application/vnd.wap.wmlc" = true
      /\ Sample.accepted "Content-Type" (emitted_headers (emitted o))
           "text/vnd.wap.wml" = false)
  /\ (exists o,
         Sample.run_start_fetch_reply None [] Sample.no_machines
           (Sample.session_invoke "GET" "kannel:alive" 10)
         = Some (Some o)
         /\ emitted_status (emitted o) = 502
         /\ emitted_body (emitted o) = EmptyString).
Proof.
  split; eexists; (split; [vm_compute; reflexivity|]);
    cbn [emitted emitted_status emitted_body emitted_headers];
    repeat split; try reflexivity.
  vm_compute. discriminate.
Qed.

Lemma return_reply_http_failure_witness :
  (exists o,
      Sample.run_return_reply None 0 None Sample.no_machines (-1) None None 0
        (Sample.session_invoke "GET" "http://x/" 0) 7 "http://x/" 0 []
      = Some o
      /\ emitted_status (emitted o) = 502
      /\ emitted_body (emitted o) = EmptyString
      /\ type (final_content o) = "text/plain")
  /\ (exists o,
         Sample.run_return_reply None 1 None Sample.no_machines (-1) None None 0
           (Sample.session_invoke "GET" "http://x/" 0) 7 "http://x/" 0 []
         = Some o
         /\ emitted_status (emitted o) = 200
         /\ emitted_body (emitted o) = "wmlc:" ++ Sample.error_requesting "http://x/"
         /\ type (final_content o) = "application/vnd.wap.wmlc").
Proof.
  split.
  - destruct (proj1 (return_reply_http_failure Sample.wml_compile
                Sample.ws_compile_data (Sample.accepted "Accept")
                Sample.remove_hop_headers Sample.get_content_type
                Sample.mark_transformation None 0 None
                Sample.error_requesting_back Sample.error_requesting
                Sample.no_machines (-1) None None 0
                (Sample.session_invoke "GET" "http://x/" 0) 7 "http://x/" 0 []
                ltac:(lia) eq_refl) eq_refl)
      as (o & Ho & Hs & Hb & Ht & _).
    exists o. auto.
  - destruct (proj2 (return_reply_http_failure Sample.wml_compile
                Sample.ws_compile_data (Sample.accepted "Accept")
                Sample.remove_hop_headers Sample.get_content_type
                Sample.mark_transformation None 1 None
                Sample.error_requesting_back Sample.error_requesting
                Sample.no_machines (-1) None None 0
                (Sample.session_invoke "GET" "http://x/" 0) 7 "http://x/" 0 []
                ltac:(lia) eq_refl) ltac:(discriminate))
      as (o & Ho & Hs & Hb & Ht & _).
    exists o. auto.
Defined.

(** C9 as stated fails: with smart errors on, the reply to a failed fetch
    does not carry the WML error deck under text/vnd.wap.wml.  With a
    compiler that succeeds the body is the compiled deck and the content
    type application/vnd.wap.wmlc; and for a client whose SDU size is 10
    the reply has status 502 and an empty body.  With smart errors off and
    a client that announces text/plain, the headers of the reply name no
    content type at all. *)
Lemma smart_error_reply_compiled :
  (exists o,
      Sample.run_return_reply None 1 None Sample.no_machines (-1) None None 0
        (Sample.session_invoke "GET" "http://x/" 0) 7 "http://x/" 0 []
      = Some o
      /\ emitted_status (emitted o) = 200
      /\ emitted_body (emitted o) = "wmlc:" ++ Sample.error_requesting "http://x/"
      /\ emitted_body (emitted o) <> Sample.error_requesting "http://x/"
      /\ Sample.accepted "Content-Type" (emitted_headers (emitted o))
           "application/vnd.wap.wmlc" = true
      /\ Sample.accepted "Content-Type" (emitted_headers (emitted o))
           "text/vnd.wap.wml" = false)
  /\ (exists o,
         Sample.run_return_reply None 1 None Sample.no_machines (-1) None None 10
           (Sample.session_invoke "GET" "http://x/" 10) 7 "http://x/" 0 []
         = Some o
         /\ emitted_status (emitted o) = 502
         /\ emitted_body (emitted o) = EmptyString)
  /\ (exists o,
         Sample.run_return_reply None 0 None Sample.no_machines (-1) None None 0
           (Sample.session_invoke "GET" "http://x/" 0) 7 "http://x/" 0
           [("Accept", "text/plain")]
         = Some o
         /\ emitted_status (emitted o) = 502
         /\ has_header "Content-Type" (emitted_headers (emitted o)) = false).
Proof.
  split; [|split]; eexists; (split; [vm_compute; reflexivity|]);
    cbn [emitted emitted_status emitted_body emitted_headers];
    repeat split; try reflexivity.
  vm_compute. discriminate.
Qed.

Lemma start_fetch_submits_witness :
  invoke_method (Sample_more.unit_post "http://a/b" "x=1") = Some "POST"
  /\ exists hs p,
       Sample.run_start_fetch [] Sample.no_machines
         (Sample_more.unit_post "http://a/b" "x=1")
       = Some (Call_http_start_request (Sample.name2method "POST") "http://a/b" hs
                 (Some "x=1") 0 p)
       /\ Request_data.event p = Sample_more.unit_post "http://a/b" "x=1"
       /\ Request_data.url p = "http://a/b"
       /\ Request_data.session_id p = -1
       /\ Request_data.client_SDU_size p = 0
       /\ Request_data.request_headers p = hs.
Proof.
  split; [reflexivity|]. unfold Sample.run_start_fetch.
  apply (start_fetch_submits Sample.wml_compile Sample.ws_compile_data ["utf-8"]
           (Sample.accepted "Accept") (Sample.accepted "Accept-Charset")
           Sample.combine Sample.remove_hop_headers Sample.pack
           Sample.name2method "wap.example.org" "Kannel" "1.3.1" []
           Sample.no_machines (Sample_more.unit_post "http://a/b" "x=1")
           "POST" "http://a/b" "http://a/b");
    try reflexivity; [right; left; reflexivity|intros [H _]; discriminate].
Defined.

Lemma fetch_headers_outbound_witness :
  exists hs p,
    Sample.run_start_fetch [] Sample.no_machines
      (Sample.unit_invoke "GET" "http://x/"
         [("Connection", "close"); ("X-WAP.TOD", "1"); ("Accept", "a/b")])
    = Some (Call_http_start_request 1 "http://x/" hs None 0 p)
    /\ exists added,
         hs = Sample.pack ([("Accept", "a/b")] ++ added)%list
         /\ Request_data.request_headers p = hs
         /\ forallb (named_in gateway_header_names) added = true
         /\ forallb (fun h => negb (named_in session_header_names h)) added = true.
Proof.
  eexists. eexists. split; [vm_compute; reflexivity|].
  edestruct (fetch_headers_outbound Sample.wml_compile Sample.ws_compile_data
               ["utf-8"] (Sample.accepted "Accept") (Sample.accepted "Accept-Charset")
               Sample.combine Sample.remove_hop_headers Sample.pack
               Sample.name2method "wap.example.org" "Kannel" "1.3.1" []
               Sample.no_machines
               (Sample.unit_invoke "GET" "http://x/"
                  [("Connection", "close"); ("X-WAP.TOD", "1"); ("Accept", "a/b")]))
    as (added & H1 & H2 & H3 & _ & H5); [vm_compute; reflexivity|].
  exists added. split; [exact H1|]. split; [exact H2|]. split; [exact H3|].
  apply H5; [reflexivity|cbn; lia].
Defined.


Lemma reply_answers_event_witness :
  exists hs p o,
    Sample.run_start_fetch [] Sample.no_machines
      (Sample.session_invoke "GET" "http://x/" 3)
    = Some (Call_http_start_request 1 "http://x/" hs None 0 p)
    /\ Sample_more.run_return_replies_turn None Sample.no_machines p 200
         (Some [("Content-Type", "text/plain")]) (Some "hello")
       = Some o
    /\ answers (Sample.session_invoke "GET" "http://x/" 3) (emitted o)
    /\ octstr_len (emitted_body (emitted o)) <= 3.
Proof.
  eexists. eexists. eexists.
  split; [vm_compute; reflexivity|]. split; [vm_compute; reflexivity|].
  edestruct (proj2 (reply_answers_event Sample.wml_compile Sample.ws_compile_data
              ["utf-8"] (Sample.accepted "Accept") (Sample.accepted "Accept-Charset")
              Sample.combine Sample.remove_hop_headers Sample.pack
              Sample.get_content_type Sample.mark_transformation
              Sample.name2method None "wap.example.org" "Kannel" "1.3.1" 0 None
              Sample.error_requesting_back Sample.error_requesting []
              Sample.no_machines (Sample.session_invoke "GET" "http://x/" 3)))
    with (ms' := Sample.no_machines) (status := 200)
         (headers := Some [("Content-Type", "text/plain")])
         (rbody := Some "hello") as [Ha Hl];
    [vm_compute; reflexivity|vm_compute; reflexivity|].
  split; [exact Ha|]. apply Hl. reflexivity.
Defined.

Lemma unit_reply_not_limited_witness :
  exists hs p o,
    Sample.run_start_fetch [] Sample.no_machines
      (Sample.unit_invoke "GET" "http://x/" [])
    = Some (Call_http_start_request 1 "http://x/" hs None 0 p)
    /\ Sample_more.run_return_replies_turn None Sample.no_machines p 200
         (Some [("Content-Type", "text/plain")]) (Some "hello, world")
       = Some o
    /\ emitted_status (emitted o) = 200
    /\ emitted_body (emitted o) = "hello, world".
Proof.
  eexists. eexists. eexists.
  split; [vm_compute; reflexivity|]. split; [vm_compute; reflexivity|].
  edestruct (unit_reply_not_limited Sample.wml_compile Sample.ws_compile_data
              ["utf-8"] (Sample.accepted "Accept") (Sample.accepted "Accept-Charset")
              Sample.combine Sample.remove_hop_headers Sample.pack
              Sample.get_content_type Sample.mark_transformation
              Sample.name2method None "wap.example.org" "Kannel" "1.3.1" 0 None
              Sample.error_requesting_back Sample.error_requesting []
              Sample.no_machines)
    with (q := {| U.S_Unit_MethodInvoke_Ind.transaction_id := 5;
                  U.S_Unit_MethodInvoke_Ind.request_uri := "http://x/";
                  U.S_Unit_MethodInvoke_Ind.method := "GET";
                  U.S_Unit_MethodInvoke_Ind.request_headers := Some [];
                  U.S_Unit_MethodInvoke_Ind.request_body := None;
                  U.S_Unit_MethodInvoke_Ind.addr_tuple := Sample.tuple |})
         (ms' := Sample.no_machines) (status := 200)
         (headers := Some [("Content-Type", "text/plain")])
         (rbody := Some "hello, world")
    as (s1 & c1 & h1 & ms1 & Hu & Hs & Hb & _);
    [vm_compute; reflexivity|vm_compute; reflexivity|].
  vm_compute in Hu. injection Hu as <- <- _ _.
  split; [exact Hs|exact Hb].
Defined.

Lemma return_reply_referer_witness :
  exists o,
    Sample.run_return_reply None 0 None Sample.one_machine 200 (Some "<wml/>")
      (Some [("Content-Type", "text/vnd.wap.wml")]) 0
      (Sample.session_invoke "GET" "http://x/a.wml" 0) 7 "http://x/a.wml" 0 []
    = Some o
    /\ get_referer_url (find_session_machine_by_id (machines_after o) 7)
       = Some "http://x/a.wml"
    /\ machines_after o 8 = Sample.one_machine 8.
Proof.
  eexists. split; [vm_compute; reflexivity|].
  destruct (return_reply_referer Sample.wml_compile Sample.ws_compile_data
              (Sample.accepted "Accept") Sample.remove_hop_headers
              Sample.get_content_type Sample.mark_transformation None 0 None
              Sample.error_requesting_back Sample.error_requesting
              Sample.one_machine 200 (Some "<wml/>")
              (Some [("Content-Type", "text/vnd.wap.wml")]) 0
              (Sample.session_invoke "GET" "http://x/a.wml" 0) 7 "http://x/a.wml"
              0 [] _ eq_refl) as (H1 & _ & _ & H4).
  split.
  - apply (H4 [("Content-Type", "text/vnd.wap.wml")] {| referer_url := None |});
      [lia|reflexivity|lia|reflexivity|reflexivity].
  - apply H1. lia.
Defined.

Lemma return_reply_keeps_status_witness :
  (exists o,
      Sample.run_return_reply None 0 None Sample.no_machines 200 (Some "hello")
        (Some [("Content-Type", "text/plain")]) 3
        (Sample.session_invoke "GET" "http://x/" 3) 7 "http://x/" 0 []
      = Some o
      /\ emitted_status (emitted o) = 502
      /\ emitted_body (emitted o) = EmptyString)
  /\ (exists o,
         Sample.run_return_reply None 0 None Sample.no_machines 200 (Some "hello")
           (Some [("Content-Type", "text/plain")]) 5
           (Sample.session_invoke "GET" "http://x/" 5) 7 "http://x/" 0 []
         = Some o
         /\ emitted_status (emitted o) = 200
         /\ emitted_body (emitted o) = "hello").
Proof.
  split.
  - destruct (return_reply_keeps_status Sample.wml_compile Sample.ws_compile_data
                (Sample.accepted "Accept") Sample.remove_hop_headers
                Sample.get_content_type Sample.mark_transformation None 0 None
                Sample.error_requesting_back Sample.error_requesting
                Sample.no_machines 200 (Some "hello")
                [("Content-Type", "text/plain")] 3
                (Sample.session_invoke "GET" "http://x/" 3) 7 "http://x/" 0 []
                ltac:(lia) eq_refl)
      as (o & c1 & h1 & ms1 & Ho & Hu & Hs & Hb).
    vm_compute in Hu. injection Hu as <- <- <-.
    exists o. split; [exact Ho|]. split; [exact Hs|exact Hb].
  - destruct (return_reply_keeps_status Sample.wml_compile Sample.ws_compile_data
                (Sample.accepted "Accept") Sample.remove_hop_headers
                Sample.get_content_type Sample.mark_transformation None 0 None
                Sample.error_requesting_back Sample.error_requesting
                Sample.no_machines 200 (Some "hello")
                [("Content-Type", "text/plain")] 5
                (Sample.session_invoke "GET" "http://x/" 5) 7 "http://x/" 0 []
                ltac:(lia) eq_refl)
      as (o & c1 & h1 & ms1 & Ho & Hu & Hs & Hb).
    vm_compute in Hu. injection Hu as <- <- <-.
    exists o. split; [exact Ho|]. split; [exact Hs|exact Hb].
Defined.

Lemma return_reply_passes_raw_witness :
  exists o,
    Sample.run_return_reply None 0 None Sample.no_machines 200 (Some "GIF89a")
      (Some [("Content-Type", "image/gif")]) 1400
      (Sample.session_invoke "GET" "http://x/a.gif" 1400) 7 "http://x/a.gif" 0 []
    = Some o
    /\ emitted_status (emitted o) = 200
    /\ emitted_body (emitted o) = "GIF89a"
    /\ emitted_headers (emitted o)
       = reply_headers Sample.remove_hop_headers None
           (Some [("Content-Type", "image/gif")]) 0
    /\ type (final_content o) = fst (Sample.get_content_type [("Content-Type", "image/gif")])
    /\ machines_after o = Sample.no_machines.
Proof.
  unfold Sample.run_return_reply.
  apply return_reply_passes_raw;
    [lia|reflexivity|vm_compute; discriminate|right; vm_compute; discriminate].
Defined.

Lemma return_reply_error_body_witness :
  exists o,
    Sample.run_return_reply None 0 None Sample.no_machines 404 (Some "<html/>")
      (Some [("Content-Type", "text/html")]) 0
      (Sample.session_invoke "GET" "http://x/" 0) 7 "http://x/" 0
      [("Accept", "text/vnd.wap.wml")]
    = Some o
    /\ emitted_status (emitted o) = 404
    /\ emitted_body (emitted o) = EmptyString
    /\ type (final_content o) = "text/plain".
Proof.
  unfold Sample.run_return_reply.
  destruct (return_reply_error_body Sample.wml_compile Sample.ws_compile_data
              (Sample.accepted "Accept") Sample.remove_hop_headers
              Sample.get_content_type Sample.mark_transformation None 0 None
              Sample.error_requesting_back Sample.error_requesting
              Sample.no_machines 404 "<html/>" [("Content-Type", "text/html")] 0
              (Sample.session_invoke "GET" "http://x/" 0) 7 "http://x/" 0
              [("Accept", "text/vnd.wap.wml")]
              ltac:(lia) ltac:(lia) eq_refl ltac:(vm_compute; discriminate))
    as (o & Ho & Hs & Hno & _).
  exists o. split; [exact Ho|]. split; [exact Hs|].
  destruct (Hno eq_refl) as (Hb & Ht & _). auto.
Defined.


(** ** Push OTA: what reaches the PPG *)

Lemma remove_absent (name : string) (hs : list header) :
  has_header name hs = false -> fst (http_header_remove_all hs name) = hs.
Proof.
  unfold has_header, http_header_remove_all. cbn [fst].
  induction hs as [|x rest IH]; [reflexivity|]. cbn [existsb filter].
  intros H. apply orb_false_iff in H as [Hx Hr]. rewrite Hx. cbn [negb].
  now rewrite IH.
Qed.

Lemma find_absent (name : string) (hs : list header) :
  http_header_find_all hs name = [] -> has_header name hs = false.
Proof.
  unfold has_header, http_header_find_all.
  induction hs as [|x rest IH]; [reflexivity|]. cbn [existsb filter].
  destruct (header_is_called name x); [discriminate|]. exact IH.
Qed.

(** The two results of [decode_bearer_indication] for a header list: the
    list without its Bearer-Indication headers, and the bearer list, which
    only a single, registered, non-zero code extends. *)
Lemma decode_bearer_indication_cases (reg : Z -> option string)
    (hs bh : list header) :
  fst (decode_bearer_indication reg (Some hs) bh)
  = Some (fst (http_header_remove_all hs "Bearer-Indication"))
  /\ snd (decode_bearer_indication reg (Some hs) bh)
     = match http_header_find_all hs "Bearer-Indication" with
       | [(n, v)] =>
           let code := unsigned_char_of (octstr_get_char v 0) in
           match reg code with
           | Some name =>
               if code =? 0 then None
               else Some (bh ++ [("Bearer-Indication", c_str name)])%list
           | None => None
           end
       | _ => Some bh
       end.
Proof.
  unfold decode_bearer_indication, split_header_list.
  destruct (http_header_find_all hs "Bearer-Indication") as [|[n v] [|y l]];
    cbn [fst snd]; auto.
  destruct (reg _) as [name|]; [|auto].
  destruct (_ =? 0); cbn [negb fst snd]; auto.
Qed.

Section Push_more.

Variable wsp_application_id_to_cstr : Z -> option string.
Variable wsp_bearer_indication_to_cstr : Z -> option string.
Variable coded_value_address : Z -> Z.
Variable header_outside : list header -> Z -> option header.
Variable Cap : Type.

Local Notation check_application_headers :=
  (check_application_headers wsp_application_id_to_cstr coded_value_address
     header_outside).
Local Notation indicate_push_connection :=
  (indicate_push_connection wsp_application_id_to_cstr
     wsp_bearer_indication_to_cstr coded_value_address header_outside Cap).
Local Notation indicate_push_resume :=
  (indicate_push_resume wsp_bearer_indication_to_cstr).
Local Notation bearer_code v := (unsigned_char_of (octstr_get_char v 0)).

(** [check_application_headers] returns only when there was no
    Accept-Application header, with the headers as they were and the default
    application added. *)
Lemma check_application_headers_returned (fuel : nat)
    (headers : option (list header)) (apps : list header)
    (h1 : option (list header)) (a : list header) :
  check_application_headers fuel headers apps = Returned (h1, a) ->
  h1 = headers
  /\ a = (apps ++ [("Accept-Application", "wml ua")])%list
  /\ match headers with
     | Some hs => has_header "Accept-Application" hs = false
     | None => True
     end.
Proof.
  unfold check_application_headers, split_header_list.
  destruct headers as [hs|]; [|intros [= <- <-]; auto].
  destruct (http_header_find_all hs "Accept-Application") as [|x l] eqn:E.
  - cbn [List.length Z.of_nat Z.eqb]. intros [= <- <-].
    pose proof (find_absent _ _ E) as Ha.
    pose proof (remove_absent _ _ Ha) as Hr. cbn [fst http_header_remove_all] in Hr.
    rewrite Hr. auto.
  - cbn [List.length].
    assert (E0 : (Z.of_nat (S (List.length l)) =? 0) = false)
      by (apply Z.eqb_neq; lia).
    rewrite E0.
    pose proof (application_loop_never_returns wsp_application_id_to_cstr
                  coded_value_address header_outside (x :: l)
                  ltac:(discriminate) fuel 0 None apps) as Hl.
    destruct (application_loop _ _ _ fuel (x :: l) 0 None apps) as [r|b|b];
      [now contradiction (Hl r)|discriminate|discriminate].
Qed.

(** Whatever connect indication reaches the PPG: it carries the address
    tuple, capabilities and session id of the [S_Connect_Ind] and the one
    application "wml ua"; the client sent no Accept-Application header; the
    push headers are the client headers without every Bearer-Indication
    header; and a bearer indication is passed on only when the client sent
    exactly one, with a registered code other than 0, as that one header
    with the name of the bearer. *)
Theorem indicate_push_connection_dispatched (fuel : nat)
    (e : U.S_Connect_Ind.t Cap) (p : U.Pom_Connect_Ind.t Cap) :
  indicate_push_connection fuel e = Returned p ->
  U.Pom_Connect_Ind.addr_tuple p = U.S_Connect_Ind.addr_tuple e
  /\ U.Pom_Connect_Ind.requested_capabilities p
     = U.S_Connect_Ind.requested_capabilities e
  /\ U.Pom_Connect_Ind.session_id p = U.S_Connect_Ind.session_id e
  /\ U.Pom_Connect_Ind.accept_application p = [("Accept-Application", "wml ua")]
  /\ match U.S_Connect_Ind.client_headers e with
     | None =>
         U.Pom_Connect_Ind.push_headers p = None
         /\ U.Pom_Connect_Ind.bearer_indication p = None
     | Some hs =>
         has_header "Accept-Application" hs = false
         /\ U.Pom_Connect_Ind.push_headers p
            = Some (fst (http_header_remove_all hs "Bearer-Indication"))
         /\ match http_header_find_all hs "Bearer-Indication" with
            | [(n, v)] =>
                exists name,
                  wsp_bearer_indication_to_cstr (bearer_code v) = Some name
                  /\ bearer_code v <> 0
                  /\ U.Pom_Connect_Ind.bearer_indication p
                     = Some [("Bearer-Indication", c_str name)]
            | _ => U.Pom_Connect_Ind.bearer_indication p = None
            end
     end.
Proof.
  unfold indicate_push_connection.
  destruct (check_application_headers fuel (U.S_Connect_Ind.client_headers e)
              http_create_empty_headers) as [[h1 a]|b|b] eqn:Ec;
    [|discriminate|discriminate].
  apply check_application_headers_returned in Ec as (-> & -> & Hno).
  destruct (U.S_Connect_Ind.client_headers e) as [hs|].
  - pose proof (decode_bearer_indication_cases wsp_bearer_indication_to_cstr hs
                  http_create_empty_headers) as [Hf Hs].
    destruct (decode_bearer_indication _ (Some hs) _) as [ph bhs].
    cbn [fst snd] in Hf, Hs. subst ph.
    destruct bhs as [bh|]; [|discriminate]. intros [= <-].
    cbn [U.Pom_Connect_Ind.addr_tuple U.Pom_Connect_Ind.requested_capabilities
         U.Pom_Connect_Ind.session_id U.Pom_Connect_Ind.accept_application
         U.Pom_Connect_Ind.push_headers U.Pom_Connect_Ind.bearer_indication].
    repeat (split; [reflexivity|]). split; [exact Hno|]. split; [reflexivity|].
    destruct (http_header_find_all hs "Bearer-Indication") as [|[n v] [|y l]];
      try (injection Hs as ->; reflexivity).
    cbn zeta in Hs.
    destruct (wsp_bearer_indication_to_cstr _) as [name|] eqn:Er; [|discriminate].
    destruct (_ =? 0) eqn:E0; [discriminate|]. injection Hs as ->.
    exists name. split; [reflexivity|]. split; [now apply Z.eqb_neq|reflexivity].
  - cbn. intros [= <-]. cbn. repeat split.
Qed.

(** Whatever resume indication reaches the PPG: it carries the address
    tuple and session id of the [S_Resume_Ind]; its client headers are those
    of the event without every Bearer-Indication header; and a bearer
    indication is passed on only for exactly one such header with a
    registered code other than 0.  With one header of any other code there
    is no indication at all: the bearer list is used after its
    destruction. *)
Theorem indicate_push_resume_dispatched (e : P.S_Resume_Ind.t) :
  match P.S_Resume_Ind.client_headers e with
  | None =>
      indicate_push_resume e
      = Some {| P.Pom_Resume_Ind.addr_tuple := P.S_Resume_Ind.addr_tuple e;
                P.Pom_Resume_Ind.bearer_indication := None;
                P.Pom_Resume_Ind.client_headers := None;
                P.Pom_Resume_Ind.session_id := P.S_Resume_Ind.session_id e |}
  | Some hs =>
      let bearer :=
        match http_header_find_all hs "Bearer-Indication" with
        | [(n, v)] =>
            match wsp_bearer_indication_to_cstr (bearer_code v) with
            | Some name =>
                if bearer_code v =? 0 then None
                else Some (Some [("Bearer-Indication", c_str name)])
            | None => None
            end
        | _ => Some None
        end in
      indicate_push_resume e
      = option_map
          (fun b =>
             {| P.Pom_Resume_Ind.addr_tuple := P.S_Resume_Ind.addr_tuple e;
                P.Pom_Resume_Ind.bearer_indication := b;
                P.Pom_Resume_Ind.client_headers :=
                  Some (fst (http_header_remove_all hs "Bearer-Indication"));
                P.Pom_Resume_Ind.session_id := P.S_Resume_Ind.session_id e |})
          bearer
  end.
Proof.
  unfold indicate_push_resume.
  destruct (P.S_Resume_Ind.client_headers e) as [hs|]; [|reflexivity].
  pose proof (decode_bearer_indication_cases wsp_bearer_indication_to_cstr hs
                http_create_empty_headers) as [Hf Hs].
  destruct (decode_bearer_indication _ (Some hs) _) as [ph bhs].
  cbn [fst snd] in Hf, Hs. subst ph bhs.
  destruct (http_header_find_all hs "Bearer-Indication") as [|[n v] [|y l]];
    try reflexivity.
  cbn zeta. destruct (wsp_bearer_indication_to_cstr _) as [name|]; [|reflexivity].
  destruct (_ =? 0); reflexivity.
Qed.

End Push_more.

(** ** The event loop *)

Section Main_more.

Variable wml_compile : option Octstr -> Octstr -> Z * Octstr.
Variable ws_compile_data : string -> option Octstr -> Z * Octstr.
Variable charsets : list Octstr.
Variable http_type_accepted : list header -> string -> bool.
Variable http_charset_accepted : list header -> string -> bool.
Variable http_header_combine : list header -> list header -> list header.
Variable http_remove_hop_headers : list header -> list header.
Variable http_header_pack : list header -> list header.
Variable http_header_get_content_type : list header -> Octstr * Octstr.
Variable http_header_mark_transformation :
  list header -> option Octstr -> Octstr -> list header.
Variable http_name2method : Octstr -> Z.
Variable gateway_time : option Octstr.
Variable official_name : Octstr.
Variable GW_NAME : string.
Variable VERSION : string.
Variable wsp_smart_errors : Z.
Variable device_home : option Octstr.
Variable error_requesting_back : Octstr -> Octstr -> Octstr.
Variable error_requesting : Octstr -> Octstr.
Variable wsp_http_map_list : list wsp_http_map.
Variable wsp_application_id_to_cstr : Z -> option string.
Variable wsp_bearer_indication_to_cstr : Z -> option string.
Variable coded_value_address : Z -> Z.
Variable header_outside : list header -> Z -> option header.
Variable Cap : Type.
Variable have_ppg : Z.
Variable wap_push_ppg_have_push_session_for : WAPAddrTuple -> Z.
Variable wap_push_ppg_have_push_session_for_sid : Z -> Z.
Variable created_server_headers : option (list header).

Local Notation start_fetch :=
  (start_fetch wml_compile ws_compile_data charsets http_type_accepted
     http_charset_accepted http_header_combine http_remove_hop_headers
     http_header_pack http_name2method official_name GW_NAME VERSION
     wsp_http_map_list).
Local Notation return_reply :=
  (return_reply wml_compile ws_compile_data http_type_accepted
     http_remove_hop_headers http_header_get_content_type
     http_header_mark_transformation gateway_time wsp_smart_errors device_home
     error_requesting_back error_requesting).
Local Notation perform_return_reply :=
  (perform_return_reply wml_compile ws_compile_data http_type_accepted
     http_remove_hop_headers http_header_get_content_type
     http_header_mark_transformation gateway_time wsp_smart_errors device_home
     error_requesting_back error_requesting).
Local Notation main_thread_fetch :=
  (main_thread_fetch wml_compile ws_compile_data charsets http_type_accepted
     http_charset_accepted http_header_combine http_remove_hop_headers
     http_header_pack http_header_get_content_type
     http_header_mark_transformation http_name2method gateway_time
     official_name GW_NAME VERSION wsp_smart_errors device_home
     error_requesting_back error_requesting wsp_http_map_list Cap).
Local Notation main_thread_turn :=
  (main_thread_turn wml_compile ws_compile_data charsets http_type_accepted
     http_charset_accepted http_header_combine http_remove_hop_headers
     http_header_pack http_header_get_content_type
     http_header_mark_transformation http_name2method gateway_time
     official_name GW_NAME VERSION wsp_smart_errors device_home
     error_requesting_back error_requesting wsp_http_map_list
     wsp_application_id_to_cstr wsp_bearer_indication_to_cstr
     coded_value_address header_outside Cap have_ppg
     wap_push_ppg_have_push_session_for wap_push_ppg_have_push_session_for_sid
     created_server_headers).
Local Notation indicate_push_connection :=
  (indicate_push_connection wsp_application_id_to_cstr
     wsp_bearer_indication_to_cstr coded_value_address header_outside Cap).
Local Notation indicate_push_resume :=
  (indicate_push_resume wsp_bearer_indication_to_cstr).
Local Notation bearer_code v := (unsigned_char_of (octstr_get_char v 0)).

(** The call [start_fetch] ends with is made for the event it was given,
    under the session id of that event. *)
Lemma start_fetch_call (ms : machines) (event : WAPEvent) :
  (forall c, start_fetch ms event = Some (Call_return_reply c) ->
             Reply_call.orig_event c = event
             /\ Reply_call.session_id c = invoke_session_id event)
  /\ (forall method url hs body follow p,
         start_fetch ms event
         = Some (Call_http_start_request method url hs body follow p) ->
         Request_data.event p = event
         /\ Request_data.session_id p = invoke_session_id event).
Proof.
  unfold start_fetch.
  destruct event as [q|q|q|q]; cbn [invoke_session_id];
    try (split; intros; discriminate);
    (destruct (wsp_http_map_url _ _) as [url0|]; [|split; intros; discriminate]);
    destruct (fetch_headers _ _ _ _ _ _ _ _ _ _ _ _ _ _ _ _ _) as [actual_headers x_wap_tod];
    (split; [intros c Hs|intros method url hs body follow p Hs]);
    (destruct (is_method _ "GET" && _);
     [|destruct (is_method _ "GET" || is_method _ "POST" || is_method _ "HEAD")]);
    try discriminate; injection Hs; intros; subst; cbn; auto.
Qed.

(** What [main_thread_fetch] adds to the events dispatched before: when
    the turn is done, one reply that answers the event, or one request made
    for it; otherwise nothing. *)
Lemma main_thread_fetch_out (ms : machines) (event : WAPEvent)
    (before : list (Out.t Cap)) :
  match main_thread_fetch ms event before with
  | Turn_done out ms' =>
      (exists e, out = (before ++ [Out.Reply e])%list /\ answers event e
                 /\ out_session (Out.Reply (Cap := Cap) e)
                    = Some (invoke_session_id event))
      \/ (exists method url hs body follow p,
             out = (before ++ [Out.Http_start_request method url hs body follow p])%list
             /\ Request_data.event p = event
             /\ Request_data.session_id p = invoke_session_id event
             /\ ms' = ms)
  | Turn_stopped out => out = before
  | Turn_running out => out = before
  end.
Proof.
  unfold main_thread_fetch.
  destruct (start_fetch_call ms event) as [Hr Hh].
  destruct (start_fetch ms event) as [[c|method url hs body follow p]|];
    [| |reflexivity].
  - destruct (Hr c eq_refl) as [He Hs].
    destruct (perform_return_reply ms c) as [o|] eqn:Ho; [|reflexivity].
    left. exists (emitted o). split; [reflexivity|].
    unfold perform_return_reply in Ho. rewrite He, Hs in Ho.
    apply return_reply_inv in Ho
      as (s1 & c1 & h1 & ms1 & s2 & c2 & h2 & _ & _ & Hev & _ & _).
    split; [exact (reply_event_answers _ _ _ _ _ Hev)|].
    unfold reply_event in Hev. destruct event; try discriminate;
      injection Hev as <-; reflexivity.
  - destruct (Hh _ _ _ _ _ _ eq_refl) as [He Hs]. right.
    exists method, url, hs, body, follow, p. auto.
Qed.

(** Every session request is acknowledged before anything else, stop or
    not: the first event of the turn is the [S_MethodInvoke_Res] with the
    transaction and session ids of the request.  When the turn is done,
    exactly one more thing has happened for a session request, and exactly
    one for a connectionless one: either the reply that answers the request
    was dispatched, or the HTTP request was submitted whose request data
    hold the event and its session id. *)
Theorem main_thread_invoke (fuel : nat) (ms : machines) :
  (forall q,
      let event := S_MethodInvoke_Ind q in
      let res :=
        Out.S_MethodInvoke_Res (Cap := Cap)
          {| P.S_MethodInvoke_Res.server_transaction_id :=
               U.S_MethodInvoke_Ind.server_transaction_id q;
             P.S_MethodInvoke_Res.session_id := U.S_MethodInvoke_Ind.session_id q |} in
      match main_thread_turn fuel ms (Queued.S_MethodInvoke_Ind q) with
      | Turn_done out ms' =>
          (exists e, out = [res; Out.Reply e] /\ answers event e)
          \/ (exists method url hs body follow p,
                 out = [res; Out.Http_start_request method url hs body follow p]
                 /\ Request_data.event p = event
                 /\ Request_data.session_id p = U.S_MethodInvoke_Ind.session_id q
                 /\ ms' = ms)
      | Turn_stopped out => out = [res]
      | Turn_running out => out = [res]
      end)
  /\ (forall q,
         let event := S_Unit_MethodInvoke_Ind q in
         match main_thread_turn fuel ms (Queued.S_Unit_MethodInvoke_Ind q) with
         | Turn_done out ms' =>
             (exists e, out = [Out.Reply e] /\ answers event e)
             \/ (exists method url hs body follow p,
                    out = [Out.Http_start_request method url hs body follow p]
                    /\ Request_data.event p = event
                    /\ Request_data.session_id p = -1
                    /\ ms' = ms)
         | Turn_stopped out => out = []
         | Turn_running out => out = []
         end).
Proof.
  split; intros q; cbn zeta; cbn [main_thread_turn].
  - match goal with
    | |- context [main_thread_fetch ms ?ev ?b] =>
        pose proof (main_thread_fetch_out ms ev b) as H;
        destruct (main_thread_fetch ms ev b) as [out ms'|out|out]
    end; [|exact H|exact H].
    destruct H as [(e & -> & Ha & _)|(m & u & h & b & f & p & -> & He & Hs & ->)].
    + left. exists e. auto.
    + right. exists m, u, h, b, f, p. auto.
  - match goal with
    | |- context [main_thread_fetch ms ?ev ?b] =>
        pose proof (main_thread_fetch_out ms ev b) as H;
        destruct (main_thread_fetch ms ev b) as [out ms'|out|out]
    end; [|exact H|exact H].
    destruct H as [(e & -> & Ha & _)|(m & u & h & b & f & p & -> & He & Hs & ->)].
    + left. exists e. auto.
    + right. exists m, u, h, b, f, p. auto.
Qed.

Lemma indicate_push_connection_session (fuel : nat) (e : U.S_Connect_Ind.t Cap)
    (p : U.Pom_Connect_Ind.t Cap) :
  indicate_push_connection fuel e = Returned p ->
  U.Pom_Connect_Ind.session_id p = U.S_Connect_Ind.session_id e.
Proof.
  unfold indicate_push_connection.
  destruct (check_application_headers _ _ _ _ _ _) as [[h1 a]|b|b];
    [|discriminate|discriminate].
  destruct (decode_bearer_indication _ _ _) as [ph [bh|]]; [|discriminate].
  intros [= <-]. reflexivity.
Qed.

Lemma indicate_push_resume_session (e : P.S_Resume_Ind.t) (p : P.Pom_Resume_Ind.t) :
  indicate_push_resume e = Some p ->
  P.Pom_Resume_Ind.session_id p = P.S_Resume_Ind.session_id e.
Proof.
  unfold indicate_push_resume.
  destruct (decode_bearer_indication _ _ _) as [ph [bh|]]; [|discriminate].
  intros [= <-]. reflexivity.
Qed.

(** Nothing leaves a turn under a foreign session: every event dispatched
    to the WSP layer or to the PPG, and every HTTP request submitted, while
    one event of the queue is handled carries the session id (or session
    handle) of that event; for a connectionless request that is -1. *)
Theorem main_thread_turn_session (fuel : nat) (ms : machines)
    (ind : Queued.t Cap) (x : Out.t Cap) :
  In x (turn_out (main_thread_turn fuel ms ind)) ->
  out_session x = queued_session ind.
Proof.
  destruct ind as [q|q|q|q|q|q| |q| |q|q|name];
    cbn [main_thread_turn queued_session].
  - match goal with
    | |- context [main_thread_fetch ms ?ev ?b] =>
        pose proof (main_thread_fetch_out ms ev b) as H;
        destruct (main_thread_fetch ms ev b) as [out ms'|out|out]
    end; cbn [turn_out].
    + destruct H as [(e & -> & _ & Hs)|(m & u & h & b & f & p & -> & _ & Hs & _)];
        cbn [In app]; intros [<-|[<-|[]]]; cbn [out_session]; try reflexivity.
      * exact Hs.
      * now rewrite Hs.
    + subst out. intros [<-|[]]. reflexivity.
    + subst out. intros [<-|[]]. reflexivity.
  - match goal with
    | |- context [main_thread_fetch ms ?ev ?b] =>
        pose proof (main_thread_fetch_out ms ev b) as H;
        destruct (main_thread_fetch ms ev b) as [out ms'|out|out]
    end; cbn [turn_out].
    + destruct H as [(e & -> & _ & Hs)|(m & u & h & b & f & p & -> & _ & Hs & _)];
        cbn [In app]; intros [<-|[]]; cbn [out_session].
      * exact Hs.
      * now rewrite Hs.
    + subst out. intros [].
    + subst out. intros [].
  - destruct (_ && _).
    + destruct (indicate_push_connection fuel q) as [p|b|b] eqn:E;
        cbn [turn_out In]; try tauto.
      intros [<-|[]]. cbn [out_session].
      now rewrite (indicate_push_connection_session _ _ _ E).
    + cbn [turn_out In]. intros [<-|[]]. reflexivity.
  - destruct (_ && _); cbn [turn_out In]; [|tauto]. intros [<-|[]]. reflexivity.
  - destruct (negb _); cbn [turn_out In]; [|tauto]. intros [<-|[]]. reflexivity.
  - destruct (_ && _).
    + destruct (indicate_push_resume q) as [p|] eqn:E; cbn [turn_out In];
        [|tauto].
      intros [<-|[]]. cbn [out_session].
      now rewrite (indicate_push_resume_session _ _ E).
    + cbn [turn_out In]. intros [<-|[]]. reflexivity.
  - intros [].
  - cbn [turn_out In]. intros [<-|[]]. reflexivity.
  - intros [].
  - cbn [turn_out In]. intros [<-|[]]. reflexivity.
  - cbn [turn_out In]. intros [<-|[]]. reflexivity.
  - intros [].
Qed.

(** A gateway set up without a PPG: every session-control event is handled
    to the end and leaves the session machines alone; at most one event is
    dispatched for it; and the PPG is handed an event only for
    [S_Suspend_Ind], [S_ConfirmedPush_Cnf] and [S_PushAbort_Ind], the three
    cases that do not ask for [have_ppg].  No request of a client reaches
    the PPG either. *)
Theorem main_thread_without_ppg (fuel : nat) (ms : machines)
    (ind : Queued.t Cap) :
  have_ppg = 0 ->
  (session_control ind = true ->
   exists out,
     main_thread_turn fuel ms ind = Turn_done out ms
     /\ (List.length out <= 1)%nat)
  /\ (forall x, In x (turn_out (main_thread_turn fuel ms ind)) ->
                to_ppg x = true -> push_unguarded ind = true).
Proof.
  intros ->. split.
  - destruct ind as [q|q|q|q|q|q| |q| |q|q|name]; cbn [session_control];
      try discriminate; intros _; cbn [main_thread_turn Z.eqb negb andb];
      try (eexists; split; [reflexivity|cbn; lia]).
    destruct (negb _); eexists; (split; [reflexivity|cbn; lia]).
  - intros x.
    destruct ind as [q|q|q|q|q|q| |q| |q|q|name];
      cbn [main_thread_turn Z.eqb negb andb push_unguarded turn_out In];
      try tauto; try (intros [<-|[]]; cbn; congruence).
    + match goal with
      | |- context [main_thread_fetch ms ?ev ?b] =>
          pose proof (main_thread_fetch_out ms ev b) as H;
          destruct (main_thread_fetch ms ev b) as [out ms'|out|out]
      end; cbn [turn_out].
      * destruct H as [(e & -> & _)|(m & u & h & b & f & p & -> & _)];
          cbn [In app]; intros [<-|[<-|[]]]; cbn; congruence.
      * subst out. intros [<-|[]]; cbn; congruence.
      * subst out. intros [<-|[]]; cbn; congruence.
    + match goal with
      | |- context [main_thread_fetch ms ?ev ?b] =>
          pose proof (main_thread_fetch_out ms ev b) as H;
          destruct (main_thread_fetch ms ev b) as [out ms'|out|out]
      end; cbn [turn_out].
      * destruct H as [(e & -> & _)|(m & u & h & b & f & p & -> & _)];
          cbn [In app]; intros [<-|[]]; cbn; congruence.
      * subst out. intros [].
      * subst out. intros [].
Qed.

(** With a PPG and a push session, one Bearer-Indication header whose code
    is 0 or not registered ends the turn without any event: a connect
    indication is not handled to the end, and for a resume indication the
    bearer list is used after its destruction. *)
Theorem push_illegal_bearer_stops (fuel : nat) (ms : machines)
    (hs : list header) (n v : string) :
  have_ppg <> 0 ->
  http_header_find_all hs "Bearer-Indication" = [(n, v)] ->
  wsp_bearer_indication_to_cstr (bearer_code v) = None \/ bearer_code v = 0 ->
  (forall q,
      wap_push_ppg_have_push_session_for (U.S_Connect_Ind.addr_tuple q) <> 0 ->
      U.S_Connect_Ind.client_headers q = Some hs ->
      turn_out (main_thread_turn fuel ms (Queued.S_Connect_Ind q)) = []
      /\ forall out ms',
           main_thread_turn fuel ms (Queued.S_Connect_Ind q) <> Turn_done out ms')
  /\ (forall q,
         wap_push_ppg_have_push_session_for_sid (P.S_Resume_Ind.session_id q) <> 0 ->
         P.S_Resume_Ind.client_headers q = Some hs ->
         main_thread_turn fuel ms (Queued.S_Resume_Ind q) = Turn_stopped []).
Proof.
  intros Hp Hf Hbad.
  assert (Hd : forall bh,
             snd (decode_bearer_indication wsp_bearer_indication_to_cstr
                    (Some hs) bh) = None).
  { intros bh.
    rewrite (proj2 (decode_bearer_indication_cases _ hs bh)), Hf. cbn zeta.
    destruct Hbad as [-> | ->]; [reflexivity|].
    now destruct (wsp_bearer_indication_to_cstr 0). }
  assert (Hpp : negb (have_ppg =? 0) = true)
    by (apply negb_true_iff, Z.eqb_neq; exact Hp).
  split; intros q Hsess Hh; cbn [main_thread_turn]; rewrite Hpp;
    apply Z.eqb_neq in Hsess; rewrite Hsess; cbn [negb andb].
  - unfold indicate_push_connection. rewrite Hh.
    destruct (check_application_headers _ _ _ fuel (Some hs) _)
      as [[h1 a]|b|b] eqn:Ec; cbn [turn_out]; try (split; [reflexivity|discriminate]).
    apply check_application_headers_returned in Ec as (-> & _ & _).
    pose proof (Hd http_create_empty_headers) as Hn.
    destruct (decode_bearer_indication _ (Some hs) _) as [ph bhs].
    cbn [snd] in Hn. subst bhs. split; [reflexivity|discriminate].
  - unfold indicate_push_resume. rewrite Hh.
    pose proof (Hd http_create_empty_headers) as Hn.
    destruct (decode_bearer_indication _ (Some hs) _) as [ph bhs].
    cbn [snd] in Hn. subst bhs. reflexivity.
Qed.

End Main_more.

(** ** The public interface *)

Lemma appl_calls_terminating (Cfg E : Type) (st st' : appl_state)
    (cs : list (appl_call Cfg E)) :
  run_status st = terminating -> appl_calls st cs = Some st' -> cs = [].
Proof.
  intros Ht. destruct cs as [|c rest]; [reflexivity|]. cbn [appl_calls].
  destruct c; cbn; unfold wap_appl_init, wap_appl_shutdown, wap_appl_dispatch,
    wap_appl_get_load; rewrite Ht; discriminate.
Qed.

Lemma appl_calls_running (Cfg E : Type) (cs : list (appl_call Cfg E))
    (st st' : appl_state) :
  run_status st = running -> appl_calls st cs = Some st' ->
  exists work,
    forallb is_work work = true
    /\ have_ppg st' = have_ppg st
    /\ ((cs = work /\ run_status st' = running)
        \/ (cs = (work ++ [Call_shutdown])%list /\ run_status st' = terminating)).
Proof.
  revert st. induction cs as [|c rest IH]; intros st Hr.
  - intros [= <-]. exists []. auto.
  - cbn [appl_calls]. destruct c as [cfg| |e|f ql]; cbn [appl_call_step];
      unfold wap_appl_init, wap_appl_shutdown, wap_appl_dispatch, wap_appl_get_load;
      rewrite Hr; cbn [run_status_eqb option_map fst].
    + discriminate.
    + intros H. apply appl_calls_terminating in H as Hnil; [|reflexivity].
      subst rest. injection H as <-. exists []. cbn. auto.
    + intros H. destruct (IH st Hr H) as (work & Hw & Hp & Hc).
      exists (Call_dispatch e :: work). cbn [forallb is_work andb].
      split; [exact Hw|]. split; [exact Hp|].
      destruct Hc as [[-> Hs]|[-> Hs]]; [left|right]; auto.
    + intros H. destruct (IH st Hr H) as (work & Hw & Hp & Hc).
      exists (Call_get_load f ql :: work). cbn [forallb is_work andb].
      split; [exact Hw|]. split; [exact Hp|].
      destruct Hc as [[-> Hs]|[-> Hs]]; [left|right]; auto.
Qed.

(** The order of the public calls: a sequence in which no assertion fails
    is empty, or it is one [wap_appl_init], then calls of
    [wap_appl_dispatch] and [wap_appl_get_load] only, then at most one
    [wap_appl_shutdown], and nothing after that.  The layer cannot be
    initialised twice, nor again after its shutdown, which leaves the status
    [terminating]; and [have_ppg] is 1 exactly when the configuration given
    to the one [wap_appl_init] was not NULL. *)
Theorem wap_appl_call_order (Cfg E : Type) (cs : list (appl_call Cfg E))
    (st : appl_state) :
  appl_calls appl_initial cs = Some st ->
  (cs = [] /\ st = appl_initial)
  \/ exists cfg work,
       forallb is_work work = true
       /\ have_ppg st = match cfg with Some _ => 1 | None => 0 end
       /\ ((cs = Call_init cfg :: work /\ run_status st = running)
           \/ (cs = Call_init cfg :: (work ++ [Call_shutdown])%list
               /\ run_status st = terminating)).
Proof.
  destruct cs as [|c rest]; [intros [= <-]; auto|].
  destruct c as [cfg| |e|f ql]; cbn; try discriminate.
  intros H. right.
  apply appl_calls_running in H as (work & Hw & Hp & Hc); [|reflexivity].
  exists cfg, work. split; [exact Hw|]. split; [exact Hp|].
  destruct Hc as [[-> Hs]|[-> Hs]]; [left|right]; auto.
Qed.

(** *** At concrete inputs *)

Lemma indicate_push_connection_dispatched_witness :
  exists p,
    Sample_push.run_indicate_push_connection 1
      (Sample_push.connect
         (Some [("Bearer-Indication", Sample_push.octet 10); ("X-Id", "a")]))
    = Returned p
    /\ U.Pom_Connect_Ind.session_id p = 7
    /\ U.Pom_Connect_Ind.accept_application p = [("Accept-Application", "wml ua")]
    /\ U.Pom_Connect_Ind.push_headers p = Some [("X-Id", "a")]
    /\ U.Pom_Connect_Ind.bearer_indication p
       = Some [("Bearer-Indication", "GSM_CSD_IPV4")].
Proof.
  eexists. split; [vm_compute; reflexivity|].
  match goal with
  | |- context [U.Pom_Connect_Ind.session_id ?p] =>
      destruct (indicate_push_connection_dispatched Sample.application_id
                  Sample_push.bearer_indication Sample.heap_address
                  Sample.stop_outside Z 1
                  (Sample_push.connect
                     (Some [("Bearer-Indication", Sample_push.octet 10);
                            ("X-Id", "a")]))
                  p eq_refl) as (_ & _ & Hs & Ha & _ & Hp & name & Hn & _ & Hb)
  end.
  vm_compute in Hn. injection Hn as <-.
  split; [exact Hs|]. split; [exact Ha|]. split; [exact Hp|exact Hb].
Defined.

Lemma main_thread_turn_session_witness :
  In (Out.S_MethodInvoke_Res
        {| P.S_MethodInvoke_Res.server_transaction_id := 42;
           P.S_MethodInvoke_Res.session_id := 7 |})
     (turn_out (Sample_push.run_main_thread_turn 0 0 1 Sample.one_machine
                  (Queued.S_MethodInvoke_Ind Sample_push.alive)))
  /\ out_session (Cap := Z)
       (Out.S_MethodInvoke_Res
          {| P.S_MethodInvoke_Res.server_transaction_id := 42;
             P.S_MethodInvoke_Res.session_id := 7 |})
     = queued_session (Cap := Z) (Queued.S_MethodInvoke_Ind Sample_push.alive).
Proof.
  assert (H : In (Out.S_MethodInvoke_Res
                    {| P.S_MethodInvoke_Res.server_transaction_id := 42;
                       P.S_MethodInvoke_Res.session_id := 7 |})
                 (turn_out (Sample_push.run_main_thread_turn 0 0 1 Sample.one_machine
                              (Queued.S_MethodInvoke_Ind Sample_push.alive))))
    by (vm_compute; left; reflexivity).
  split; [exact H|].
  unfold Sample_push.run_main_thread_turn in H.
  exact (main_thread_turn_session _ _ _ _ _ _ _ _ _ _ _ _ _ _ _ _ _ _ _ _ _ _ _
           _ _ _ _ _ _ _ _ _ _ H).
Defined.

Lemma main_thread_without_ppg_witness :
  (exists out,
      Sample_push.run_main_thread_turn 0 1 1 Sample.one_machine
        (Queued.S_Connect_Ind (Sample_push.connect (Some [("Accept-Application", "x")])))
      = Turn_done out Sample.one_machine
      /\ (List.length out <= 1)%nat)
  /\ (forall x,
         In x (turn_out (Sample_push.run_main_thread_turn 0 1 1 Sample.one_machine
                           (Queued.S_Connect_Ind
                              (Sample_push.connect (Some [("Accept-Application", "x")]))))) ->
         to_ppg x = true -> False).
Proof.
  unfold Sample_push.run_main_thread_turn.
  match goal with
  | |- context [main_thread_turn ?a1 ?a2 ?a3 ?a4 ?a5 ?a6 ?a7 ?a8 ?a9 ?a10 ?a11 ?a12
                  ?a13 ?a14 ?a15 ?a16 ?a17 ?a18 ?a19 ?a20 ?a21 ?a22 ?a23 ?a24
                  ?a25 ?a26 ?a27 ?a28 ?a29 ?f ?ms ?ind] =>
      destruct (main_thread_without_ppg a1 a2 a3 a4 a5 a6 a7 a8 a9 a10 a11 a12
                  a13 a14 a15 a16 a17 a18 a19 a20 a21 a22 a23 a24 a25 a26
                  a27 a28 a29 f ms ind eq_refl) as [H1 H2]
  end.
  split; [exact (H1 eq_refl)|].
  intros x Hin Hp. specialize (H2 x Hin Hp). discriminate.
Defined.

Lemma push_illegal_bearer_stops_witness :
  turn_out (Sample_push.run_main_thread_turn 1 1 5 Sample.no_machines
              (Queued.S_Connect_Ind
                 (Sample_push.connect (Some [("Bearer-Indication", Sample_push.octet 11)]))))
  = []
  /\ Sample_push.run_main_thread_turn 1 1 5 Sample.no_machines
       (Queued.S_Resume_Ind
          (Sample_push.resume (Some [("Bearer-Indication", Sample_push.octet 11)])))
     = Turn_stopped [].
Proof.
  unfold Sample_push.run_main_thread_turn.
  match goal with
  | |- context [main_thread_turn ?a1 ?a2 ?a3 ?a4 ?a5 ?a6 ?a7 ?a8 ?a9 ?a10 ?a11 ?a12
                  ?a13 ?a14 ?a15 ?a16 ?a17 ?a18 ?a19 ?a20 ?a21 ?a22 ?a23 ?a24
                  ?a25 ?a26 ?a27 ?a28 ?a29 ?f ?ms _] =>
      destruct (push_illegal_bearer_stops a1 a2 a3 a4 a5 a6 a7 a8 a9 a10 a11 a12
                  a13 a14 a15 a16 a17 a18 a19 a20 a21 a22 a23 a24 a25 a26
                  a27 a28 a29 f ms
                  [("Bearer-Indication", Sample_push.octet 11)]
                  "Bearer-Indication" (Sample_push.octet 11)
                  ltac:(discriminate) eq_refl (or_introl eq_refl)) as [Hc Hr]
  end.
  split.
  - apply (Hc (Sample_push.connect
                 (Some [("Bearer-Indication", Sample_push.octet 11)])));
      [discriminate|reflexivity].
  - apply (Hr (Sample_push.resume
                 (Some [("Bearer-Indication", Sample_push.octet 11)])));
      [discriminate|reflexivity].
Defined.

Lemma wap_appl_call_order_witness :
  appl_calls appl_initial
    [Call_init (Some tt); Call_dispatch 5; Call_get_load 1 2; Call_shutdown]
  = Some {| run_status := terminating; have_ppg := 1 |}
  /\ appl_calls (E := Z) appl_initial
       [Call_init (Some tt); Call_shutdown; Call_init (Some tt)]
     = (None : option appl_state)
  /\ exists (cfg : option unit) (work : list (appl_call unit Z)),
       forallb is_work work = true
       /\ [Call_init (Some tt); Call_dispatch 5; Call_get_load 1 2; Call_shutdown]
          = Call_init cfg :: (work ++ [Call_shutdown])%list.
Proof.
  split; [reflexivity|]. split; [reflexivity|].
  destruct (wap_appl_call_order unit Z
              [Call_init (Some tt); Call_dispatch 5; Call_get_load 1 2;
               Call_shutdown]
              {| run_status := terminating; have_ppg := 1 |} eq_refl)
    as [[H _]|(cfg & work & Hw & _ & [[_ Hs]|[Hc _]])].
  - discriminate.
  - discriminate.
  - exists cfg, work. auto.
Defined.


(** * Delivery reports in LibSDB *)

Section Dlr_properties.

Variable fields : Dlr.dlr_db_fields.
Variable sdb_conn_type : Z.
Variable sdb_query : string -> Z * list (list string).
Variable atoi : string -> Z.
Variable atol : string -> Z.
Variable created : Dlr.dlr_entry.

Local Notation sdb_callback_add := (Dlr.sdb_callback_add atoi).
Local Notation dlr_sdb_get :=
  (Dlr.dlr_sdb_get fields sdb_conn_type sdb_query atoi created).
Local Notation operation_trace :=
  (Dlr.operation_trace fields sdb_conn_type sdb_query atoi atol created).
Local Notation six p := (Z.of_nat (List.length p) =? 6).

(** Once a row is stored, no later row changes the entry. *)
Lemma callback_stored (rows : list (list string)) (res : Dlr.dlr_entry) :
  Dlr.destination res <> None ->
  fold_left (fun r p => sdb_callback_add p r) rows res = res.
Proof.
  intros Hd. induction rows as [|p rest IH]; [reflexivity|]. cbn [fold_left].
  replace (sdb_callback_add p res) with res; [exact IH|].
  unfold Dlr.sdb_callback_add. destruct (negb _); [reflexivity|].
  destruct (Dlr.destination res); [reflexivity|contradiction].
Qed.

Lemma callback_first (rows : list (list string)) (res : Dlr.dlr_entry) :
  Dlr.destination res = None ->
  fold_left (fun r p => sdb_callback_add p r) rows res
  = match find (fun p => six p) rows with
    | Some p => sdb_callback_add p res
    | None => res
    end.
Proof.
  intros Hd. induction rows as [|p rest IH]; [reflexivity|].
  cbn [fold_left find]. destruct (six p) eqn:E.
  - apply callback_stored. unfold Dlr.sdb_callback_add. rewrite E, Hd. cbn.
    discriminate.
  - replace (sdb_callback_add p res) with res; [exact IH|].
    unfold Dlr.sdb_callback_add. now rewrite E.
Qed.

(** What [dlr_sdb_get] returns: nothing when the query failed (-1) or
    found no row (0); otherwise an entry for the SMSC asked for whose
    source, destination, service, URL, box id and mask are those of the
    first row with six columns, in the order mask, service, URL, source,
    destination, box id.  Rows of another width are passed over and rows
    after the first stored one are ignored; when no row has six columns the
    entry is the new one, with only its SMSC set. *)
Theorem dlr_sdb_get_first_row (smsc0 ts dst : Octstr) (state : Z)
    (rows : list (list string)) :
  Dlr.destination created = None ->
  sdb_query (Dlr.select_sql fields sdb_conn_type smsc0 ts) = (state, rows) ->
  snd (dlr_sdb_get smsc0 ts dst)
  = if (state =? -1) || (state =? 0) then None
    else
      match find (fun p => six p) rows with
      | Some p =>
          Some {| Dlr.smsc := Some smsc0;
                  Dlr.timestamp := Dlr.timestamp created;
                  Dlr.source := Some (c_str (nth 3 p EmptyString));
                  Dlr.destination := Some (c_str (nth 4 p EmptyString));
                  Dlr.service := Some (c_str (nth 1 p EmptyString));
                  Dlr.url := Some (c_str (nth 2 p EmptyString));
                  Dlr.boxc_id := Some (c_str (nth 5 p EmptyString));
                  Dlr.mask := int_of (atoi (nth 0 p EmptyString)) |}
      | None =>
          Some {| Dlr.smsc := Some smsc0;
                  Dlr.timestamp := Dlr.timestamp created;
                  Dlr.source := Dlr.source created;
                  Dlr.destination := Dlr.destination created;
                  Dlr.service := Dlr.service created;
                  Dlr.url := Dlr.url created;
                  Dlr.boxc_id := Dlr.boxc_id created;
                  Dlr.mask := Dlr.mask created |}
      end.
Proof.
  intros Hd Hq. unfold Dlr.dlr_sdb_get. rewrite Hq.
  destruct (state =? -1); [reflexivity|].
  destruct (state =? 0); [reflexivity|]. cbn [orb snd].
  rewrite (callback_first rows created Hd).
  destruct (find _ rows) as [p|] eqn:Ef; [|reflexivity].
  apply find_some in Ef as [_ E6].
  unfold Dlr.sdb_callback_add. rewrite E6, Hd. reflexivity.
Qed.

(** The mutex discipline of the storage operations, from a free mutex:
    every statement is sent while the mutex is held, and the operation
    leaves the mutex free, having locked and unlocked it once; except
    [dlr_sdb_messages] when its query fails, which unlocks the mutex a second
    time, when it is already free. *)
Theorem dlr_sdb_mutex (op : Dlr.operation) (t : list Dlr.event) :
  operation_trace op = Some t ->
  Dlr.queries_locked false t = true
  /\ Dlr.mutex_run false t
     = match op with
       | Dlr.Op_messages =>
           if fst (sdb_query (Dlr.messages_sql fields)) =? -1
           then None else Some false
       | _ => Some false
       end.
Proof.
  destruct op as [dlr|s ts d|s ts d st|s ts d| |]; cbn [Dlr.operation_trace].
  - unfold Dlr.dlr_sdb_add.
    destruct (Dlr.smsc dlr), (Dlr.timestamp dlr), (Dlr.source dlr),
      (Dlr.destination dlr), (Dlr.service dlr), (Dlr.url dlr), (Dlr.boxc_id dlr);
      try discriminate.
    intros [= <-]. split; reflexivity.
  - unfold Dlr.dlr_sdb_get. destruct (sdb_query _) as [state rows].
    destruct (state =? -1); [|destruct (state =? 0)];
      intros [= <-]; split; reflexivity.
  - intros [= <-]. split; reflexivity.
  - intros [= <-]. split; reflexivity.
  - unfold Dlr.dlr_sdb_messages. destruct (sdb_query _) as [state rows].
    cbn [fst]. destruct (state =? -1); intros [= <-]; split; reflexivity.
  - intros [= <-]. split; reflexivity.
Qed.

End Dlr_properties.

Lemma dlr_sdb_get_first_row_witness :
  snd (Dlr.dlr_sdb_get Sample_dlr.fields Dlr.SDB_OTHER Sample_dlr.two_rows
         Sample_dlr.atoi Sample_dlr.created "smsc1" "1042" "200")
  = Some {| Dlr.smsc := Some "smsc1"; Dlr.timestamp := None;
            Dlr.source := Some "100"; Dlr.destination := Some "200";
            Dlr.service := Some "sms"; Dlr.url := Some "http://a/";
            Dlr.boxc_id := Some "box1"; Dlr.mask := 31 |}.
Proof.
  exact (dlr_sdb_get_first_row Sample_dlr.fields Dlr.SDB_OTHER Sample_dlr.two_rows
           Sample_dlr.atoi Sample_dlr.created "smsc1" "1042" "200" 2 _
           eq_refl eq_refl).
Defined.

Lemma dlr_sdb_mutex_witness :
  Dlr.mutex_run false
    (fst (Dlr.dlr_sdb_messages Sample_dlr.fields Sample_dlr.failing Sample_dlr.atoi))
  = None
  /\ Dlr.mutex_run false
       (fst (Dlr.dlr_sdb_messages Sample_dlr.fields Sample_dlr.two_rows
               Sample_dlr.atoi))
     = Some false.
Proof.
  split.
  - exact (proj2 (dlr_sdb_mutex Sample_dlr.fields Dlr.SDB_OTHER Sample_dlr.failing
                    Sample_dlr.atoi Sample_dlr.atoi Sample_dlr.created
                    Dlr.Op_messages _ eq_refl)).
  - exact (proj2 (dlr_sdb_mutex Sample_dlr.fields Dlr.SDB_OTHER Sample_dlr.two_rows
                    Sample_dlr.atoi Sample_dlr.atoi Sample_dlr.created
                    Dlr.Op_messages _ eq_refl)).
Defined.
